(** * elda-backend: the speech-intent pipeline of [src/server.ts]

    A shallow embedding of the request handler of [POST /api/process-speech],
    of the classifier adapter [processTextWithGemini], of the JSON extraction
    [extractJsonFromString] and of the two Mongoose schemas
    ([models/Contact.ts], [models/Task.ts]), followed by the properties the
    specification states about them.

    Conventions of the embedding:
    - a JavaScript string is a [string] that holds the bytes of its UTF-8
      encoding, as a string literal of this file does: U+00A0 is the two
      bytes C2 A0, and a lone surrogate is its three bytes; the white
      space of [\s], of [String.prototype.trim] and of [parseInt] is the
      white space and the line terminators of ECMAScript, read from these
      bytes ([JsString]);
    - a JavaScript number is a primitive float;
    - a value that may be [undefined], [null] or a string is a [JsText];
    - an exception is a value of [Thrown]; code that may throw, log and
      touch the two collections runs in the monad [M];
    - what the platform provides and the repository does not implement
      ([JSON.parse], the regular expressions built by [new RegExp(src, 'i')])
      is a [Platform]; [LitePlatform] implements a fragment of it, for
      evaluating the code on concrete inputs. *)

From Stdlib Require Import String Ascii List Bool Arith PeanoNat NArith Lia.
From Stdlib Require Import Floats ZArith Uint63.
From Stdlib Require Import Sorting.Sorted Sorting.Permutation.
Import ListNotations.
Local Open Scope list_scope.
Local Open Scope string_scope.
Local Open Scope nat_scope.

Set Implicit Arguments.
Set Warnings "-register-all".

(* ================================================================== *)
(** ** JavaScript strings *)

Module JsString.

(** The code points of [WhiteSpace] (TAB, VT, FF, ZWNBSP and the space
    separators of Unicode: SPACE, NBSP, U+1680, U+2000 to U+200A, U+202F,
    U+205F, U+3000) and of [LineTerminator] (LF, CR, LS, PS). *)
Definition whiteSpace : list N :=
  [0x9; 0xB; 0xC; 0xFEFF;
   0x20; 0xA0; 0x1680;
   0x2000; 0x2001; 0x2002; 0x2003; 0x2004; 0x2005; 0x2006; 0x2007; 0x2008; 0x2009; 0x200A;
   0x202F; 0x205F; 0x3000]%N.

Definition lineTerminator : list N := [0xA; 0xD; 0x2028; 0x2029]%N.

(** What [\s] matches and what [trim] and [parseInt] strip. *)
Definition is_space (codePoint : N) : bool :=
  existsb (N.eqb codePoint) (whiteSpace ++ lineTerminator)%list.

(** UTF-8: a character below U+0080 is one byte; a character below
    U+0800 is a byte from C2 to DF and a continuation byte; a character
    below U+10000 is a byte from E0 to EF and two continuation bytes. *)
Definition byte (c : ascii) : N := N_of_ascii c.

Definition is_continuation (c : ascii) : bool :=
  ((128 <=? byte c) && (byte c <=? 191))%N.

Definition lead2 (a : ascii) : bool := ((194 <=? byte a) && (byte a <=? 223))%N.

Definition lead3 (a : ascii) : bool := ((224 <=? byte a) && (byte a <=? 239))%N.

Definition codePoint2 (a b : ascii) : N := ((byte a - 192) * 64 + (byte b - 128))%N.

Definition codePoint3 (a b c : ascii) : N :=
  ((byte a - 224) * 4096 + (byte b - 128) * 64 + (byte c - 128))%N.

(** The bytes [a], [a b] or [a b c] are a character of white space. *)
Definition space1 (a : ascii) : bool := (byte a <? 128)%N && is_space (byte a).

Definition space2 (a b : ascii) : bool :=
  is_continuation b && is_space (codePoint2 a b).

Definition space3 (a b c : ascii) : bool :=
  is_continuation b && is_continuation c
  && (2048 <=? codePoint3 a b c)%N && is_space (codePoint3 a b c).

(** [yes rest] when [s] starts with a character of white space that
    [rest] follows, [no] otherwise. *)
Definition on_space {A : Type} (s : string) (yes : string -> A) (no : A) : A :=
  match s with
  | EmptyString => no
  | String a r1 =>
      if space1 a then yes r1
      else if lead2 a then
        match r1 with
        | String b r2 => if space2 a b then yes r2 else no
        | EmptyString => no
        end
      else if lead3 a then
        match r1 with
        | String b (String c r3) => if space3 a b c then yes r3 else no
        | _ => no
        end
      else no
  end.

(** [s] without the character of white space it starts with. *)
Definition strip_space (s : string) : option string := on_space s Some None.

(** [[\s\S]]: every character. *)
Definition any_char (_ : ascii) : bool := true.

Fixpoint trimStart (s : string) : string := on_space s trimStart s.

Definition is_empty (s : string) : bool :=
  match s with EmptyString => true | String _ _ => false end.

(** [trimEnd] stops where white space only remains. *)
Fixpoint trimEnd (s : string) : string :=
  match s with
  | EmptyString => EmptyString
  | String c rest =>
      if is_empty (trimStart s) then EmptyString else String c (trimEnd rest)
  end.

(** [s.trim()] *)
Definition trim (s : string) : string := trimEnd (trimStart s).

(** Truthiness of a string: every string but the empty one. *)
Definition truthy (s : string) : bool :=
  match s with EmptyString => false | _ => true end.

(** [s.split(sep)] for a separator of one character. It always returns
    at least one piece. *)
Fixpoint split (sep : ascii) (s : string) : list string :=
  match s with
  | EmptyString => [EmptyString]
  | String c rest =>
      if Ascii.eqb c sep then EmptyString :: split sep rest
      else match split sep rest with
           | piece :: pieces => String c piece :: pieces
           | [] => [String c EmptyString]
           end
  end.

(** [pieces.join(sep)] *)
Fixpoint join (sep : string) (pieces : list string) : string :=
  match pieces with
  | [] => EmptyString
  | [p] => p
  | p :: rest => p ++ sep ++ join sep rest
  end.

(** [s.startsWith(p)], returning what follows the prefix. *)
Fixpoint strip_prefix (p s : string) : option string :=
  match p, s with
  | EmptyString, _ => Some s
  | String a p', String b s' => if Ascii.eqb a b then strip_prefix p' s' else None
  | String _ _, EmptyString => None
  end.

(** ASCII lower case, for the [i] flag. *)
Definition lower (c : ascii) : ascii :=
  let n := nat_of_ascii c in
  if (65 <=? n) && (n <=? 90) then ascii_of_nat (n + 32) else c.

(** [hay.toLowerCase().includes(needle.toLowerCase())] on ASCII text. *)
Fixpoint starts_with_ci (needle hay : string) : bool :=
  match needle, hay with
  | EmptyString, _ => true
  | String a n', String b h' => Ascii.eqb (lower a) (lower b) && starts_with_ci n' h'
  | String _ _, EmptyString => false
  end.

Fixpoint includes_ci (needle hay : string) : bool :=
  starts_with_ci needle hay ||
  match hay with
  | EmptyString => false
  | String _ h' => includes_ci needle h'
  end.

End JsString.

(** A value of type [string | null | undefined]. *)
Inductive JsText : Type :=
| Undefined
| Null
| Str (s : string).

Module JsTextOps.

Definition truthy (v : JsText) : bool :=
  match v with
  | Str s => JsString.truthy s
  | _ => false
  end.

(** [ToString], as a template literal applies it. *)
Definition toString (v : JsText) : string :=
  match v with
  | Undefined => "undefined"
  | Null => "null"
  | Str s => s
  end.

(** [a || b] *)
Definition or (a b : JsText) : JsText := if truthy a then a else b.

End JsTextOps.

(* ================================================================== *)
(** ** Regular expressions: a backtracking matcher

    The constructs the regular expression of [extractJsonFromString] is made
    of, with the priorities of ECMAScript: an alternation tries its left
    branch first, a greedy star the longest repetition first, a lazy star
    the shortest first, and a failure of what follows backtracks into them.
    A class of [Chr], [StarGreedy] or [StarLazy] and the positions of a
    match are taken byte by byte, [\s*] by whole characters. For the
    pattern of line 56, whose literals are ASCII, the groups are those of
    the runtime: no byte of a longer character is a backquote, a brace or
    the first byte of a character of white space. *)

Module Regex.

Inductive regex : Type :=
| Lit (s : string)                     (* a literal sequence *)
| Chr (cls : ascii -> bool)            (* one character of a class *)
| StarGreedy (cls : ascii -> bool)     (* cls*  *)
| StarLazy (cls : ascii -> bool)       (* cls*? *)
| Spaces                               (* \s*  *)
| Seq (r1 r2 : regex)
| Alt (r1 r2 : regex)
| Group (n : nat) (r : regex).         (* capture group number n *)

(** The capture groups that took part in the match, latest first. *)
Definition captures : Type := list (nat * string).

(** The prefix of [input] that was consumed to reach its suffix [rest]. *)
Definition consumed (input rest : string) : string :=
  String.substring 0 (String.length input - String.length rest) input.

Section Run.
Variable R : Type.

Fixpoint star_greedy (cls : ascii -> bool) (input : string)
         (k : string -> option R) : option R :=
  match input with
  | String c rest =>
      if cls c then
        match star_greedy cls rest k with
        | Some r => Some r
        | None => k input
        end
      else k input
  | EmptyString => k input
  end.

Fixpoint star_lazy (cls : ascii -> bool) (input : string)
         (k : string -> option R) : option R :=
  match k input with
  | Some r => Some r
  | None =>
      match input with
      | String c rest => if cls c then star_lazy cls rest k else None
      | EmptyString => None
      end
  end.

(** [\s*]: the white space is taken by whole characters, the longest run
    first. *)
Fixpoint spaces_greedy (input : string) (k : string -> option R) : option R :=
  JsString.on_space input
    (fun rest =>
       match spaces_greedy rest k with
       | Some r => Some r
       | None => k input
       end)
    (k input).

Fixpoint run (r : regex) (input : string) (caps : captures)
         (k : string -> captures -> option R) : option R :=
  match r with
  | Lit s =>
      match JsString.strip_prefix s input with
      | Some rest => k rest caps
      | None => None
      end
  | Chr cls =>
      match input with
      | String c rest => if cls c then k rest caps else None
      | EmptyString => None
      end
  | StarGreedy cls => star_greedy cls input (fun rest => k rest caps)
  | StarLazy cls => star_lazy cls input (fun rest => k rest caps)
  | Spaces => spaces_greedy input (fun rest => k rest caps)
  | Seq r1 r2 => run r1 input caps (fun rest caps' => run r2 rest caps' k)
  | Alt r1 r2 =>
      match run r1 input caps k with
      | Some x => Some x
      | None => run r2 input caps k
      end
  | Group n r1 =>
      run r1 input caps
          (fun rest caps' => k rest ((n, consumed input rest) :: caps'))
  end.
End Run.

(** A match that starts at the beginning of [input]. *)
Definition match_here (r : regex) (input : string) : option captures :=
  run r input [] (fun _ caps => Some caps).

(** [text.match(r)] without the [g] flag: the match at the leftmost
    position where there is one. *)
Fixpoint exec (r : regex) (text : string) : option captures :=
  match match_here r text with
  | Some caps => Some caps
  | None =>
      match text with
      | String _ rest => exec r rest
      | EmptyString => None
      end
  end.

(** [m[n]]: [Undefined] for a group that did not take part. *)
Fixpoint group (n : nat) (caps : captures) : JsText :=
  match caps with
  | [] => Undefined
  | (m, s) :: rest => if Nat.eqb m n then Str s else group n rest
  end.

(** [r.test(text)] *)
Definition test (r : regex) (text : string) : bool :=
  match exec r text with Some _ => true | None => false end.

End Regex.

(* ================================================================== *)
(** ** JSON values *)

Inductive json : Type :=
| JNull
| JBool (b : bool)
| JNumber (x : float)
| JString (s : string)
| JArray (items : list json)
| JObject (fields : list (string * json)).

Module Json.

(** Truthiness of a parsed value. *)
Definition truthy (v : json) : bool :=
  match v with
  | JNull => false
  | JBool b => b
  | JNumber x => negb (PrimFloat.eqb x 0%float) && negb (PrimFloat.is_nan x)
  | JString s => JsString.truthy s
  | JArray _ => true
  | JObject _ => true
  end.

(** [typeof v === 'object'] *)
Definition typeof_object (v : json) : bool :=
  match v with
  | JNull | JArray _ | JObject _ => true
  | _ => false
  end.

Fixpoint lookup (key : string) (fields : list (string * json)) : option json :=
  match fields with
  | [] => None
  | (k, v) :: rest => if String.eqb k key then Some v else lookup key rest
  end.

(** [v.key] for one of the keys the code reads ([intent], [entities],
    [targetCollection], [error] and the entity names), none of which an
    array or [Object.prototype] defines: [None] is [undefined]. *)
Definition get (key : string) (v : json) : option json :=
  match v with
  | JObject fields => lookup key fields
  | _ => None
  end.

(** Truthiness of [v.key]. *)
Definition truthy_at (key : string) (v : json) : bool :=
  match get key v with
  | Some x => truthy x
  | None => false
  end.

(** [typeof v.key !== 'undefined'] *)
Definition defined_at (key : string) (v : json) : bool :=
  match get key v with
  | Some _ => true
  | None => false
  end.

End Json.

(* ================================================================== *)
(** ** Exceptions, the console and the two collections *)

(** An instance of [Error]: a [SyntaxError], a [TypeError], a Mongoose
    [ValidationError], an error of the database driver or of the model's
    client. [status] is the property the central error handler reads. *)
Record JsError : Type := {
  errorName : string;
  errorMessage : string;
  errorStatus : option nat
}.

(** What a [throw] or a rejected promise carries. *)
Inductive Thrown : Type :=
| ThrownError (e : JsError)        (* [error instanceof Error] *)
| ThrownValue.                     (* anything else *)

Inductive Completion (A : Type) : Type :=
| Normal (a : A)
| Abrupt (e : Thrown).
Arguments Normal {A} a.
Arguments Abrupt {A} e.

Inductive LogLevel : Type := LOG | WARN | ERROR.

(** One call of [console.log], [console.warn] or [console.error]: its
    level and its first argument. The values printed after the first
    argument are not kept. *)
Record LogEntry : Type := { level : LogLevel; line : string }.

(** A document of the [contacts] collection (interface [IContact]). *)
Module Contact.
Record t : Type := {
  name : JsText;
  phoneNumber : JsText;
  prompt : JsText;
  relationship : JsText;
  createdAt : nat
}.
End Contact.

(** A document of the [tasks] collection (interface [ITask]). *)
Module Task.
Record t : Type := {
  prompt : JsText;
  description : JsText;
  time : JsText;
  isCompleted : bool;
  createdAt : nat
}.
End Task.

(** The state a request runs in: the two collections, in insertion order,
    and what was printed on the console, oldest first. *)
Record World : Type := {
  contacts : list Contact.t;
  tasks : list Task.t;
  console : list LogEntry
}.

(** What a request meets and does not control. *)
Record Env : Type := {
  now : nat;                       (* [Date.now()] *)
  production : bool;               (* [process.env.NODE_ENV === 'production'] *)
  dbFault : option JsError         (* the error of the driver when the store fails *)
}.

(** Computations that read and write the world and may throw. The world
    a throwing computation leaves behind is kept. *)
Definition M (A : Type) : Type := World -> Completion A * World.

Definition ret {A : Type} (a : A) : M A := fun w => (Normal a, w).

Definition bind {A B : Type} (m : M A) (f : A -> M B) : M B :=
  fun w =>
    match m w with
    | (Normal a, w') => f a w'
    | (Abrupt e, w') => (Abrupt e, w')
    end.

Definition throw {A : Type} (e : Thrown) : M A := fun w => (Abrupt e, w).

(** [try { body } catch (e) { handler e }] *)
Definition try_catch {A : Type} (body : M A) (handler : Thrown -> M A) : M A :=
  fun w =>
    match body w with
    | (Normal a, w') => (Normal a, w')
    | (Abrupt e, w') => handler e w'
    end.

Declare Scope js_scope.
Delimit Scope js_scope with js.
Notation "x <- c ;; k" := (bind c (fun x => k))
  (at level 61, c at next level, right associativity) : js_scope.
Notation "c ;;; k" := (bind c (fun _ => k))
  (at level 61, right associativity) : js_scope.
Local Open Scope js_scope.

Definition console_print (lvl : LogLevel) (msg : string) : M unit :=
  fun w =>
    (Normal tt,
     {| contacts := contacts w; tasks := tasks w;
        console := (console w ++ [{| level := lvl; line := msg |}])%list |}).

Definition console_log := console_print LOG.
Definition console_warn := console_print WARN.
Definition console_error := console_print ERROR.

(** The documents of the two collections, the part of the world a request
    can leave changed for the next one. *)
Definition stored (w : World) : list Contact.t * list Task.t :=
  (contacts w, tasks w).

(* ================================================================== *)
(** ** What the platform provides *)

(** The test of a compiled regular expression: [r.test(s)], and the match
    the store performs for a [$regex] filter. *)
Definition RegExp : Type := string -> bool.

Class Platform : Type := {
  (** [JSON.parse(s)]; [None] when it throws a [SyntaxError] *)
  JSON_parse : string -> option json;
  (** [new RegExp(source, 'i')]; it throws a [SyntaxError] on a source
      that is not a pattern *)
  RegExp_i : string -> Completion RegExp
}.

(** The double quote. *)
Definition dq : string := String (ascii_of_nat 34) EmptyString.

(** The backquote. *)
Definition bq : string := String (ascii_of_nat 96) EmptyString.

(** [TypeError] of V8 for [v.prop] on [undefined] or [null]. *)
Definition TypeError_read (v prop : string) : JsError :=
  {| errorName := "TypeError";
     errorMessage := "Cannot read properties of " ++ v ++ " (reading '" ++ prop ++ "')";
     errorStatus := None |}.

(* ================================================================== *)
(** ** [extractJsonFromString] (server.ts, lines 54-73) *)

Import Regex.

(** The first alternative of the pattern of line 56: a fence opened by
    three backquotes and [json], white space, the lazy group 1, white
    space, three backquotes. *)
Definition fencePattern : regex :=
  Seq (Lit "```json")
      (Seq Spaces
           (Seq (Group 1 (StarLazy JsString.any_char))
                (Seq Spaces
                     (Lit "```")))).

(** Its second alternative: the greedy group 2, from an opening brace to
    a closing brace. *)
Definition bracePattern : regex :=
  Group 2
    (Seq (Lit "{")
         (Seq (StarGreedy JsString.any_char)
              (Lit "}"))).

(** The pattern of line 56. *)
Definition jsonPattern : regex := Alt fencePattern bracePattern.

(** [jsonMatch[1] || jsonMatch[2]] *)
Definition jsonString (jsonMatch : captures) : JsText :=
  JsTextOps.or (group 1 jsonMatch) (group 2 jsonMatch).

(** The condition of line 62. *)
Definition hasGeminiShape (parsed : json) : bool :=
  Json.truthy parsed
  && Json.typeof_object parsed
  && Json.truthy_at "intent" parsed
  && Json.truthy_at "entities" parsed
  && Json.defined_at "targetCollection" parsed.

Definition noJsonFound : M (option json) :=
  console_error "Could not find valid JSON block in Gemini response." ;;;
  ret None.

Definition extractJsonFromString `{Platform} (text : string) : M (option json) :=
  match exec jsonPattern text with
  | Some jsonMatch =>
      match JSON_parse (JsTextOps.toString (jsonString jsonMatch)) with
      | Some parsed =>
          if hasGeminiShape parsed then ret (Some parsed) else noJsonFound
      | None =>
          console_error "Failed to parse JSON from Gemini response:" ;;;
          ret None
      end
  | None => noJsonFound
  end.

(* ================================================================== *)
(** ** [processTextWithGemini] (server.ts, lines 75-155) *)

(** What [await result.response] is: a falsy value or the response object,
    of which the code reads [promptFeedback?.blockReason] and calls
    [text()]. *)
Inductive GenerateContentResponse : Type :=
| NoResponse (isNull : bool)         (* [undefined], or [null] *)
| ResponseObject (blockReason : JsText) (text : Completion string).

(** The outcome of [geminiModel.generateContent(prompt)] and of
    [await result.response] for one request. *)
Inductive ModelOutcome : Type :=
| Rejected (e : Thrown)
| Resolved (response : GenerateContentResponse).

Definition await_model {A : Type} (c : Completion A) : M A :=
  match c with
  | Normal a => ret a
  | Abrupt e => throw e
  end.

Definition generateContent (outcome : ModelOutcome) : M GenerateContentResponse :=
  match outcome with
  | Rejected e => throw e
  | Resolved response => ret response
  end.

(** [new Error(message)] *)
Definition Error (message : string) : JsError :=
  {| errorName := "Error"; errorMessage := message; errorStatus := None |}.

(** The object literal of lines 126 and 148-153. *)
Definition unknownIntent (error : string) : json :=
  JObject [ ("intent", JString "unknown");
            ("entities", JObject []);
            ("targetCollection", JNull);
            ("error", JString error) ].

Definition processTextWithGemini `{Platform} (text : string) (outcome : ModelOutcome)
  : M json :=
  try_catch
    (console_log ("Sending request to Gemini for text: " ++ dq ++ text ++ dq) ;;;
     response <- generateContent outcome ;;
     match response with
     | NoResponse isNull =>
         (* line 125 reads [response.promptFeedback] *)
         throw (ThrownError
                  (TypeError_read (if isNull then "null" else "undefined")
                                  "promptFeedback"))
     | ResponseObject blockReason responseText =>
         if JsTextOps.truthy blockReason then
           console_error "Gemini request blocked. Reason:" ;;;
           ret (unknownIntent
                  ("Content blocked due to " ++ JsTextOps.toString blockReason))
         else
           responseText <- await_model responseText ;;
           console_log "Gemini Raw Response Text:" ;;;
           parsedJson <- extractJsonFromString responseText ;;
           match parsedJson with
           | None =>
               throw (ThrownError
                        (Error "Failed to extract or parse valid JSON from Gemini response."))
           | Some parsed =>
               console_log "Gemini Parsed Response:" ;;;
               ret parsed
           end
     end)
    (fun error =>
       console_error "Error interacting with Gemini API:" ;;;
       let errorMessage :=
         match error with
         | ThrownError e => "Gemini Processing Error: " ++ errorMessage e
         | ThrownValue => "An unknown error occurred during Gemini processing."
         end in
       ret (unknownIntent errorMessage)).

(* ================================================================== *)
(** ** The schemas and models ([models/Contact.ts], [models/Task.ts]) *)

(** The options of a path of type [String]. *)
Record SchemaString : Type := { required : bool; trim : bool }.

Module ContactSchema.
Definition name : SchemaString := {| required := true; trim := true |}.
Definition phoneNumber : SchemaString := {| required := true; trim := true |}.
Definition prompt : SchemaString := {| required := true; trim := true |}.
Definition relationship : SchemaString := {| required := false; trim := true |}.
End ContactSchema.

Module TaskSchema.
Definition prompt : SchemaString := {| required := true; trim := true |}.
Definition description : SchemaString := {| required := true; trim := true |}.
Definition time : SchemaString := {| required := false; trim := true |}.
Definition isCompleted_default : bool := false.
End TaskSchema.

(** The setter of a path: [trim] applies to strings. *)
Definition setPath (path : SchemaString) (v : JsText) : JsText :=
  match v with
  | Str s => Str (if trim path then JsString.trim s else s)
  | _ => v
  end.

(** The [required] validator of a [String] path: it accepts a string that
    is not empty. The result is the error message of the path, if any. *)
Definition validatePath (path : SchemaString) (pathName : string) (v : JsText)
  : list (string * string) :=
  if required path && negb (JsTextOps.truthy v)
  then [(pathName, "Path " ++ bq ++ pathName ++ bq ++ " is required.")]
  else [].

(** A path that was never set: the constructor skips a value that is
    [undefined]. *)
Definition isUnset (v : JsText) : bool :=
  match v with Undefined => true | _ => false end.

(** [doc.validate()] on the paths of a document, given with their value in
    the order of the schema: Mongoose validates the required paths that
    were never set first, then the paths that were set. The handler sets
    the paths in the order of the schema. *)
Definition validatePaths (paths : list (SchemaString * string * JsText))
  : list (string * string) :=
  flat_map (fun p => validatePath (fst (fst p)) (snd (fst p)) (snd p))
           (filter (fun p => isUnset (snd p)) paths
            ++ filter (fun p => negb (isUnset (snd p))) paths)%list.

(** The [ValidationError] with which [save()] rejects. *)
Definition ValidationError (modelName : string) (errors : list (string * string))
  : JsError :=
  {| errorName := "ValidationError";
     errorMessage :=
       modelName ++ " validation failed: "
       ++ JsString.join ", " (map (fun e => fst e ++ ": " ++ snd e) errors);
     errorStatus := None |}.

Module ContactModel.

(** [new ContactModel({ name, phoneNumber, relationship })] *)
Definition create (env : Env) (name phoneNumber relationship : JsText) : Contact.t :=
  {| Contact.name := setPath ContactSchema.name name;
     Contact.phoneNumber := setPath ContactSchema.phoneNumber phoneNumber;
     Contact.prompt := Undefined;
     Contact.relationship := setPath ContactSchema.relationship relationship;
     Contact.createdAt := now env |}.

Definition validate (doc : Contact.t) : list (string * string) :=
  validatePaths
    [ (ContactSchema.name, "name", Contact.name doc);
      (ContactSchema.phoneNumber, "phoneNumber", Contact.phoneNumber doc);
      (ContactSchema.prompt, "prompt", Contact.prompt doc);
      (ContactSchema.relationship, "relationship", Contact.relationship doc) ].

Definition insert (doc : Contact.t) : M unit :=
  fun w =>
    (Normal tt,
     {| contacts := (contacts w ++ [doc])%list; tasks := tasks w; console := console w |}).

(** [await doc.save()]: the document is validated, then inserted. *)
Definition save (env : Env) (doc : Contact.t) : M unit :=
  match validate doc with
  | [] =>
      match dbFault env with
      | Some e => throw (ThrownError e)
      | None => insert doc
      end
  | errors => throw (ThrownError (ValidationError "Contact" errors))
  end.

(** The filter [{ name?: RegExp }]. *)
Definition matches (name : option RegExp) (doc : Contact.t) : bool :=
  match name with
  | None => true
  | Some re => match Contact.name doc with Str s => re s | _ => false end
  end.

(** [await ContactModel.find(query)] *)
Definition find (env : Env) (name : option RegExp) : M (list Contact.t) :=
  match dbFault env with
  | Some e => throw (ThrownError e)
  | None => fun w => (Normal (filter (matches name) (contacts w)), w)
  end.

End ContactModel.

Module TaskModel.

(** [new TaskModel({ description, time })] *)
Definition create (env : Env) (description time : JsText) : Task.t :=
  {| Task.prompt := Undefined;
     Task.description := setPath TaskSchema.description description;
     Task.time := setPath TaskSchema.time time;
     Task.isCompleted := TaskSchema.isCompleted_default;
     Task.createdAt := now env |}.

Definition validate (doc : Task.t) : list (string * string) :=
  validatePaths
    [ (TaskSchema.prompt, "prompt", Task.prompt doc);
      (TaskSchema.description, "description", Task.description doc);
      (TaskSchema.time, "time", Task.time doc) ].

Definition insert (doc : Task.t) : M unit :=
  fun w =>
    (Normal tt,
     {| contacts := contacts w; tasks := (tasks w ++ [doc])%list; console := console w |}).

Definition save (env : Env) (doc : Task.t) : M unit :=
  match validate doc with
  | [] =>
      match dbFault env with
      | Some e => throw (ThrownError e)
      | None => insert doc
      end
  | errors => throw (ThrownError (ValidationError "Task" errors))
  end.

(** The filter [{ isCompleted, time?: RegExp, description?: RegExp }]. *)
Record query : Type := {
  q_isCompleted : bool;
  q_time : option RegExp;
  q_description : option RegExp
}.

Definition matchesRegExp (re : option RegExp) (v : JsText) : bool :=
  match re with
  | None => true
  | Some r => match v with Str s => r s | _ => false end
  end.

Definition matches (q : query) (doc : Task.t) : bool :=
  Bool.eqb (Task.isCompleted doc) (q_isCompleted q)
  && matchesRegExp (q_time q) (Task.time doc)
  && matchesRegExp (q_description q) (Task.description doc).

(** [.sort({ createdAt: -1 })]: the newest first, by insertion. *)
Fixpoint insertNewestFirst (doc : Task.t) (sorted : list Task.t) : list Task.t :=
  match sorted with
  | [] => [doc]
  | d :: rest =>
      if Task.createdAt d <=? Task.createdAt doc
      then doc :: d :: rest
      else d :: insertNewestFirst doc rest
  end.

Definition sortNewestFirst (docs : list Task.t) : list Task.t :=
  fold_right insertNewestFirst [] docs.

(** [await TaskModel.find(query).sort({ createdAt: -1 })] *)
Definition find_sorted (env : Env) (q : query) : M (list Task.t) :=
  match dbFault env with
  | Some e => throw (ThrownError e)
  | None => fun w => (Normal (sortNewestFirst (filter (matches q) (tasks w))), w)
  end.

End TaskModel.

(* ================================================================== *)
(** ** The classification as the handler's types declare it *)

(** Interface [GeminiEntities]. *)
Module Entities.
Record t : Type := {
  name : JsText;
  phoneNumber : JsText;
  relationship : JsText;
  description : JsText;
  time : JsText
}.

(** The object [{}]. *)
Definition empty : t :=
  {| name := Undefined; phoneNumber := Undefined; relationship := Undefined;
     description := Undefined; time := Undefined |}.

Definition keys : list string :=
  ["name"; "phoneNumber"; "relationship"; "description"; "time"].
End Entities.

(** Interface [GeminiResponse]. [intent] is any string: line 62 checks
    that it is truthy, not that it is one of the five intents. *)
Module GeminiResponse.
Record t : Type := {
  intent : string;
  entities : Entities.t;
  targetCollection : JsText;
  error : JsText
}.
End GeminiResponse.

(** A property of type [string | null | undefined]. *)
Definition asText (v : option json) : option JsText :=
  match v with
  | None => Some Undefined
  | Some JNull => Some Null
  | Some (JString s) => Some (Str s)
  | Some _ => None
  end.

Definition asEntities (v : json) : option Entities.t :=
  match v with
  | JObject fields =>
      if forallb (fun kv => existsb (String.eqb (fst kv)) Entities.keys) fields then
        match asText (Json.lookup "name" fields),
              asText (Json.lookup "phoneNumber" fields),
              asText (Json.lookup "relationship" fields),
              asText (Json.lookup "description" fields),
              asText (Json.lookup "time" fields) with
        | Some n, Some p, Some r, Some d, Some t =>
            Some {| Entities.name := n; Entities.phoneNumber := p;
                    Entities.relationship := r; Entities.description := d;
                    Entities.time := t |}
        | _, _, _, _, _ => None
        end
      else None
  | _ => None
  end.

(** The destructuring of line 168, for an object that has the declared
    types: a string [intent], an [entities] object whose keys are entity
    names and whose values are strings or [null], a [targetCollection]
    that is a string or [null], an [error] that is a string or absent.
    [None] for an object that came through the cast of line 64 without
    having these types; the handler is not followed on such an object. *)
Definition asGeminiResponse (v : json) : option GeminiResponse.t :=
  match Json.get "intent" v, Json.get "entities" v with
  | Some (JString intent), Some entities =>
      match asEntities entities,
            asText (Json.get "targetCollection" v),
            Json.get "error" v with
      | Some e, Some target, None =>
          Some {| GeminiResponse.intent := intent; GeminiResponse.entities := e;
                  GeminiResponse.targetCollection := target;
                  GeminiResponse.error := Undefined |}
      | Some e, Some target, Some (JString err) =>
          Some {| GeminiResponse.intent := intent; GeminiResponse.entities := e;
                  GeminiResponse.targetCollection := target;
                  GeminiResponse.error := Str err |}
      | _, _, _ => None
      end
  | _, _ => None
  end.

(* ================================================================== *)
(** ** The handler of [POST /api/process-speech] (server.ts, lines 160-243) *)

Module Response.
(** The JSON body: [message], and [details] or [intent] and [entities]
    where the handler sets them. *)
Record body : Type := {
  message : string;
  details : option string;
  intent : option string;
  entities : option Entities.t
}.

Record t : Type := { statusCode : nat; json : body }.

(** [res.status(code).json({ message })] *)
Definition ofMessage (code : nat) (message : string) : t :=
  {| statusCode := code;
     json := {| message := message; details := None; intent := None; entities := None |} |}.
End Response.

(** How the handler ends: it has sent a response, or has called
    [next(err)]. *)
Inductive Reply : Type :=
| Sent (response : Response.t)
| Next (err : Thrown).

(** How a [case] of the [switch] ends: by [return res...] or by [break]
    with the value of [responseMessage]. *)
Inductive CaseEnd : Type :=
| Return (reply : Reply)
| Break (responseMessage : string).

Import GeminiResponse.

(** [new RegExp(source, 'i')] inside the handler. *)
Definition newRegExp `{Platform} (source : string) : M RegExp :=
  await_model (RegExp_i source).

Definition formatTask (t : Task.t) : string :=
  JsTextOps.toString (Task.description t)
  ++ (if JsTextOps.truthy (Task.time t)
      then " at " ++ JsTextOps.toString (Task.time t) else "").

Definition formatContact (c : Contact.t) : string :=
  JsTextOps.toString (Contact.name c) ++ ", phone "
  ++ JsTextOps.toString (Contact.phoneNumber c)
  ++ (if JsTextOps.truthy (Contact.relationship c)
      then " (" ++ JsTextOps.toString (Contact.relationship c) ++ ")" else "").

Definition space : ascii := ascii_of_nat 32.

(** The condition of lines 182-183. *)
Definition collectionMismatch (intent : string) (targetCollection : JsText) : bool :=
  let equals v := match targetCollection with Str s => String.eqb s v | _ => false end in
  ((String.eqb intent "add_contact" || String.eqb intent "get_contacts")
   && negb (equals "contacts"))
  || ((String.eqb intent "add_task" || String.eqb intent "get_tasks")
      && negb (equals "tasks")).

(** The [switch] of lines 189-231; [responseMessage] starts as the
    message of line 179 and no [default] changes it. *)
Definition switchIntent `{Platform} (env : Env) (intent : string) (entities : Entities.t)
  : M CaseEnd :=
  if String.eqb intent "add_contact" then
    if JsTextOps.truthy (Entities.name entities)
       && JsTextOps.truthy (Entities.phoneNumber entities) then
      let newContact :=
        ContactModel.create env (Entities.name entities)
                            (Entities.phoneNumber entities)
                            (Entities.relationship entities) in
      ContactModel.save env newContact ;;;
      ret (Break ("OK. I've added " ++ JsTextOps.toString (Entities.name entities)
                  ++ " to your contacts."))
    else
      ret (Return (Sent (Response.ofMessage 400
        "I understood you want to add a contact, but I couldn't get the required name or phone number.")))
  else if String.eqb intent "add_task" then
    if JsTextOps.truthy (Entities.description entities) then
      let newTask :=
        TaskModel.create env (Entities.description entities)
                         (JsTextOps.or (Entities.time entities) Undefined) in
      TaskModel.save env newTask ;;;
      ret (Break ("OK. I've added the task: "
                  ++ JsTextOps.toString (Entities.description entities) ++ "."))
    else
      ret (Return (Sent (Response.ofMessage 400
        "I understood you want to add a task, but I couldn't get the description.")))
  else if String.eqb intent "get_tasks" then
    time <- (if JsTextOps.truthy (Entities.time entities)
             then re <- newRegExp (JsTextOps.toString (Entities.time entities)) ;;
                  ret (Some re)
             else ret None) ;;
    description <-
      (if JsTextOps.truthy (Entities.description entities)
       then re <- newRegExp
                    (JsString.join "|"
                       (JsString.split space
                          (JsTextOps.toString (Entities.description entities)))) ;;
            ret (Some re)
       else ret None) ;;
    tasks <- TaskModel.find_sorted env
               {| TaskModel.q_isCompleted := false;
                  TaskModel.q_time := time;
                  TaskModel.q_description := description |} ;;
    ret (Break (if 0 <? List.length tasks
                then "Here are your current tasks: "
                     ++ JsString.join ". " (map formatTask tasks)
                else "You have no pending tasks matching that description."))
  else if String.eqb intent "get_contacts" then
    name <- (if JsTextOps.truthy (Entities.name entities)
             then re <- newRegExp (JsTextOps.toString (Entities.name entities)) ;;
                  ret (Some re)
             else ret None) ;;
    contacts <- ContactModel.find env name ;;
    ret (Break (if 0 <? List.length contacts
                then "Here are the contacts I found: "
                     ++ JsString.join ". " (map formatContact contacts)
                else if JsTextOps.truthy (Entities.name entities)
                     then "I couldn't find a contact named "
                          ++ JsTextOps.toString (Entities.name entities) ++ "."
                     else "You don't have any contacts saved yet."))
  else
    ret (Break "Something went wrong while processing your request.").

(** Lines 170-237: what the handler does with the classification. *)
Definition handleClassification `{Platform} (env : Env) (r : GeminiResponse.t) : M Reply :=
  let geminiError := error r in
  if JsTextOps.truthy geminiError || String.eqb (intent r) "unknown" then
    console_error "Gemini processing issue:" ;;;
    let userMessage :=
      if JsTextOps.truthy geminiError
      then "Sorry, I had trouble understanding that right now."
      else "I'm sorry, I didn't quite understand your request." in
    let statusCode := if JsTextOps.truthy geminiError then 500 else 400 in
    ret (Sent {| Response.statusCode := statusCode;
                 Response.json :=
                   {| Response.message := userMessage;
                      Response.details :=
                        Some (JsTextOps.toString
                                (JsTextOps.or geminiError (Str "Unknown intent")));
                      Response.intent := None;
                      Response.entities := None |} |})
  else
    console_log ("Processing Intent: " ++ intent r ++ ", Target: "
                 ++ JsTextOps.toString (targetCollection r) ++ ", Entities:") ;;;
    (if collectionMismatch (intent r) (targetCollection r)
     then console_warn ("Intent/Collection mismatch: Intent is " ++ intent r
                        ++ ", but collection is "
                        ++ JsTextOps.toString (targetCollection r))
     else ret tt) ;;;
    try_catch
      (ending <- switchIntent env (intent r) (entities r) ;;
       match ending with
       | Return reply => ret reply
       | Break responseMessage =>
           ret (Sent {| Response.statusCode := 200;
                        Response.json :=
                          {| Response.message := responseMessage;
                             Response.details := None;
                             Response.intent := Some (intent r);
                             Response.entities := Some (entities r) |} |})
       end)
      (fun dbError =>
         console_error "Database operation failed:" ;;;
         ret (Next dbError)).

(** [req.body.text]: absent, or any JSON value. *)
Definition RequestText : Type := option json.

Definition badRequest : Reply :=
  Sent (Response.ofMessage 400 "Valid text input is required in the request body").

(** The handler. Its result is [None] when the classification does not
    have the declared types (see [asGeminiResponse]). *)
Definition processSpeech `{Platform} (env : Env) (text : RequestText)
           (outcome : ModelOutcome) : M (option Reply) :=
  match text with
  | Some (JString text) =>
      if negb (JsString.truthy text)
         || (String.length (JsString.trim text) =? 0)
      then ret (Some badRequest)
      else
        try_catch
          (classified <- processTextWithGemini text outcome ;;
           match asGeminiResponse classified with
           | Some r => reply <- handleClassification env r ;; ret (Some reply)
           | None => ret None
           end)
          (fun error =>
             console_error "Unexpected error in /api/process-speech endpoint:" ;;;
             ret (Some (Next error)))
  | _ =>
      (* [!text || typeof text !== 'string'] *)
      ret (Some badRequest)
  end.

(** The central error handler (lines 247-255). *)
Definition errorMiddleware (env : Env) (err : Thrown) : M Response.t :=
  console_error "Unhandled Error:" ;;;
  let status :=
    match err with
    | ThrownError e =>
        match errorStatus e with
        | Some (S n) => S n
        | _ => 500
        end
    | ThrownValue => 500
    end in
  let message :=
    if production env then "An internal server error occurred."
    else "Internal Server Error: "
         ++ match err with
            | ThrownError e => errorMessage e
            | ThrownValue => "undefined"
            end in
  ret (Response.ofMessage status message).

(** The response the client receives. *)
Definition respond (env : Env) (reply : Reply) : M Response.t :=
  match reply with
  | Sent response => ret response
  | Next err => errorMiddleware env err
  end.

(** The pipeline from a classification to the response. *)
Definition pipeline `{Platform} (env : Env) (r : GeminiResponse.t) : M Response.t :=
  reply <- handleClassification env r ;;
  respond env reply.

(** The application: the handler, then the error handler if it was called. *)
Definition app `{Platform} (env : Env) (text : RequestText) (outcome : ModelOutcome)
  : M (option Response.t) :=
  reply <- processSpeech env text outcome ;;
  match reply with
  | Some reply => response <- respond env reply ;; ret (Some response)
  | None => ret None
  end.

(* ================================================================== *)
(** ** A platform to evaluate the code with

    [LitePlatform] implements [JSON.parse] for the JSON texts whose numbers
    are integers below 2^53 and whose [\u] escapes are ASCII, and
    [new RegExp(source, 'i')] for the sources made of ordinary characters,
    of [.] and of [|], tested on ASCII texts. It rejects every other
    input. The theorems below hold for every platform; this one evaluates
    the code on the concrete inputs of the examples, which are all in its
    fragment. *)

Module LitePlatform.

Definition is_char (c : ascii) (code : nat) : bool := nat_of_ascii c =? code.

(** White space of JSON: SPACE, TAB, LF, CR. *)
Definition json_space (c : ascii) : bool :=
  is_char c 32 || is_char c 9 || is_char c 10 || is_char c 13.

Fixpoint skip_ws (s : string) : string :=
  match s with
  | String c rest => if json_space c then skip_ws rest else s
  | EmptyString => EmptyString
  end.

Definition hex_digit (c : ascii) : option nat :=
  let n := nat_of_ascii c in
  if (48 <=? n) && (n <=? 57) then Some (n - 48)
  else if (65 <=? n) && (n <=? 70) then Some (n - 55)
  else if (97 <=? n) && (n <=? 102) then Some (n - 87)
  else None.

(** The characters of a string, after its opening quote, up to its
    closing quote. *)
Fixpoint parse_string (s : string) : option (string * string) :=
  match s with
  | EmptyString => None
  | String c rest =>
      if is_char c 34 then Some (EmptyString, rest)
      else if is_char c 92 then
        match rest with
        | String e rest1 =>
            let continue (ch : nat) (rest' : string) :=
              match parse_string rest' with
              | Some (body, rest'') => Some (String (ascii_of_nat ch) body, rest'')
              | None => None
              end in
            if is_char e 34 then continue 34 rest1
            else if is_char e 92 then continue 92 rest1
            else if is_char e 47 then continue 47 rest1
            else if is_char e 98 then continue 8 rest1
            else if is_char e 102 then continue 12 rest1
            else if is_char e 110 then continue 10 rest1
            else if is_char e 114 then continue 13 rest1
            else if is_char e 116 then continue 9 rest1
            else if is_char e 117 then
              match rest1 with
              | String h1 (String h2 (String h3 (String h4 rest2))) =>
                  match hex_digit h1, hex_digit h2, hex_digit h3, hex_digit h4 with
                  | Some 0, Some 0, Some a, Some b =>
                      if a <? 8 then continue (16 * a + b) rest2 else None
                  | _, _, _, _ => None
                  end
              | _ => None
              end
            else None
        | EmptyString => None
        end
      else if nat_of_ascii c <? 32 then None
      else
        match parse_string rest with
        | Some (body, rest') => Some (String c body, rest')
        | None => None
        end
  end.

Definition is_digit (c : ascii) : bool :=
  (48 <=? nat_of_ascii c) && (nat_of_ascii c <=? 57).

Fixpoint parse_digits (s : string) (acc : Z) : Z * string :=
  match s with
  | String c rest =>
      if is_digit c
      then parse_digits rest (10 * acc + Z.of_nat (nat_of_ascii c - 48))%Z
      else (acc, s)
  | EmptyString => (acc, s)
  end.

(** An integer without a fraction and without an exponent. *)
Definition parse_number (s : string) : option (json * string) :=
  let (negative, digits) :=
    match s with
    | String c rest => if is_char c 45 then (true, rest) else (false, s)
    | EmptyString => (false, s)
    end in
  match digits with
  | String d after =>
      if is_digit d then
        let (n, rest) := parse_digits digits 0%Z in
        let leading_zero := is_char d 48 && negb (String.length digits - String.length rest =? 1) in
        let continues :=
          match rest with
          | String c _ => is_char c 46 || is_char c 101 || is_char c 69
          | EmptyString => false
          end in
        if leading_zero || continues || negb (n <? 2 ^ 53)%Z then None
        else
          let x := PrimFloat.of_uint63 (Uint63.of_Z n) in
          Some (JNumber (if negative then PrimFloat.opp x else x), rest)
      else None
  | EmptyString => None
  end.

(** An object keeps one value for a key: the last. *)
Fixpoint set_field (key : string) (v : json) (fields : list (string * json))
  : list (string * json) :=
  match fields with
  | [] => [(key, v)]
  | (k, v') :: rest =>
      if String.eqb k key then (k, v) :: rest else (k, v') :: set_field key v rest
  end.

Fixpoint parse_value (fuel : nat) (s : string) : option (json * string) :=
  match fuel with
  | 0 => None
  | S fuel =>
      match skip_ws s with
      | EmptyString => None
      | String c rest =>
          if is_char c 123 then
            match skip_ws rest with
            | String c' rest' =>
                if is_char c' 125 then Some (JObject [], rest')
                else parse_members fuel rest []
            | EmptyString => None
            end
          else if is_char c 91 then
            match skip_ws rest with
            | String c' rest' =>
                if is_char c' 93 then Some (JArray [], rest')
                else parse_elements fuel rest []
            | EmptyString => None
            end
          else if is_char c 34 then
            match parse_string rest with
            | Some (body, rest') => Some (JString body, rest')
            | None => None
            end
          else
            match JsString.strip_prefix "true" (String c rest),
                  JsString.strip_prefix "false" (String c rest),
                  JsString.strip_prefix "null" (String c rest) with
            | Some rest', _, _ => Some (JBool true, rest')
            | _, Some rest', _ => Some (JBool false, rest')
            | _, _, Some rest' => Some (JNull, rest')
            | None, None, None => parse_number (String c rest)
            end
      end
  end
with parse_elements (fuel : nat) (s : string) (acc : list json)
     : option (json * string) :=
  match fuel with
  | 0 => None
  | S fuel =>
      match parse_value fuel s with
      | Some (v, rest) =>
          match skip_ws rest with
          | String c rest' =>
              if is_char c 44 then parse_elements fuel rest' (acc ++ [v])%list
              else if is_char c 93 then Some (JArray (acc ++ [v])%list, rest')
              else None
          | EmptyString => None
          end
      | None => None
      end
  end
with parse_members (fuel : nat) (s : string) (acc : list (string * json))
     : option (json * string) :=
  match fuel with
  | 0 => None
  | S fuel =>
      match skip_ws s with
      | String q rest =>
          if is_char q 34 then
            match parse_string rest with
            | Some (key, rest1) =>
                match skip_ws rest1 with
                | String colon rest2 =>
                    if is_char colon 58 then
                      match parse_value fuel rest2 with
                      | Some (v, rest3) =>
                          match skip_ws rest3 with
                          | String c rest4 =>
                              if is_char c 44
                              then parse_members fuel rest4 (set_field key v acc)
                              else if is_char c 125
                                   then Some (JObject (set_field key v acc), rest4)
                                   else None
                          | EmptyString => None
                          end
                      | None => None
                      end
                    else None
                | EmptyString => None
                end
            | None => None
            end
          else None
      | EmptyString => None
      end
  end.

Definition JSON_parse (s : string) : option json :=
  match parse_value (2 * String.length s + 2) s with
  | Some (v, rest) =>
      match skip_ws rest with
      | EmptyString => Some v
      | String _ _ => None
      end
  | None => None
  end.

(** The syntax characters of a pattern other than [.] and [|]. *)
Definition is_syntax (c : ascii) : bool :=
  existsb (is_char c) [92; 94; 36; 42; 43; 63; 40; 41; 91; 93; 123; 125].

Fixpoint has_syntax (s : string) : bool :=
  match s with
  | String c rest => is_syntax c || has_syntax rest
  | EmptyString => false
  end.

(** [.]: every character but a line terminator. *)
Definition dot (c : ascii) : bool := negb (is_char c 10 || is_char c 13).

Definition same_letter (a c : ascii) : bool :=
  Ascii.eqb (JsString.lower a) (JsString.lower c).

(** One alternative: its characters in sequence. *)
Fixpoint alternative (s : string) : regex :=
  match s with
  | EmptyString => Lit EmptyString
  | String c rest =>
      Seq (Chr (if is_char c 46 then dot else same_letter c)) (alternative rest)
  end.

Fixpoint disjunction (alternatives : list string) : regex :=
  match alternatives with
  | [] => Lit EmptyString
  | [a] => alternative a
  | a :: rest => Alt (alternative a) (disjunction rest)
  end.

Definition compile (source : string) : regex :=
  disjunction (JsString.split (ascii_of_nat 124) source).

(** The [SyntaxError] of [new RegExp(source, 'i')]. Its message starts as
    the runtime's does, with the source and the flag; the runtime adds the
    reason, which depends on the source and is not reproduced here. *)
Definition SyntaxError (source : string) : JsError :=
  {| errorName := "SyntaxError";
     errorMessage := "Invalid regular expression: /" ++ source ++ "/i";
     errorStatus := None |}.

Definition RegExp_i (source : string) : Completion RegExp :=
  if has_syntax source then Abrupt (ThrownError (SyntaxError source))
  else Normal (Regex.test (compile source)).

End LitePlatform.

Definition litePlatform : Platform :=
  {| JSON_parse := LitePlatform.JSON_parse;
     RegExp_i := LitePlatform.RegExp_i |}.

(** [r] with another [targetCollection]. *)
Definition withTargetCollection (r : GeminiResponse.t) (target : JsText)
  : GeminiResponse.t :=
  {| intent := intent r; entities := entities r;
     targetCollection := target; error := error r |}.

(** The five intents of the interface [GeminiResponse]. *)
Definition knownIntents : list string :=
  ["add_contact"; "add_task"; "get_contacts"; "get_tasks"; "unknown"].


(* ================================================================== *)
(** ** Configuration at start-up (server.ts, lines 9-24 and 43-46) *)

(** [process.env], once [dotenv.config()] has run: [None] is [undefined]. *)
Definition ProcessEnv : Type := string -> option string.

(** How the top level of the module goes on: with a value, or by
    [process.exit(code)]. *)
Inductive Boot (A : Type) : Type :=
| Continue (a : A)
| Exit (code : nat).
Arguments Continue {A} a.
Arguments Exit {A} code.

(** The top level of the module: it prints on the console and may exit. *)
Definition Startup (A : Type) : Type := list LogEntry -> Boot A * list LogEntry.

Definition continue {A : Type} (a : A) : Startup A := fun out => (Continue a, out).

Definition andThen {A B : Type} (m : Startup A) (f : A -> Startup B) : Startup B :=
  fun out =>
    match m out with
    | (Continue a, out') => f a out'
    | (Exit code, out') => (Exit code, out')
    end.

Definition process_exit {A : Type} (code : nat) : Startup A :=
  fun out => (Exit code, out).

Definition startup_error (msg : string) : Startup unit :=
  fun out => (Continue tt, (out ++ [{| level := ERROR; line := msg |}])%list).

(** [process.env[key]] as a value that may be [undefined]. *)
Definition envValue (env : ProcessEnv) (key : string) : JsText :=
  match env key with
  | Some value => Str value
  | None => Undefined
  end.

(** Lines 13-20. *)
Definition getEnvVariable (env : ProcessEnv) (key : string) : Startup string :=
  let value := envValue env key in
  if negb (JsTextOps.truthy value) then
    andThen (startup_error ("CRITICAL: Environment variable " ++ key ++ " is not defined."))
            (fun _ => process_exit 1)
  else continue (JsTextOps.toString value).

Definition is_decimal_digit (c : ascii) : bool :=
  (48 <=? nat_of_ascii c) && (nat_of_ascii c <=? 57).

(** The digits at the head of [s], read in base 10 after [acc]; [seen]
    tells whether a digit was read. *)
Fixpoint readDigits (s : string) (acc : Z) (seen : bool) : option Z :=
  match s with
  | String c rest =>
      if is_decimal_digit c
      then readDigits rest (10 * acc + Z.of_nat (nat_of_ascii c - 48))%Z true
      else if seen then Some acc else None
  | EmptyString => if seen then Some acc else None
  end.

(** The Number value of a mathematical integer: the nearest double, ties
    to even, infinity beyond the largest. *)
Definition numberOf (n : Z) : float :=
  SF2Prim (SpecFloat.binary_normalize FloatOps.prec FloatOps.emax n 0 false).

(** [parseInt(s, 10)]: white space is skipped, then a sign, then the
    digits are read up to the first character that is not one; the result
    is [NaN] when there is no digit there, and the number of the integer
    that was read, with its sign, otherwise. ECMAScript lets an
    implementation round an integer of more than 20 digits otherwise than
    to the nearest double. *)
Definition parseInt10 (s : string) : float :=
  let read (negative : bool) (digits : string) : float :=
    match readDigits digits 0%Z false with
    | Some n => if negative then PrimFloat.opp (numberOf n) else numberOf n
    | None => PrimFloat.nan
    end in
  match JsString.trimStart s with
  | String c rest =>
      if Ascii.eqb c "-" then read true rest
      else if Ascii.eqb c "+" then read false rest
      else read false (String c rest)
  | EmptyString => PrimFloat.nan
  end.

(** The constants of lines 22-24. *)
Record Config : Type := {
  PORT : float;
  MONGODB_URI : string;
  GEMINI_API_KEY : string
}.

(** Lines 22-24, in their order. *)
Definition configure (env : ProcessEnv) : Startup Config :=
  let port :=
    parseInt10 (JsTextOps.toString (JsTextOps.or (envValue env "PORT") (Str "3000"))) in
  andThen (getEnvVariable env "MONGODB_URI") (fun uri =>
  andThen (getEnvVariable env "GEMINI_API_KEY") (fun key =>
  continue {| PORT := port; MONGODB_URI := uri; GEMINI_API_KEY := key |})).

(** Lines 44-46: what follows the promise of [mongoose.connect]; [None]
    when it is fulfilled, the error when it is rejected. *)
Definition connectionSettled (failure : option Thrown) : Startup unit :=
  match failure with
  | None =>
      fun out => (Continue tt,
                  (out ++ [{| level := LOG; line := "Successfully connected to MongoDB" |}])%list)
  | Some _ =>
      andThen (startup_error "MongoDB connection error:") (fun _ => process_exit 1)
  end.
(* ================================================================== *)
(** ** Vocabulary of the properties *)

(** A computation is blind to the console when its result and the
    documents it leaves depend on the documents it found only. *)
Definition blind {A : Type} (m : M A) : Prop :=
  forall w1 w2, stored w1 = stored w2 ->
    fst (m w1) = fst (m w2) /\ stored (snd (m w1)) = stored (snd (m w2)).

(** A computation is read-only when it leaves the documents as they were. *)
Definition readonly {A : Type} (m : M A) : Prop :=
  forall w, stored (snd (m w)) = stored w.


(** A string made of white space only; the empty string is one. *)
Fixpoint whitespaceOnly (s : string) : bool :=
  match s with
  | EmptyString => true
  | String _ _ => JsString.on_space s whitespaceOnly false
  end.

(** [req.body.text] is missing, is not a string, is empty or is made of
    white space only. *)
Definition invalidText (text : RequestText) : Prop :=
  match text with
  | Some (JString s) => whitespaceOnly s = true
  | _ => True
  end.

(** An [add_contact] classification without a name or without a phone
    number, or an [add_task] classification without a description. An
    entity is missing when it is [undefined], [null] or the empty string. *)
Definition missingEntity (r : GeminiResponse.t) : Prop :=
  (intent r = "add_contact"
   /\ (JsTextOps.truthy (Entities.name (entities r)) = false
       \/ JsTextOps.truthy (Entities.phoneNumber (entities r)) = false))
  \/ (intent r = "add_task"
      /\ JsTextOps.truthy (Entities.description (entities r)) = false).

(** An [add_contact] classification with a name and a phone number, or an
    [add_task] classification with a description. *)
Definition completeAdd (r : GeminiResponse.t) : Prop :=
  (intent r = "add_contact"
   /\ JsTextOps.truthy (Entities.name (entities r)) = true
   /\ JsTextOps.truthy (Entities.phoneNumber (entities r)) = true)
  \/ (intent r = "add_task"
      /\ JsTextOps.truthy (Entities.description (entities r)) = true).

(** The extraction returns [null] on [responseText]. *)
Definition extractionFails `{Platform} (responseText : string) : Prop :=
  forall w, fst (extractJsonFromString responseText w) = Normal None.

(** The classification [{ intent: 'unknown', entities: {}, targetCollection:
    null, error }] as the handler reads it. *)
Definition unknownResult (error : string) : GeminiResponse.t :=
  {| intent := "unknown"; entities := Entities.empty; targetCollection := Null;
     GeminiResponse.error := Str error |}.

(** [a] was created after [b], or at the same time. *)
Definition newerOrSame (a b : Task.t) : Prop := Task.createdAt b <= Task.createdAt a.

(** The message of a [get_tasks] response that lists [listed]. *)
Definition tasksMessage (listed : list Task.t) : string :=
  match listed with
  | [] => "You have no pending tasks matching that description."
  | _ :: _ => "Here are your current tasks: " ++ JsString.join ". " (map formatTask listed)
  end.

(** The response 200 of the handler. *)
Definition ok (message : string) (r : GeminiResponse.t) : Response.t :=
  {| Response.statusCode := 200;
     Response.json := {| Response.message := message;
                         Response.details := None;
                         Response.intent := Some (intent r);
                         Response.entities := Some (entities r) |} |}.

(** The filter an entity gives: none when the entity is missing, the
    regular expression of [source] otherwise; [None] when [source] is not
    a pattern. *)
Definition entityFilter `{Platform} (entity : JsText) (source : string)
  : option (option RegExp) :=
  if JsTextOps.truthy entity then
    match RegExp_i source with
    | Normal re => Some (Some re)
    | Abrupt _ => None
    end
  else Some None.

(** The source of the [description] filter: the pieces of the entity
    between single spaces, joined by [|]. *)
Definition descriptionSource (description : JsText) : string :=
  JsString.join "|" (JsString.split space (JsTextOps.toString description)).

(** The tasks a [get_tasks] request selects, given its two filters. *)
Definition selectedTask (timeFilter descriptionFilter : option RegExp) (t : Task.t) : bool :=
  negb (Task.isCompleted t)
  && TaskModel.matchesRegExp timeFilter (Task.time t)
  && TaskModel.matchesRegExp descriptionFilter (Task.description t).

(** Modelled from the spec: the tokens of a string, separated by runs of
    white space. [pending] holds the token being read, reversed. *)
Fixpoint whitespaceTokensFrom (pending : string) (s : string) : list string :=
  let flush tokens :=
    match pending with
    | EmptyString => tokens
    | _ => pending :: tokens
    end in
  match s with
  | EmptyString => flush []
  | String c rest =>
      JsString.on_space s
        (fun after => flush (whitespaceTokensFrom EmptyString after))
        (whitespaceTokensFrom (pending ++ String c EmptyString) rest)
  end.

Definition whitespaceTokens (s : string) : list string :=
  whitespaceTokensFrom EmptyString s.

(** Modelled from the spec: the tasks the specification says a
    [get_tasks] request selects: not completed, with a [time] that
    contains the time entity whatever the case, and a [description] that
    contains one of the tokens of the description entity. *)
Definition claimedSelectedTask (time description : JsText) (t : Task.t) : bool :=
  negb (Task.isCompleted t)
  && (if JsTextOps.truthy time then
        match Task.time t with
        | Str s => JsString.includes_ci (JsTextOps.toString time) s
        | _ => false
        end
      else true)
  && (if JsTextOps.truthy description then
        match Task.description t with
        | Str s =>
            existsb (fun token => JsString.includes_ci token s)
                    (whitespaceTokens (JsTextOps.toString description))
        | _ => false
        end
      else true).

(** Modelled from the spec: what the specification says of every
    [get_tasks] request, when the store answers. *)
Definition claimedGetTasks `{Platform} : Prop :=
  forall (env : Env) (r : GeminiResponse.t) (w : World),
    intent r = "get_tasks" ->
    JsTextOps.truthy (error r) = false ->
    dbFault env = None ->
    exists listed w',
      pipeline env r w = (Normal (ok (tasksMessage listed) r), w')
      /\ Permutation listed
           (filter (claimedSelectedTask (Entities.time (entities r))
                                        (Entities.description (entities r)))
                   (tasks w))
      /\ Sorted newerOrSame listed
      /\ stored w' = stored w.


Definition backquote : ascii := ascii_of_nat 96.
Definition openBrace : ascii := ascii_of_nat 123.
Definition closeBrace : ascii := ascii_of_nat 125.

(** What the extraction returns once it has chosen the span to parse:
    the value the span parses to, if it has the shape line 62 asks for. *)
Definition parsedSpan `{Platform} (span : string) : option json :=
  match JSON_parse span with
  | Some parsed => if hasGeminiShape parsed then Some parsed else None
  | None => None
  end.

(** The text of [s] before the first occurrence of [sep]; none when [sep]
    does not occur in [s]. *)
Fixpoint textBefore (sep s : string) : option string :=
  match JsString.strip_prefix sep s with
  | Some _ => Some EmptyString
  | None =>
      match s with
      | String c rest => option_map (String c) (textBefore sep rest)
      | EmptyString => None
      end
  end.

(** The text of [s] up to its last [c], included; none when [c] does not
    occur in [s]. *)
Fixpoint throughLast (c : ascii) (s : string) : option string :=
  match s with
  | EmptyString => None
  | String d rest =>
      match throughLast c rest with
      | Some t => Some (String d t)
      | None => if Ascii.eqb d c then Some (String d EmptyString) else None
      end
  end.

(** The content of the fence that opens at the head of [s]: the text
    between the three backquotes and [json] and the next three backquotes,
    without the white space at its two ends; none when [s] does not start
    with the tag or when no three backquotes follow it. *)
Definition fenceContent (s : string) : option string :=
  match JsString.strip_prefix "```json" s with
  | Some rest => option_map JsString.trim (textBefore "```" rest)
  | None => None
  end.

(** The span of braces that opens at the head of [s]: from the opening
    brace [s] starts with to the last closing brace of [s]. *)
Definition braceSpan (s : string) : option string :=
  match s with
  | String c rest =>
      if Ascii.eqb c openBrace
      then option_map (String c) (throughLast closeBrace rest)
      else None
  | EmptyString => None
  end.

(** What the extraction hands to [JSON.parse] when a fence or a span of
    braces opens at the head of [s]: the content of the fence, [undefined]
    when that content is empty, or the span of braces. *)
Definition spanHere (s : string) : option JsText :=
  match fenceContent s with
  | Some content => Some (JsTextOps.or (Str content) Undefined)
  | None => option_map Str (braceSpan s)
  end.

(** The same, at the leftmost position of [text] where a fence or a span
    of braces opens. *)
Fixpoint leftmostSpan (text : string) : option JsText :=
  match spanHere text with
  | Some span => Some span
  | None =>
      match text with
      | String _ rest => leftmostSpan rest
      | EmptyString => None
      end
  end.

(** [s], after white space, starts with three backquotes. *)
Definition closes (s : string) : bool :=
  match JsString.strip_prefix "```" (JsString.trimStart s) with
  | Some _ => true
  | None => false
  end.

(** Modelled from the spec: the span the specification says the extraction
    parses: the content of the first fence of the text and, when the text
    has no fence, the span of braces. *)
Definition claimedSpan (text : string) : JsText :=
  match exec fencePattern text with
  | Some fenceMatch => group 1 fenceMatch
  | None =>
      match exec bracePattern text with
      | Some braceMatch => group 2 braceMatch
      | None => Undefined
      end
  end.

(** Modelled from the spec: the result of the extraction the specification
    describes. *)
Definition claimedExtraction `{Platform} (text : string) : option json :=
  match claimedSpan text with
  | Str span => parsedSpan span
  | _ => None
  end.

(** An object with a truthy [intent], a truthy [entities] and a defined
    [targetCollection]. *)
Definition geminiShaped (v : json) : Prop :=
  exists fields intent entities target,
    v = JObject fields
    /\ Json.lookup "intent" fields = Some intent /\ Json.truthy intent = true
    /\ Json.lookup "entities" fields = Some entities /\ Json.truthy entities = true
    /\ Json.lookup "targetCollection" fields = Some target.

(** The error string the [catch] of lines 141-153 builds. *)
Definition caughtMessage (failure : Thrown) : string :=
  match failure with
  | ThrownError e => "Gemini Processing Error: " ++ errorMessage e
  | ThrownValue => "An unknown error occurred during Gemini processing."
  end.



(** The message of a [get_contacts] response that lists [listed], asked
    with the entity [name]. *)
Definition contactsMessage (name : JsText) (listed : list Contact.t) : string :=
  match listed with
  | _ :: _ =>
      "Here are the contacts I found: " ++ JsString.join ". " (map formatContact listed)
  | [] =>
      if JsTextOps.truthy name
      then "I couldn't find a contact named " ++ JsTextOps.toString name ++ "."
      else "You don't have any contacts saved yet."
  end.

(** The status the central error handler gives to [err]: its [status]
    when it has one that is not zero, 500 otherwise. *)
Definition errorStatusCode (err : Thrown) : nat :=
  match err with
  | ThrownError e =>
      match errorStatus e with
      | Some (S n) => S n
      | _ => 500
      end
  | ThrownValue => 500
  end.

(** The response of the central error handler to [err]. *)
Definition errorResponse (env : Env) (err : Thrown) : Response.t :=
  Response.ofMessage (errorStatusCode err)
    (if production env then "An internal server error occurred."
     else "Internal Server Error: "
          ++ match err with
             | ThrownError e => errorMessage e
             | ThrownValue => "undefined"
             end).

(** A read request whose filters are built: a [get_tasks] classification
    whose two sources are patterns, or a [get_contacts] classification
    whose source is one. *)
Definition readsStore `{Platform} (r : GeminiResponse.t) : Prop :=
  (intent r = "get_tasks"
   /\ (exists f, entityFilter (Entities.time (entities r))
                              (JsTextOps.toString (Entities.time (entities r))) = Some f)
   /\ (exists f, entityFilter (Entities.description (entities r))
                              (descriptionSource (Entities.description (entities r))) = Some f))
  \/ (intent r = "get_contacts"
      /\ exists f, entityFilter (Entities.name (entities r))
                                (JsTextOps.toString (Entities.name (entities r))) = Some f).

(** A read request one of whose sources [new RegExp] rejects with [err]:
    the time of a [get_tasks], its description when the time gave a
    filter, or the name of a [get_contacts]. *)
Definition rejectedPattern `{Platform} (r : GeminiResponse.t) (err : Thrown) : Prop :=
  (intent r = "get_tasks"
   /\ JsTextOps.truthy (Entities.time (entities r)) = true
   /\ RegExp_i (JsTextOps.toString (Entities.time (entities r))) = Abrupt err)
  \/ (intent r = "get_tasks"
      /\ (exists f, entityFilter (Entities.time (entities r))
                                 (JsTextOps.toString (Entities.time (entities r))) = Some f)
      /\ JsTextOps.truthy (Entities.description (entities r)) = true
      /\ RegExp_i (descriptionSource (Entities.description (entities r))) = Abrupt err)
  \/ (intent r = "get_contacts"
      /\ JsTextOps.truthy (Entities.name (entities r)) = true
      /\ RegExp_i (JsTextOps.toString (Entities.name (entities r))) = Abrupt err).

(** An error the handler forwards with a status of its own: the error of
    the driver when the store fails, or what [new RegExp] throws. *)
Definition forwardable `{Platform} (env : Env) (err : Thrown) : Prop :=
  (exists e, dbFault env = Some e /\ err = ThrownError e)
  \/ (exists source, RegExp_i source = Abrupt err).

(** The model call gives no classification, and [error] is the string the
    adapter reports: the call is rejected, there is no response, a block
    reason is reported, [text()] throws, or the extraction returns [null]
    on the text. *)
Definition adapterFails `{Platform} (outcome : ModelOutcome) (error : string) : Prop :=
  match outcome with
  | Rejected failure => error = caughtMessage failure
  | Resolved (NoResponse isNull) =>
      error = caughtMessage
                (ThrownError (TypeError_read (if isNull then "null" else "undefined")
                                             "promptFeedback"))
  | Resolved (ResponseObject blockReason responseText) =>
      if JsTextOps.truthy blockReason then
        error = "Content blocked due to " ++ JsTextOps.toString blockReason
      else
        match responseText with
        | Abrupt failure => error = caughtMessage failure
        | Normal responseText =>
            extractionFails responseText
            /\ error = caughtMessage
                        (ThrownError
                           (Error "Failed to extract or parse valid JSON from Gemini response."))
        end
  end.

(** The response to a classification that failed with [error]. *)
Definition classificationFailed (error : string) : Response.t :=
  {| Response.statusCode := 500;
     Response.json :=
       {| Response.message := "Sorry, I had trouble understanding that right now.";
          Response.details := Some error;
          Response.intent := None;
          Response.entities := None |} |}.

(** [span] is a contiguous part of [text]. *)
Definition occursIn (span text : string) : Prop :=
  exists before after, text = before ++ span ++ after.

(** [rest] is what remains of [input] after some prefix. *)
Definition suffixOf (rest input : string) : Prop :=
  exists consumedPart, input = consumedPart ++ rest.

(** Every captured group is a contiguous part of [text]. *)
Definition capturesIn (text : string) (caps : captures) : Prop :=
  Forall (fun c => occursIn (snd c) text) caps.

(** [s] with each space replaced by a bar. *)
Fixpoint spacesToBars (s : string) : string :=
  match s with
  | EmptyString => EmptyString
  | String c rest =>
      String (if Ascii.eqb c space then "|"%char else c) (spacesToBars rest)
  end.

(** The first of the two required variables that is not set, or is set
    to the empty string, in the order the module reads them. *)
Definition firstMissing (env : ProcessEnv) : option string :=
  if negb (JsTextOps.truthy (envValue env "MONGODB_URI")) then Some "MONGODB_URI"
  else if negb (JsTextOps.truthy (envValue env "GEMINI_API_KEY")) then Some "GEMINI_API_KEY"
  else None.

(** The line [getEnvVariable] prints before it exits. *)
Definition criticalLine (key : string) : LogEntry :=
  {| level := ERROR;
     line := "CRITICAL: Environment variable " ++ key ++ " is not defined." |}.

(** A value that is not a string, or a string of white space only. *)
Definition blank (v : JsText) : Prop :=
  match v with
  | Str s => whitespaceOnly s = true
  | _ => True
  end.

(** A computation only adds lines to the console. *)
Definition appends {A : Type} (m : M A) : Prop :=
  forall w, exists printed, console (snd (m w)) = (console w ++ printed)%list.

(** The line of line 119, which holds the text of the request. *)
Definition sendingLine (text : string) : LogEntry :=
  {| level := LOG; line := "Sending request to Gemini for text: " ++ dq ++ text ++ dq |}.

(** The collection an intent is about; none for [unknown] and for an
    intent outside the five. *)
Definition collectionOf (intent : string) : option string :=
  if String.eqb intent "add_contact" || String.eqb intent "get_contacts"
  then Some "contacts"
  else if String.eqb intent "add_task" || String.eqb intent "get_tasks"
       then Some "tasks"
       else None.

(** The target collection is not the collection of the intent. *)
Definition targetDiffers (intent : string) (target : JsText) : bool :=
  match collectionOf intent with
  | Some collection =>
      match target with
      | Str t => negb (String.eqb t collection)
      | _ => true
      end
  | None => false
  end.

(** The line of line 177. *)
Definition processingLine (r : GeminiResponse.t) : LogEntry :=
  {| level := LOG;
     line := "Processing Intent: " ++ intent r ++ ", Target: "
             ++ JsTextOps.toString (targetCollection r) ++ ", Entities:" |}.

(** The warning of line 184. *)
Definition mismatchLine (r : GeminiResponse.t) : LogEntry :=
  {| level := WARN;
     line := "Intent/Collection mismatch: Intent is " ++ intent r
             ++ ", but collection is " ++ JsTextOps.toString (targetCollection r) |}.

Definition isError (entry : LogEntry) : Prop := level entry = ERROR.

(** The first line a computation prints is [entry]. *)
Definition printsFirst {A : Type} (entry : LogEntry) (m : M A) : Prop :=
  forall w, exists printed, console (snd (m w)) = (console w ++ entry :: printed)%list.
(** The bytes a character of white space is made of. *)
Inductive spaceChar : string -> Prop :=
| spaceChar1 a :
    JsString.space1 a = true -> spaceChar (String a EmptyString)
| spaceChar2 a b :
    JsString.space1 a = false -> JsString.lead2 a = true -> JsString.space2 a b = true ->
    spaceChar (String a (String b EmptyString))
| spaceChar3 a b c :
    JsString.space1 a = false -> JsString.lead2 a = false -> JsString.lead3 a = true ->
    JsString.space3 a b c = true ->
    spaceChar (String a (String b (String c EmptyString))).

(* ================================================================== *)
(** ** Concrete requests, used by the examples *)

Definition blockedResult : GeminiResponse.t :=
  {| intent := "unknown"; entities := Entities.empty; targetCollection := Null;
     error := Str "Content blocked due to HATE_SPEECH" |}.

Definition unclearResult : GeminiResponse.t :=
  {| intent := "unknown"; entities := Entities.empty; targetCollection := Null;
     error := Undefined |}.

Definition emptyWorld : World := {| contacts := []; tasks := []; console := [] |}.

Definition devEnv : Env := {| now := 1000; production := false; dbFault := None |}.

Definition deleteContactResult : GeminiResponse.t :=
  {| intent := "delete_contact";
     entities := {| Entities.name := Str "John Doe"; Entities.phoneNumber := Null;
                    Entities.relationship := Null; Entities.description := Null;
                    Entities.time := Null |};
     targetCollection := Str "contacts"; error := Undefined |}.


Definition lf : string := String (ascii_of_nat 10) EmptyString.

(** A JSON string literal without escapes. *)
Definition quoted (s : string) : string := dq ++ s ++ dq.

(** The example of the prompt (lines 102-112). *)
Definition johnDoeText : string :=
  "Please add my son John Doe to my contacts, his number is 555-111-2222".

Definition johnDoeJson : string :=
  "{" ++ lf
  ++ "  " ++ quoted "intent" ++ ": " ++ quoted "add_contact" ++ "," ++ lf
  ++ "  " ++ quoted "entities" ++ ": {" ++ lf
  ++ "    " ++ quoted "name" ++ ": " ++ quoted "John Doe" ++ "," ++ lf
  ++ "    " ++ quoted "phoneNumber" ++ ": " ++ quoted "555-111-2222" ++ "," ++ lf
  ++ "    " ++ quoted "relationship" ++ ": " ++ quoted "son" ++ lf
  ++ "  }," ++ lf
  ++ "  " ++ quoted "targetCollection" ++ ": " ++ quoted "contacts" ++ lf
  ++ "}".

Definition johnDoeResult : GeminiResponse.t :=
  {| intent := "add_contact";
     entities := {| Entities.name := Str "John Doe";
                    Entities.phoneNumber := Str "555-111-2222";
                    Entities.relationship := Str "son";
                    Entities.description := Undefined;
                    Entities.time := Undefined |};
     targetCollection := Str "contacts"; error := Undefined |}.

(** The model answers with [responseText] and reports no block. *)
Definition answers (responseText : string) : ModelOutcome :=
  Resolved (ResponseObject Undefined (Normal responseText)).

(** The end-to-end scenario of the specification. *)
Definition doctorText : string := "Remind me to call the doctor tomorrow".

Definition doctorJson : string :=
  "{" ++ quoted "intent" ++ ": " ++ quoted "add_task" ++ ", "
  ++ quoted "entities" ++ ": {" ++ quoted "description" ++ ": "
  ++ quoted "call the doctor" ++ ", " ++ quoted "time" ++ ": "
  ++ quoted "tomorrow" ++ "}, "
  ++ quoted "targetCollection" ++ ": " ++ quoted "tasks" ++ "}".

Definition doctorResult : GeminiResponse.t :=
  {| intent := "add_task";
     entities := {| Entities.name := Undefined; Entities.phoneNumber := Undefined;
                    Entities.relationship := Undefined;
                    Entities.description := Str "call the doctor";
                    Entities.time := Str "tomorrow" |};
     targetCollection := Str "tasks"; error := Undefined |}.

Definition noPhoneResult : GeminiResponse.t :=
  {| intent := "add_contact";
     entities := {| Entities.name := Str "John Doe"; Entities.phoneNumber := Null;
                    Entities.relationship := Null; Entities.description := Undefined;
                    Entities.time := Undefined |};
     targetCollection := Str "contacts"; error := Undefined |}.

Definition buyMilk : Task.t :=
  {| Task.prompt := Str "Remind me to buy milk in the morning";
     Task.description := Str "buy milk"; Task.time := Str "morning";
     Task.isCompleted := false; Task.createdAt := 5 |}.

Definition walkDog : Task.t :=
  {| Task.prompt := Str "I have to walk the dog";
     Task.description := Str "walk dog"; Task.time := Undefined;
     Task.isCompleted := false; Task.createdAt := 7 |}.

Definition twoTasks : World :=
  {| contacts := []; tasks := [buyMilk; walkDog]; console := [] |}.

(** A [get_tasks] classification with the entities [description] and [time]. *)
Definition getTasks (description time : JsText) : GeminiResponse.t :=
  {| intent := "get_tasks";
     entities := {| Entities.name := Undefined; Entities.phoneNumber := Undefined;
                    Entities.relationship := Undefined;
                    Entities.description := description;
                    Entities.time := time |};
     targetCollection := Str "tasks"; error := Undefined |}.

(** An answer of the model that opens a brace before its fence. *)
Definition chattyAnswer : string :=
  "Sure {as requested}:" ++ lf ++ "```json" ++ lf ++ johnDoeJson ++ lf ++ "```".

(** An answer of the model in a fence. *)
Definition fencedAnswer : string :=
  "Here is the result:" ++ lf ++ "```json" ++ lf ++ johnDoeJson ++ lf ++ "```" ++ lf.

Definition johnDoeParsed : json :=
  JObject [ ("intent", JString "add_contact");
            ("entities", JObject [ ("name", JString "John Doe");
                                   ("phoneNumber", JString "555-111-2222");
                                   ("relationship", JString "son") ]);
            ("targetCollection", JString "contacts") ].

(** An answer of the model with an intent outside the five. *)
Definition deleteContactJson : string :=
  "{" ++ quoted "intent" ++ ": " ++ quoted "delete_contact" ++ ", "
  ++ quoted "entities" ++ ": {" ++ quoted "name" ++ ": " ++ quoted "John Doe" ++ "}, "
  ++ quoted "targetCollection" ++ ": " ++ quoted "contacts" ++ "}".

Definition johnDoe : Contact.t :=
  {| Contact.name := Str "John Doe"; Contact.phoneNumber := Str "555-111-2222";
     Contact.prompt := Str "Please add my son John Doe to my contacts";
     Contact.relationship := Str "son"; Contact.createdAt := 3 |}.

Definition annSmith : Contact.t :=
  {| Contact.name := Str "Ann Smith"; Contact.phoneNumber := Str "555-333-4444";
     Contact.prompt := Str "Save Ann Smith, 555-333-4444";
     Contact.relationship := Undefined; Contact.createdAt := 4 |}.

Definition twoContacts : World :=
  {| contacts := [johnDoe; annSmith]; tasks := [buyMilk]; console := [] |}.

(** A [get_contacts] classification with the entity [name]. *)
Definition getContacts (name : JsText) : GeminiResponse.t :=
  {| intent := "get_contacts";
     entities := {| Entities.name := name; Entities.phoneNumber := Undefined;
                    Entities.relationship := Undefined;
                    Entities.description := Undefined;
                    Entities.time := Undefined |};
     targetCollection := Str "contacts"; error := Undefined |}.

(** The store does not answer. *)
Definition storeDown : JsError :=
  {| errorName := "MongoNetworkError"; errorMessage := "connection timed out";
     errorStatus := None |}.

Definition downEnv : Env :=
  {| now := 1000; production := true; dbFault := Some storeDown |}.

(** The model's client fails: a quota error. *)
Definition quotaExceeded : Thrown :=
  ThrownError {| errorName := "GoogleGenerativeAIFetchError";
                 errorMessage := "[429 Too Many Requests] quota exceeded for key AIza-secret";
                 errorStatus := Some 429 |}.

Definition productionEnv : Env := {| now := 1000; production := true; dbFault := None |}.

(** An answer whose fence is empty and is followed by the object. *)
Definition emptyFenceAnswer : string :=
  "```json" ++ lf ++ "```" ++ lf ++ johnDoeJson.

(** An environment with the two required variables and no port. *)
Definition usualEnv : ProcessEnv :=
  fun key =>
    if String.eqb key "MONGODB_URI" then Some "mongodb://localhost/elda"
    else if String.eqb key "GEMINI_API_KEY" then Some "AIza-secret"
    else None.

(** The same, with a port that is not a number. *)
Definition wordPortEnv : ProcessEnv :=
  fun key => if String.eqb key "PORT" then Some "default" else usualEnv key.

(** U+00A0, U+3000 and U+FEFF, as a JavaScript string holds them in
    UTF-8. *)
Definition nbsp : string :=
  String (ascii_of_nat 194) (String (ascii_of_nat 160) EmptyString).

Definition ideographicSpace : string :=
  String (ascii_of_nat 227) (String (ascii_of_nat 128) (String (ascii_of_nat 128) EmptyString)).

Definition byteOrderMark : string :=
  String (ascii_of_nat 239) (String (ascii_of_nat 187) (String (ascii_of_nat 191) EmptyString)).

(** An answer whose fence is padded with no-break spaces. *)
Definition paddedFenceAnswer : string :=
  "```json" ++ nbsp ++ johnDoeJson ++ nbsp ++ lf ++ "```".

(** An answer whose fence has no tag. *)
Definition untaggedFenceAnswer : string :=
  "Here it is:" ++ lf ++ "```" ++ lf ++ johnDoeJson ++ lf ++ "```".

(** An answer with inline code before its fence. *)
Definition inlineCodeAnswer : string :=
  "The " ++ bq ++ "intent" ++ bq ++ " is add_contact:" ++ lf
  ++ "```json" ++ lf ++ johnDoeJson ++ lf ++ "```".

(** An answer with two fences. *)
Definition twoFencesAnswer : string :=
  "```json" ++ lf ++ johnDoeJson ++ lf ++ "```" ++ lf ++ "or" ++ lf
  ++ "```json" ++ lf ++ "{}" ++ lf ++ "```".

(** The usual environment, with a port that follows a no-break space. *)
Definition paddedPortEnv : ProcessEnv :=
  fun key => if String.eqb key "PORT" then Some (nbsp ++ "8080") else usualEnv key.

(* ================================================================== *)
(** * Properties *)

(** ** The monad *)

Ltac unfold_m :=
  unfold pipeline, respond, errorMiddleware, handleClassification, switchIntent,
    newRegExp, await_model, generateContent,
    ContactModel.save, ContactModel.find, ContactModel.insert,
    TaskModel.save, TaskModel.find_sorted, TaskModel.insert,
    console_log, console_warn, console_error, console_print,
    try_catch, bind, ret, throw, stored in *.

Lemma stored_console (w : World) (l : list LogEntry) :
  stored {| contacts := contacts w; tasks := tasks w; console := l |} = stored w.
Proof. reflexivity. Qed.

Lemma console_print_stored lvl msg w :
  stored (snd (console_print lvl msg w)) = stored w.
Proof. reflexivity. Qed.

Lemma intent_not_known (i : string) :
  ~ In i knownIntents ->
  String.eqb i "add_contact" = false /\ String.eqb i "add_task" = false
  /\ String.eqb i "get_contacts" = false /\ String.eqb i "get_tasks" = false
  /\ String.eqb i "unknown" = false.
Proof.
  intros H. repeat split; apply String.eqb_neq; intros ->; apply H; simpl; tauto.
Qed.

(** ** The classification failed, or the intent is unknown *)

(** C5. When the [error] of the classification is set (a string that is
    not empty), the response is 500 with the message of apology and the
    error as [details]; when no error is set and the intent is [unknown],
    the response is 400 with another message; neither writes a document. *)
Theorem C5_error_500_unknown_400 `{Platform} (env : Env) (r : GeminiResponse.t) (w : World) :
  (JsTextOps.truthy (error r) = true ->
   exists w',
     pipeline env r w =
       (Normal {| Response.statusCode := 500;
                  Response.json :=
                    {| Response.message := "Sorry, I had trouble understanding that right now.";
                       Response.details := Some (JsTextOps.toString (error r));
                       Response.intent := None;
                       Response.entities := None |} |}, w')
     /\ stored w' = stored w)
  /\ (JsTextOps.truthy (error r) = false -> intent r = "unknown" ->
      exists w',
        pipeline env r w =
          (Normal {| Response.statusCode := 400;
                     Response.json :=
                       {| Response.message := "I'm sorry, I didn't quite understand your request.";
                          Response.details := Some "Unknown intent";
                          Response.intent := None;
                          Response.entities := None |} |}, w')
        /\ stored w' = stored w)
  /\ "Sorry, I had trouble understanding that right now."
     <> "I'm sorry, I didn't quite understand your request.".
Proof.
  split; [|split].
  - intros He. unfold_m. unfold JsTextOps.or. rewrite He. simpl.
    eexists. split; reflexivity.
  - intros He Hi. unfold_m. unfold JsTextOps.or. rewrite He, Hi. simpl.
    eexists. split; reflexivity.
  - discriminate.
Qed.

Lemma C5_witness :
  (exists w',
     @pipeline litePlatform devEnv blockedResult emptyWorld =
       (Normal {| Response.statusCode := 500;
                  Response.json :=
                    {| Response.message := "Sorry, I had trouble understanding that right now.";
                       Response.details := Some "Content blocked due to HATE_SPEECH";
                       Response.intent := None;
                       Response.entities := None |} |}, w')
     /\ stored w' = stored emptyWorld)
  /\ (exists w',
        @pipeline litePlatform devEnv unclearResult emptyWorld =
          (Normal {| Response.statusCode := 400;
                     Response.json :=
                       {| Response.message := "I'm sorry, I didn't quite understand your request.";
                          Response.details := Some "Unknown intent";
                          Response.intent := None;
                          Response.entities := None |} |}, w')
        /\ stored w' = stored emptyWorld).
Proof.
  split.
  - apply (proj1 (@C5_error_500_unknown_400 litePlatform devEnv blockedResult emptyWorld)).
    reflexivity.
  - apply (proj1 (proj2 (@C5_error_500_unknown_400 litePlatform devEnv unclearResult emptyWorld)));
      reflexivity.
Defined.

(** ** An intent outside the five *)

(** C10. A classification without error whose intent is a truthy string
    other than the five intents gets the response 200 with the message
    "Something went wrong while processing your request.", and no document
    is written. *)
Theorem C10_other_intent_200 `{Platform} (env : Env) (r : GeminiResponse.t) (w : World) :
  JsTextOps.truthy (error r) = false ->
  JsString.truthy (intent r) = true ->
  ~ In (intent r) knownIntents ->
  exists w',
    pipeline env r w =
      (Normal {| Response.statusCode := 200;
                 Response.json :=
                   {| Response.message := "Something went wrong while processing your request.";
                      Response.details := None;
                      Response.intent := Some (intent r);
                      Response.entities := Some (entities r) |} |}, w')
    /\ stored w' = stored w.
Proof.
  intros He _ Hi.
  destruct (intent_not_known Hi) as (H1 & H2 & H3 & H4 & H5).
  unfold_m. rewrite He, H5. simpl.
  unfold collectionMismatch. rewrite H1, H2, H3, H4. simpl.
  eexists. split; reflexivity.
Qed.

Lemma C10_witness :
  exists w',
    @pipeline litePlatform devEnv deleteContactResult emptyWorld =
      (Normal {| Response.statusCode := 200;
                 Response.json :=
                   {| Response.message := "Something went wrong while processing your request.";
                      Response.details := None;
                      Response.intent := Some "delete_contact";
                      Response.entities := Some (entities deleteContactResult) |} |}, w')
    /\ stored w' = stored emptyWorld.
Proof.
  apply (@C10_other_intent_200 litePlatform devEnv deleteContactResult emptyWorld).
  - reflexivity.
  - reflexivity.
  - simpl. intros [H | [H | [H | [H | [H | []]]]]]; discriminate H.
Defined.

(** ** What a computation reads and writes of the world *)

Section Frames.
Context {A B : Type}.

Lemma blind_ret (a : A) : blind (ret a).
Proof. intros w1 w2 Hs. split; [reflexivity | exact Hs]. Qed.

Lemma blind_throw (e : Thrown) : blind (@throw A e).
Proof. intros w1 w2 Hs. split; [reflexivity | exact Hs]. Qed.

Lemma blind_bind (m : M A) (f : A -> M B) :
  blind m -> (forall a, blind (f a)) -> blind (bind m f).
Proof.
  intros Hm Hf w1 w2 Hs. unfold bind.
  destruct (Hm w1 w2 Hs) as [Hr Hw].
  destruct (m w1) as [[a1 | e1] w1'], (m w2) as [[a2 | e2] w2'];
    simpl in *; try discriminate.
  - injection Hr as ->. apply Hf, Hw.
  - injection Hr as ->. split; [reflexivity | exact Hw].
Qed.

Lemma blind_try (m : M A) (h : Thrown -> M A) :
  blind m -> (forall e, blind (h e)) -> blind (try_catch m h).
Proof.
  intros Hm Hh w1 w2 Hs. unfold try_catch.
  destruct (Hm w1 w2 Hs) as [Hr Hw].
  destruct (m w1) as [[a1 | e1] w1'], (m w2) as [[a2 | e2] w2'];
    simpl in *; try discriminate.
  - injection Hr as ->. split; [reflexivity | exact Hw].
  - injection Hr as ->. apply Hh, Hw.
Qed.

Lemma readonly_ret (a : A) : readonly (ret a).
Proof. intros w. reflexivity. Qed.

Lemma readonly_throw (e : Thrown) : readonly (@throw A e).
Proof. intros w. reflexivity. Qed.

Lemma readonly_bind (m : M A) (f : A -> M B) :
  readonly m -> (forall a, readonly (f a)) -> readonly (bind m f).
Proof.
  intros Hm Hf w. unfold bind. specialize (Hm w).
  destruct (m w) as [[a | e] w']; simpl in *.
  - rewrite Hf. exact Hm.
  - exact Hm.
Qed.

Lemma readonly_try (m : M A) (h : Thrown -> M A) :
  readonly m -> (forall e, readonly (h e)) -> readonly (try_catch m h).
Proof.
  intros Hm Hh w. unfold try_catch. specialize (Hm w).
  destruct (m w) as [[a | e] w']; simpl in *.
  - exact Hm.
  - rewrite Hh. exact Hm.
Qed.
End Frames.

Lemma blind_print lvl msg : blind (console_print lvl msg).
Proof. intros w1 w2 Hs. split; [reflexivity | exact Hs]. Qed.

Lemma readonly_print lvl msg : readonly (console_print lvl msg).
Proof. intros w. reflexivity. Qed.

Lemma blind_await {A : Type} (c : Completion A) : blind (await_model c).
Proof. destruct c; [apply blind_ret | apply blind_throw]. Qed.

Lemma readonly_await {A : Type} (c : Completion A) : readonly (await_model c).
Proof. destruct c; [apply readonly_ret | apply readonly_throw]. Qed.

Lemma stored_inv (w1 w2 : World) :
  stored w1 = stored w2 -> contacts w1 = contacts w2 /\ tasks w1 = tasks w2.
Proof. unfold stored. intros H. injection H. auto. Qed.

Lemma blind_contact_save env doc : blind (ContactModel.save env doc).
Proof.
  unfold ContactModel.save.
  destruct (ContactModel.validate doc); [| apply blind_throw].
  destruct (dbFault env); [apply blind_throw |].
  intros w1 w2 Hs. destruct (stored_inv Hs) as [Hc Ht].
  unfold ContactModel.insert, stored. simpl. rewrite Hc, Ht. auto.
Qed.

Lemma blind_task_save env doc : blind (TaskModel.save env doc).
Proof.
  unfold TaskModel.save.
  destruct (TaskModel.validate doc); [| apply blind_throw].
  destruct (dbFault env); [apply blind_throw |].
  intros w1 w2 Hs. destruct (stored_inv Hs) as [Hc Ht].
  unfold TaskModel.insert, stored. simpl. rewrite Hc, Ht. auto.
Qed.

Lemma blind_contact_find env q : blind (ContactModel.find env q).
Proof.
  unfold ContactModel.find. destruct (dbFault env); [apply blind_throw |].
  intros w1 w2 Hs. destruct (stored_inv Hs) as [Hc Ht]. simpl.
  rewrite Hc. auto.
Qed.

Lemma blind_task_find env q : blind (TaskModel.find_sorted env q).
Proof.
  unfold TaskModel.find_sorted. destruct (dbFault env); [apply blind_throw |].
  intros w1 w2 Hs. destruct (stored_inv Hs) as [Hc Ht]. simpl.
  rewrite Ht. auto.
Qed.

Lemma readonly_contact_find env q : readonly (ContactModel.find env q).
Proof.
  unfold ContactModel.find. destruct (dbFault env); [apply readonly_throw |].
  intros w. reflexivity.
Qed.

Lemma readonly_task_find env q : readonly (TaskModel.find_sorted env q).
Proof.
  unfold TaskModel.find_sorted. destruct (dbFault env); [apply readonly_throw |].
  intros w. reflexivity.
Qed.

Create HintDb frames.
#[local] Hint Resolve blind_ret blind_throw blind_print blind_await
  blind_contact_save blind_task_save blind_contact_find blind_task_find
  readonly_ret readonly_throw readonly_print readonly_await
  readonly_contact_find readonly_task_find : frames.

Ltac frames :=
  repeat first
    [ progress intros
    | apply blind_bind | apply blind_try
    | apply readonly_bind | apply readonly_try
    | solve [unfold console_log, console_warn, console_error, newRegExp;
             auto with frames]
    | match goal with
      | |- context [if ?c then _ else _] => destruct c
      | |- context [match ?x with Return _ => _ | Break _ => _ end] => destruct x
      | |- context [match ?x with Sent _ => _ | Next _ => _ end] => destruct x
      end ].

Lemma blind_switchIntent `{Platform} env i e : blind (switchIntent env i e).
Proof. unfold switchIntent. frames. Qed.

Lemma blind_dispatch `{Platform} env r :
  blind (try_catch
           (ending <- switchIntent env (intent r) (entities r) ;;
            match ending with
            | Return reply => ret reply
            | Break responseMessage =>
                ret (Sent {| Response.statusCode := 200;
                             Response.json :=
                               {| Response.message := responseMessage;
                                  Response.details := None;
                                  Response.intent := Some (intent r);
                                  Response.entities := Some (entities r) |} |})
            end)
           (fun dbError =>
              console_error "Database operation failed:" ;;;
              ret (Next dbError))).
Proof.
  apply blind_try.
  - apply blind_bind; [apply blind_switchIntent | frames].
  - frames.
Qed.

Lemma blind_respond env reply : blind (respond env reply).
Proof. unfold respond, errorMiddleware. frames. Qed.

Lemma blind_handleClassification `{Platform} env r : blind (handleClassification env r).
Proof.
  unfold handleClassification.
  destruct (JsTextOps.truthy (error r) || String.eqb (intent r) "unknown").
  - frames.
  - apply blind_bind; [frames |]. intros _.
    apply blind_bind; [frames |]. intros _.
    apply blind_dispatch.
Qed.

Lemma blind_pipeline `{Platform} env r : blind (pipeline env r).
Proof.
  unfold pipeline. apply blind_bind;
    [apply blind_handleClassification | intros; apply blind_respond].
Qed.

(** ** The target collection *)

(** C9. The [targetCollection] of a classification changes neither the
    response nor the documents: two classifications that differ in it only
    get the same response and leave the same documents. A mismatch with the
    intent only adds a warning to the console. *)
Theorem C9_targetCollection_ignored `{Platform}
        (env : Env) (r : GeminiResponse.t) (target1 target2 : JsText) (w : World) :
  fst (pipeline env (withTargetCollection r target1) w)
  = fst (pipeline env (withTargetCollection r target2) w)
  /\ stored (snd (pipeline env (withTargetCollection r target1) w))
     = stored (snd (pipeline env (withTargetCollection r target2) w)).
Proof.
  unfold pipeline.
  assert (Hh : fst (handleClassification env (withTargetCollection r target1) w)
               = fst (handleClassification env (withTargetCollection r target2) w)
               /\ stored (snd (handleClassification env (withTargetCollection r target1) w))
                  = stored (snd (handleClassification env (withTargetCollection r target2) w))).
  { unfold handleClassification. simpl.
    destruct (JsTextOps.truthy (error r) || String.eqb (intent r) "unknown").
    - split; reflexivity.
    - unfold bind at 1 3 5 7. unfold console_log at 1 2 3 4. simpl.
      unfold bind at 1 3 5 7.
      destruct (collectionMismatch (intent r) target1),
               (collectionMismatch (intent r) target2);
        simpl; apply (blind_dispatch env (withTargetCollection r Null)); reflexivity. }
  destruct Hh as [Hr Hw]. unfold bind.
  destruct (handleClassification env (withTargetCollection r target1) w) as [[a1 | e1] w1],
           (handleClassification env (withTargetCollection r target2) w) as [[a2 | e2] w2];
    simpl in *; try discriminate.
  - injection Hr as ->. apply blind_respond, Hw.
  - injection Hr as ->. split; [reflexivity | exact Hw].
Qed.

(** A mismatch between the intent and the target collection is printed
    as a warning, and the tasks are listed all the same. *)
Example mismatch_is_logged :
  let r := withTargetCollection (getTasks Undefined Undefined) (Str "contacts") in
  fst (@pipeline litePlatform devEnv r twoTasks)
  = Normal (ok "Here are your current tasks: walk dog. buy milk at morning" r)
  /\ console (snd (@pipeline litePlatform devEnv r twoTasks))
     = [ {| level := LOG;
            line := "Processing Intent: get_tasks, Target: contacts, Entities:" |};
         {| level := WARN;
            line := "Intent/Collection mismatch: Intent is get_tasks, but collection is contacts" |} ].
Proof. split; vm_compute; reflexivity. Qed.

(** ** Saving a document *)

(** The documents the handler builds have no [prompt], which both schemas
    require: [save()] rejects them before anything reaches the store. *)
Lemma validatePaths_In (paths : list (SchemaString * string * JsText))
      (e : string * string) :
  In e (validatePaths paths)
  <-> exists p, In p paths /\ In e (validatePath (fst (fst p)) (snd (fst p)) (snd p)).
Proof.
  unfold validatePaths. rewrite in_flat_map.
  split; intros (p & Hp & He); exists p; (split; [| exact He]).
  - apply in_app_iff in Hp. destruct Hp as [Hp | Hp]; apply filter_In in Hp; tauto.
  - apply in_app_iff. rewrite !filter_In.
    destruct (isUnset (snd p)); [left | right]; auto.
Qed.

Lemma contact_validate_create env name phoneNumber relationship :
  ContactModel.validate (ContactModel.create env name phoneNumber relationship) <> [].
Proof.
  intros E.
  assert (Hin : In ("prompt", "Path " ++ bq ++ "prompt" ++ bq ++ " is required.")
                   (ContactModel.validate
                      (ContactModel.create env name phoneNumber relationship))).
  { apply validatePaths_In. exists (ContactSchema.prompt, "prompt", Undefined).
    split; [simpl; tauto | left; reflexivity]. }
  rewrite E in Hin. exact Hin.
Qed.

Lemma task_validate_create env description time :
  TaskModel.validate (TaskModel.create env description time) <> [].
Proof.
  intros E.
  assert (Hin : In ("prompt", "Path " ++ bq ++ "prompt" ++ bq ++ " is required.")
                   (TaskModel.validate (TaskModel.create env description time))).
  { apply validatePaths_In. exists (TaskSchema.prompt, "prompt", Undefined).
    split; [simpl; tauto | left; reflexivity]. }
  rewrite E in Hin. exact Hin.
Qed.

Lemma contact_save_rejects env name phoneNumber relationship w :
  ContactModel.save env (ContactModel.create env name phoneNumber relationship) w
  = (Abrupt (ThrownError
               (ValidationError "Contact"
                  (ContactModel.validate
                     (ContactModel.create env name phoneNumber relationship)))), w).
Proof.
  unfold ContactModel.save.
  destruct (ContactModel.validate _) eqn:E; [| reflexivity].
  exfalso. eapply contact_validate_create. exact E.
Qed.

Lemma task_save_rejects env description time w :
  TaskModel.save env (TaskModel.create env description time) w
  = (Abrupt (ThrownError
               (ValidationError "Task"
                  (TaskModel.validate (TaskModel.create env description time)))), w).
Proof.
  unfold TaskModel.save.
  destruct (TaskModel.validate _) eqn:E; [| reflexivity].
  exfalso. eapply task_validate_create. exact E.
Qed.

Lemma readonly_contact_save_create env name phoneNumber relationship :
  readonly (ContactModel.save env (ContactModel.create env name phoneNumber relationship)).
Proof. intros w. rewrite contact_save_rejects. reflexivity. Qed.

Lemma readonly_task_save_create env description time :
  readonly (TaskModel.save env (TaskModel.create env description time)).
Proof. intros w. rewrite task_save_rejects. reflexivity. Qed.

#[local] Hint Resolve readonly_contact_save_create readonly_task_save_create : frames.

(** ** No request changes the collections *)

Lemma readonly_switchIntent `{Platform} env i e : readonly (switchIntent env i e).
Proof. unfold switchIntent. frames. Qed.

Lemma readonly_handleClassification `{Platform} env r :
  readonly (handleClassification env r).
Proof.
  unfold handleClassification.
  destruct (JsTextOps.truthy (error r) || String.eqb (intent r) "unknown").
  - frames.
  - apply readonly_bind; [frames |]. intros _.
    apply readonly_bind; [frames |]. intros _.
    apply readonly_try.
    + apply readonly_bind; [apply readonly_switchIntent | frames].
    + frames.
Qed.

Lemma readonly_respond env reply : readonly (respond env reply).
Proof. unfold respond, errorMiddleware. frames. Qed.

Lemma readonly_pipeline `{Platform} env r : readonly (pipeline env r).
Proof.
  unfold pipeline. apply readonly_bind;
    [apply readonly_handleClassification | intros; apply readonly_respond].
Qed.

Lemma readonly_extractJsonFromString `{Platform} text :
  readonly (extractJsonFromString text).
Proof.
  unfold extractJsonFromString, noJsonFound.
  destruct (exec jsonPattern text); [| frames].
  destruct (JSON_parse _); frames.
Qed.

Lemma readonly_processTextWithGemini `{Platform} text outcome :
  readonly (processTextWithGemini text outcome).
Proof.
  unfold processTextWithGemini. apply readonly_try; [| frames].
  apply readonly_bind; [frames |]. intros _.
  apply readonly_bind.
  - unfold generateContent. destruct outcome; frames.
  - intros [isNull | blockReason responseText]; [frames |].
    destruct (JsTextOps.truthy blockReason); [frames |].
    apply readonly_bind; [frames |]. intros s.
    apply readonly_bind; [frames |]. intros _.
    apply readonly_bind; [apply readonly_extractJsonFromString |].
    intros [parsed |]; frames.
Qed.



(** ** Strings *)

Lemma append_length (a b : string) :
  String.length (a ++ b) = String.length a + String.length b.
Proof. induction a as [| c a IH]; simpl; [reflexivity | rewrite IH; reflexivity]. Qed.

Lemma append_assoc (a b c : string) : (a ++ b) ++ c = a ++ (b ++ c).
Proof. induction a as [| x a IH]; simpl; [reflexivity | rewrite IH; reflexivity]. Qed.

Lemma append_empty_r (a : string) : a ++ EmptyString = a.
Proof. induction a as [| x a IH]; simpl; [reflexivity | rewrite IH; reflexivity]. Qed.

Lemma suffixOf_refl (s : string) : suffixOf s s.
Proof. exists EmptyString. reflexivity. Qed.

Lemma suffixOf_trans (a b c : string) : suffixOf a b -> suffixOf b c -> suffixOf a c.
Proof.
  intros [p ->] [q ->]. exists (q ++ p). rewrite append_assoc. reflexivity.
Qed.

Lemma suffixOf_tail (c : ascii) (s : string) : suffixOf s (String c s).
Proof. exists (String c EmptyString). reflexivity. Qed.

Lemma substring_prefix (a b : string) :
  String.substring 0 (String.length a) (a ++ b) = a.
Proof.
  induction a as [| c a IH]; simpl.
  - destruct b; reflexivity.
  - rewrite IH. reflexivity.
Qed.

Lemma consumed_append (a b : string) : consumed (a ++ b) b = a.
Proof.
  unfold consumed. rewrite append_length.
  replace (String.length a + String.length b - String.length b)
    with (String.length a) by lia.
  apply substring_prefix.
Qed.


Lemma strip_prefix_head (c d : ascii) (p s : string) :
  Ascii.eqb c d = false -> JsString.strip_prefix (String c p) (String d s) = None.
Proof. intros E. simpl. rewrite E. reflexivity. Qed.

Lemma strip_prefix_some (p s rest : string) :
  JsString.strip_prefix p s = Some rest -> s = p ++ rest.
Proof.
  revert s. induction p as [| a p IH]; intros s E; simpl in E.
  - injection E as ->. reflexivity.
  - destruct s as [| b s]; [discriminate E |].
    destruct (Ascii.eqb_spec a b) as [-> |]; [| discriminate E].
    simpl. rewrite (IH s E). reflexivity.
Qed.

(** ** White space *)

Lemma on_space_strip (A : Type) (s : string) (yes : string -> A) (no : A) :
  JsString.on_space s yes no
  = match JsString.strip_space s with Some r => yes r | None => no end.
Proof.
  unfold JsString.strip_space, JsString.on_space.
  destruct s as [| a r1]; [reflexivity |].
  destruct (JsString.space1 a); [reflexivity |].
  destruct (JsString.lead2 a).
  { destruct r1 as [| b r2]; [reflexivity |]. destruct (JsString.space2 a b); reflexivity. }
  destruct (JsString.lead3 a); [| reflexivity].
  destruct r1 as [| b [| c r3]]; try reflexivity.
  destruct (JsString.space3 a b c); reflexivity.
Qed.

Lemma strip_space_some (s r : string) :
  JsString.strip_space s = Some r <-> exists w, spaceChar w /\ s = w ++ r.
Proof.
  unfold JsString.strip_space, JsString.on_space. split.
  - destruct s as [| a r1]; [discriminate |].
    destruct (JsString.space1 a) eqn:E1.
    { intros E. injection E as <-. eexists. split; [apply spaceChar1, E1 | reflexivity]. }
    destruct (JsString.lead2 a) eqn:E2.
    { destruct r1 as [| b r2]; [discriminate |].
      destruct (JsString.space2 a b) eqn:E3; [| discriminate].
      intros E. injection E as <-.
      eexists. split; [apply spaceChar2; eassumption | reflexivity]. }
    destruct (JsString.lead3 a) eqn:E3; [| discriminate].
    destruct r1 as [| b [| c r3]]; try discriminate.
    destruct (JsString.space3 a b c) eqn:E4; [| discriminate].
    intros E. injection E as <-.
    eexists. split; [apply spaceChar3; eassumption | reflexivity].
  - intros (w & Hw & ->). destruct Hw as [a H1 | a b H1 H2 H3 | a b c H1 H2 H3 H4]; simpl.
    + rewrite H1. reflexivity.
    + rewrite H1, H2, H3. reflexivity.
    + rewrite H1, H2, H3, H4. reflexivity.
Qed.

Lemma spaceChar_length (w : string) : spaceChar w -> 0 < String.length w.
Proof. intros []; simpl; lia. Qed.

Lemma strip_space_shorter (s r : string) :
  JsString.strip_space s = Some r -> String.length r < String.length s.
Proof.
  intros E. apply strip_space_some in E. destruct E as (w & Hw & ->).
  rewrite append_length. apply spaceChar_length in Hw. lia.
Qed.

(** Induction along the characters of white space a string starts with. *)
Lemma space_ind (P : string -> Prop) :
  (forall s, JsString.strip_space s = None -> P s) ->
  (forall s r, JsString.strip_space s = Some r -> P r -> P s) ->
  forall s, P s.
Proof.
  intros Hnone Hsome s.
  remember (String.length s) as n eqn:Hn. revert s Hn.
  induction n as [n IH] using lt_wf_ind. intros s ->.
  destruct (JsString.strip_space s) as [r |] eqn:E.
  - apply (Hsome s r E). apply (IH (String.length r)); [| reflexivity].
    apply strip_space_shorter, E.
  - apply Hnone, E.
Qed.

Lemma trimStart_eq (s : string) :
  JsString.trimStart s
  = match JsString.strip_space s with Some r => JsString.trimStart r | None => s end.
Proof.
  destruct s as [| a s]; [reflexivity |].
  exact (on_space_strip (String a s) JsString.trimStart (String a s)).
Qed.

Lemma whitespaceOnly_eq (s : string) :
  whitespaceOnly s
  = match s with
    | EmptyString => true
    | String _ _ =>
        match JsString.strip_space s with Some r => whitespaceOnly r | None => false end
    end.
Proof.
  destruct s as [| a s]; [reflexivity |].
  exact (on_space_strip (String a s) whitespaceOnly false).
Qed.

Lemma strip_space_empty : JsString.strip_space EmptyString = None.
Proof. reflexivity. Qed.

Lemma whitespaceOnly_trimStart (s : string) :
  whitespaceOnly s = true <-> JsString.trimStart s = EmptyString.
Proof.
  induction s as [s E | s r E IH] using space_ind;
    rewrite whitespaceOnly_eq, trimStart_eq, E.
  - destruct s; [tauto |]. split; discriminate.
  - destruct s; [discriminate E |]. exact IH.
Qed.

Lemma trimStart_suffix (s : string) : suffixOf (JsString.trimStart s) s.
Proof.
  induction s as [s E | s r E IH] using space_ind; rewrite trimStart_eq, E.
  - apply suffixOf_refl.
  - apply suffixOf_trans with r; [exact IH |].
    apply strip_space_some in E. destruct E as (w & _ & ->). exists w. reflexivity.
Qed.

Lemma trimStart_stripped (s : string) :
  JsString.strip_space (JsString.trimStart s) = None.
Proof.
  induction s as [s E | s r E IH] using space_ind; rewrite trimStart_eq, E; assumption.
Qed.

Lemma trimStart_idempotent (s : string) :
  JsString.trimStart (JsString.trimStart s) = JsString.trimStart s.
Proof.
  rewrite (trimStart_eq (JsString.trimStart s)), trimStart_stripped. reflexivity.
Qed.

Lemma trimEnd_empty (s : string) :
  JsString.trimEnd s = EmptyString -> JsString.trimStart s = EmptyString.
Proof.
  destruct s as [| c s]; [reflexivity |].
  change (JsString.trimEnd (String c s))
    with (if JsString.is_empty (JsString.trimStart (String c s))
          then EmptyString else String c (JsString.trimEnd s)).
  destruct (JsString.trimStart (String c s)); [reflexivity | discriminate].
Qed.

Lemma trim_whitespaceOnly (s : string) :
  whitespaceOnly s = true -> JsString.trim s = EmptyString.
Proof.
  intros H. apply whitespaceOnly_trimStart in H. unfold JsString.trim. rewrite H.
  reflexivity.
Qed.

Lemma trim_empty_whitespaceOnly (s : string) :
  JsString.trim s = EmptyString -> whitespaceOnly s = true.
Proof.
  unfold JsString.trim. intros E. apply trimEnd_empty in E.
  rewrite trimStart_idempotent in E. apply whitespaceOnly_trimStart, E.
Qed.

(** No byte of a character of white space is a backquote, and a backquote
    does not continue a character. *)
Lemma strip_space_backquote (s : string) :
  JsString.strip_space (String backquote s) = None.
Proof. reflexivity. Qed.

Lemma continuation_backquote : JsString.is_continuation backquote = false.
Proof. reflexivity. Qed.

Lemma space2_backquote (a : ascii) : JsString.space2 a backquote = false.
Proof. reflexivity. Qed.

Lemma space3_backquote (a c : ascii) : JsString.space3 a backquote c = false.
Proof. reflexivity. Qed.

Lemma space3_backquote_last (a b : ascii) : JsString.space3 a b backquote = false.
Proof.
  unfold JsString.space3. rewrite continuation_backquote.
  destruct (JsString.is_continuation b); reflexivity.
Qed.








(** A character of white space at the head of a string is one whatever
    follows, and a backquote completes none. *)
Lemma strip_space_append (s r x : string) :
  JsString.strip_space s = Some r -> JsString.strip_space (s ++ x) = Some (r ++ x).
Proof.
  intros E. apply strip_space_some in E. destruct E as (w & Hw & ->).
  apply strip_space_some. exists w. split; [exact Hw | apply append_assoc].
Qed.

Lemma strip_space_before_backquote (s x : string) :
  JsString.strip_space s = None ->
  JsString.strip_space (s ++ String backquote x) = None.
Proof.
  unfold JsString.strip_space, JsString.on_space.
  destruct s as [| a [| b [| c r]]]; [reflexivity | | |];
    cbn [append];
    destruct (JsString.space1 a); try discriminate;
    destruct (JsString.lead2 a).
  - intros _. rewrite space2_backquote. reflexivity.
  - intros _. destruct (JsString.lead3 a); [| reflexivity].
    destruct x; [reflexivity |]. rewrite space3_backquote. reflexivity.
  - destruct (JsString.space2 a b); [discriminate | reflexivity].
  - intros _. destruct (JsString.lead3 a); [| reflexivity].
    rewrite space3_backquote_last. reflexivity.
  - destruct (JsString.space2 a b); [discriminate | reflexivity].
  - destruct (JsString.lead3 a); [| reflexivity].
    destruct (JsString.space3 a b c); [discriminate | reflexivity].
Qed.

Lemma trimStart_before_backquote (s x : string) :
  JsString.trimStart (s ++ String backquote x)
  = JsString.trimStart s ++ String backquote x.
Proof.
  induction s as [s E | s r E IH] using space_ind.
  - rewrite (trimStart_eq (s ++ _)), (strip_space_before_backquote s x E).
    rewrite (trimStart_eq s), E. reflexivity.
  - rewrite (trimStart_eq (s ++ _)), (@strip_space_append s r _ E).
    rewrite (trimStart_eq s), E. exact IH.
Qed.

(** ** Requests that are refused *)

(** C2. A request whose text is missing, is not a string, is empty or is
    white space only gets the response 400; so does an [add_contact]
    classification without name or phone number and an [add_task]
    classification without description; none of them writes a document. *)
Theorem C2_invalid_input_400 `{Platform} (env : Env) :
  (forall (text : RequestText) (outcome : ModelOutcome) (w : World),
      invalidText text ->
      exists w',
        app env text outcome w =
          (Normal (Some (Response.ofMessage 400
                           "Valid text input is required in the request body")), w')
        /\ stored w' = stored w)
  /\ (forall (r : GeminiResponse.t) (w : World),
         JsTextOps.truthy (error r) = false ->
         missingEntity r ->
         exists response w',
           pipeline env r w = (Normal response, w')
           /\ Response.statusCode response = 400
           /\ stored w' = stored w).
Proof.
  split.
  - intros text outcome w Hinvalid.
    assert (E : processSpeech env text outcome w = (Normal (Some badRequest), w)).
    { unfold processSpeech.
      destruct text as [[| | | s | |] |]; try reflexivity.
      simpl in Hinvalid. rewrite (trim_whitespaceOnly s Hinvalid). simpl.
      rewrite orb_true_r. reflexivity. }
    unfold app, bind. rewrite E. simpl. eexists. split; reflexivity.
  - intros r w He Hmissing.
    destruct Hmissing as [[Hi Hm] | [Hi Hm]].
    + assert (Hc : JsTextOps.truthy (Entities.name (entities r))
                   && JsTextOps.truthy (Entities.phoneNumber (entities r)) = false).
      { destruct Hm as [Hm | Hm]; rewrite Hm; [reflexivity | apply andb_false_r]. }
      unfold pipeline, handleClassification, switchIntent.
      rewrite He, Hi. simpl. rewrite Hc.
      unfold bind, try_catch, console_log, console_warn, console_print, ret, respond.
      destruct (collectionMismatch _ _); simpl;
        do 2 eexists; (split; [reflexivity | split; reflexivity]).
    + unfold pipeline, handleClassification, switchIntent.
      rewrite He, Hi. simpl. rewrite Hm.
      unfold bind, try_catch, console_log, console_warn, console_print, ret, respond.
      destruct (collectionMismatch _ _); simpl;
        do 2 eexists; (split; [reflexivity | split; reflexivity]).
Qed.

Lemma C2_witness :
  (exists w',
      @app litePlatform devEnv (Some (JString "   ")) (answers johnDoeJson) emptyWorld =
        (Normal (Some (Response.ofMessage 400
                         "Valid text input is required in the request body")), w')
      /\ stored w' = stored emptyWorld)
  /\ (exists response w',
         @pipeline litePlatform devEnv noPhoneResult emptyWorld = (Normal response, w')
         /\ Response.statusCode response = 400
         /\ stored w' = stored emptyWorld).
Proof.
  split.
  - apply (proj1 (@C2_invalid_input_400 litePlatform devEnv)). reflexivity.
  - apply (proj2 (@C2_invalid_input_400 litePlatform devEnv)).
    + reflexivity.
    + left. split; [reflexivity | right; reflexivity].
Defined.

(** A text made of no-break spaces, or of an ideographic space and a byte
    order mark, is blank for [trim()]: the request is refused and the model
    is not called. *)
Example unicode_blank_text_refused :
  invalidText (Some (JString (nbsp ++ nbsp)))
  /\ @app litePlatform devEnv (Some (JString (nbsp ++ nbsp))) (answers johnDoeJson) emptyWorld
     = (Normal (Some (Response.ofMessage 400 "Valid text input is required in the request body")), emptyWorld)
  /\ @app litePlatform devEnv (Some (JString (ideographicSpace ++ " " ++ byteOrderMark)))
          (answers johnDoeJson) emptyWorld
     = (Normal (Some (Response.ofMessage 400 "Valid text input is required in the request body")), emptyWorld).
Proof. repeat split. Qed.

(** ** Requests that add a document *)

(** C1 (as the code runs it). An [add_contact] classification with name and
    phone number, and an [add_task] classification with description, build
    a document without the [prompt] the schema requires: [save()] rejects
    it, the error handler answers 500 and no document is persisted. *)
Theorem C1_complete_add_is_rejected `{Platform} (env : Env) (r : GeminiResponse.t) (w : World) :
  JsTextOps.truthy (error r) = false ->
  completeAdd r ->
  exists response w',
    pipeline env r w = (Normal response, w')
    /\ Response.statusCode response = 500
    /\ stored w' = stored w.
Proof.
  intros He [(Hi & Hn & Hp) | (Hi & Hd)].
  - unfold pipeline, handleClassification, switchIntent.
    rewrite He, Hi, Hn, Hp. simpl.
    unfold bind, try_catch, console_log, console_warn, console_print, ret.
    destruct (collectionMismatch _ _); simpl;
      rewrite contact_save_rejects; simpl;
      do 2 eexists; (split; [reflexivity | split; reflexivity]).
  - unfold pipeline, handleClassification, switchIntent.
    rewrite He, Hi, Hd. simpl.
    unfold bind, try_catch, console_log, console_warn, console_print, ret.
    destruct (collectionMismatch _ _); simpl;
      try rewrite task_save_rejects; simpl;
      do 2 eexists; (split; [reflexivity | split; reflexivity]).
Qed.

Lemma C1_witness :
  exists response w',
    @pipeline litePlatform devEnv johnDoeResult emptyWorld = (Normal response, w')
    /\ Response.statusCode response = 500
    /\ stored w' = stored emptyWorld.
Proof.
  apply (@C1_complete_add_is_rejected litePlatform devEnv johnDoeResult emptyWorld).
  - reflexivity.
  - left. repeat split; reflexivity.
Defined.

(** The example of the prompt, from the request to the response. *)
Example johnDoe_end_to_end :
  exists w',
    @app litePlatform devEnv (Some (JString johnDoeText)) (answers johnDoeJson) emptyWorld
    = (Normal (Some (Response.ofMessage 500
         ("Internal Server Error: Contact validation failed: prompt: Path "
          ++ bq ++ "prompt" ++ bq ++ " is required."))), w')
    /\ contacts w' = [] /\ tasks w' = [].
Proof. eexists. split; [vm_compute; reflexivity | split; reflexivity]. Qed.


(** ** The classifier adapter *)

Lemma extractJsonFromString_returns `{Platform} (text : string) (w : World) :
  exists result w', extractJsonFromString text w = (Normal result, w').
Proof.
  unfold extractJsonFromString, noJsonFound.
  destruct (exec jsonPattern text); [| do 2 eexists; reflexivity].
  destruct (JSON_parse _) as [parsed |]; [| do 2 eexists; reflexivity].
  destruct (hasGeminiShape parsed); do 2 eexists; reflexivity.
Qed.

Lemma extractJsonFromString_result `{Platform} (text : string) (w1 w2 : World) :
  fst (extractJsonFromString text w1) = fst (extractJsonFromString text w2).
Proof.
  unfold extractJsonFromString, noJsonFound.
  destruct (exec jsonPattern text); [| reflexivity].
  destruct (JSON_parse _) as [parsed |]; [| reflexivity].
  destruct (hasGeminiShape parsed); reflexivity.
Qed.

Lemma asGeminiResponse_unknownIntent (error : string) :
  asGeminiResponse (unknownIntent error) = Some (unknownResult error).
Proof. reflexivity. Qed.

Lemma caughtMessage_truthy (failure : Thrown) :
  JsString.truthy (caughtMessage failure) = true.
Proof. destruct failure; reflexivity. Qed.

(** C3. The adapter returns a value for every outcome of the model call,
    and never throws. When the model reports a block reason the value is
    [{ intent: 'unknown', entities: {}, targetCollection: null, error:
    'Content blocked due to <reason>' }]; when the call fails, when there
    is no response or when [text()] throws, the value has the same shape,
    with an error string that tells the failure and is not empty. *)
Theorem C3_adapter_never_throws `{Platform}
        (text : string) (outcome : ModelOutcome) (w : World) :
  exists classified w',
    processTextWithGemini text outcome w = (Normal classified, w')
    /\ stored w' = stored w
    /\ match outcome with
       | Rejected failure =>
           classified
           = JObject [ ("intent", JString "unknown");
                       ("entities", JObject []);
                       ("targetCollection", JNull);
                       ("error", JString (caughtMessage failure)) ]
           /\ JsString.truthy (caughtMessage failure) = true
       | Resolved (NoResponse isNull) =>
           exists e, classified = unknownIntent (caughtMessage (ThrownError e))
       | Resolved (ResponseObject blockReason responseText) =>
           if JsTextOps.truthy blockReason then
             classified
             = JObject [ ("intent", JString "unknown");
                         ("entities", JObject []);
                         ("targetCollection", JNull);
                         ("error", JString ("Content blocked due to "
                                            ++ JsTextOps.toString blockReason)) ]
           else
             match responseText with
             | Abrupt failure => classified = unknownIntent (caughtMessage failure)
             | Normal responseText =>
                 (forall w0, fst (extractJsonFromString responseText w0)
                             = Normal (Some classified))
                 \/ (extractionFails responseText
                     /\ classified
                        = unknownIntent
                            (caughtMessage
                               (ThrownError
                                  (Error "Failed to extract or parse valid JSON from Gemini response."))))
             end
       end.
Proof.
  pose proof (readonly_processTextWithGemini text outcome w) as Hro.
  destruct outcome as [failure | [isNull | blockReason responseText]].
  - destruct failure as [e |];
      do 2 eexists; (split; [reflexivity |]); (split; [reflexivity |]);
      split; reflexivity.
  - do 2 eexists. split; [reflexivity |]. split; [reflexivity |].
    eexists. reflexivity.
  - destruct (JsTextOps.truthy blockReason) eqn:Hb.
    + do 2 eexists. split; [| split; [| reflexivity]].
      * unfold processTextWithGemini, try_catch, bind, generateContent, ret,
          console_log, console_error, console_print. simpl. rewrite Hb. reflexivity.
      * reflexivity.
    + revert Hro.
      unfold processTextWithGemini, try_catch, bind, generateContent, ret,
        console_log, console_error, console_print, await_model, throw. simpl.
      rewrite Hb.
      destruct responseText as [responseText | failure]; simpl.
      * match goal with
        | |- context [extractJsonFromString responseText ?w0] =>
            pose proof (fun w1 => extractJsonFromString_result responseText w1 w0)
              as Hsame;
            destruct (extractJsonFromString_returns responseText w0)
              as (result & w1 & E); rewrite E in *
        end.
        simpl in Hsame.
        destruct result as [parsed |]; simpl; intros Hro;
          do 2 eexists; (split; [reflexivity |]); (split; [exact Hro |]).
        -- left. exact Hsame.
        -- right. split; [exact Hsame | reflexivity].
      * intros Hro. do 2 eexists. split; [reflexivity |].
        split; [exact Hro |]. destruct failure; reflexivity.
Qed.

(** The scenario of the specification: a block for the reason
    [HATE_SPEECH] ends in a 500 with the message of apology. *)
Example hate_speech_blocked :
  exists w',
    @app litePlatform devEnv (Some (JString "some text"))
         (Resolved (ResponseObject (Str "HATE_SPEECH") (Normal "")))
         emptyWorld
    = (Normal (Some
         {| Response.statusCode := 500;
            Response.json :=
              {| Response.message := "Sorry, I had trouble understanding that right now.";
                 Response.details := Some "Content blocked due to HATE_SPEECH";
                 Response.intent := None;
                 Response.entities := None |} |}), w')
    /\ stored w' = stored emptyWorld.
Proof. eexists. split; [vm_compute; reflexivity | reflexivity]. Qed.

(** C7 (amended). When the extraction returns [null] on the text of the
    model, the adapter returns [{ intent: 'unknown', entities: {},
    targetCollection: null, error }] where [error] is "Gemini Processing
    Error: Failed to extract or parse valid JSON from Gemini response.":
    the message of the [Error] thrown at line 135, with the prefix the
    [catch] of line 145 adds. *)
Theorem C7_extraction_failure_error `{Platform}
        (text responseText : string) (blockReason : JsText) (w : World) :
  JsTextOps.truthy blockReason = false ->
  extractionFails responseText ->
  exists w',
    processTextWithGemini text (Resolved (ResponseObject blockReason (Normal responseText))) w
    = (Normal
         (JObject [ ("intent", JString "unknown");
                    ("entities", JObject []);
                    ("targetCollection", JNull);
                    ("error",
                     JString "Gemini Processing Error: Failed to extract or parse valid JSON from Gemini response.") ]),
       w')
    /\ stored w' = stored w.
Proof.
  intros Hb Hfail.
  pose proof (readonly_processTextWithGemini text
                (Resolved (ResponseObject blockReason (Normal responseText))) w) as Hro.
  revert Hro.
  unfold processTextWithGemini, try_catch, bind, generateContent, ret,
    console_log, console_error, console_print, await_model, throw. simpl.
  rewrite Hb. simpl.
  match goal with
  | |- context [extractJsonFromString responseText ?w0] =>
      pose proof (Hfail w0) as Hf;
      destruct (extractJsonFromString responseText w0) as [result w1]
  end.
  simpl in Hf. subst result. simpl. intros Hro.
  eexists. split; [reflexivity | exact Hro].
Qed.

Lemma no_json_extractionFails :
  @extractionFails litePlatform "I cannot help with that.".
Proof. intros w. reflexivity. Qed.

Lemma C7_witness :
  exists w',
    @processTextWithGemini litePlatform "hello"
      (Resolved (ResponseObject Undefined (Normal "I cannot help with that."))) emptyWorld
    = (Normal
         (JObject [ ("intent", JString "unknown");
                    ("entities", JObject []);
                    ("targetCollection", JNull);
                    ("error",
                     JString "Gemini Processing Error: Failed to extract or parse valid JSON from Gemini response.") ]),
       w')
    /\ stored w' = stored emptyWorld.
Proof.
  apply (@C7_extraction_failure_error litePlatform "hello" "I cannot help with that."
           Undefined emptyWorld).
  - reflexivity.
  - exact no_json_extractionFails.
Defined.

(** C7, as stated, fails: on a text without JSON the extraction returns
    [null] and the [error] of the adapter is not the string "Failed to
    extract or parse valid JSON from model response.". *)
Lemma C7_counterexample :
  @extractionFails litePlatform "I cannot help with that."
  /\ fst (@processTextWithGemini litePlatform "hello"
            (answers "I cannot help with that.") emptyWorld)
     <> Normal
          (JObject [ ("intent", JString "unknown");
                     ("entities", JObject []);
                     ("targetCollection", JNull);
                     ("error",
                      JString "Failed to extract or parse valid JSON from model response.") ]).
Proof.
  split; [exact no_json_extractionFails |].
  vm_compute. intros E. discriminate E.
Qed.

(** ** Listing the tasks *)

Lemma insertNewestFirst_perm (doc : Task.t) (l : list Task.t) :
  Permutation (doc :: l) (TaskModel.insertNewestFirst doc l).
Proof.
  induction l as [| d l IH]; simpl.
  - apply Permutation_refl.
  - destruct (Task.createdAt d <=? Task.createdAt doc).
    + apply Permutation_refl.
    + apply perm_trans with (d :: doc :: l); [apply perm_swap |].
      apply perm_skip, IH.
Qed.

Lemma sortNewestFirst_perm (l : list Task.t) :
  Permutation (TaskModel.sortNewestFirst l) l.
Proof.
  induction l as [| d l IH]; simpl.
  - apply perm_nil.
  - apply Permutation_sym.
    apply perm_trans with (d :: TaskModel.sortNewestFirst l).
    + apply perm_skip, Permutation_sym, IH.
    + apply insertNewestFirst_perm.
Qed.

Lemma insertNewestFirst_hd (doc a : Task.t) (l : list Task.t) :
  newerOrSame a doc -> HdRel newerOrSame a l ->
  HdRel newerOrSame a (TaskModel.insertNewestFirst doc l).
Proof.
  intros Ha Hl. destruct l as [| d l]; simpl.
  - constructor. exact Ha.
  - destruct (Task.createdAt d <=? Task.createdAt doc); constructor.
    + exact Ha.
    + inversion Hl. assumption.
Qed.

Lemma insertNewestFirst_sorted (doc : Task.t) (l : list Task.t) :
  Sorted newerOrSame l -> Sorted newerOrSame (TaskModel.insertNewestFirst doc l).
Proof.
  induction l as [| d l IH]; simpl; intros Hs.
  - constructor; constructor.
  - destruct (Task.createdAt d <=? Task.createdAt doc) eqn:E.
    + constructor; [exact Hs |]. constructor.
      unfold newerOrSame. apply Nat.leb_le. exact E.
    + inversion Hs as [| ? ? Hs' Hhd]; subst.
      constructor; [apply IH, Hs' |].
      apply insertNewestFirst_hd; [| exact Hhd].
      unfold newerOrSame. apply Nat.leb_gt in E. lia.
Qed.

Lemma sortNewestFirst_sorted (l : list Task.t) :
  Sorted newerOrSame (TaskModel.sortNewestFirst l).
Proof.
  induction l as [| d l IH]; simpl.
  - constructor.
  - apply insertNewestFirst_sorted, IH.
Qed.

Lemma tasksMessage_length (listed : list Task.t) :
  (if 0 <? List.length listed
   then "Here are your current tasks: " ++ JsString.join ". " (map formatTask listed)
   else "You have no pending tasks matching that description.")
  = tasksMessage listed.
Proof. destruct listed; reflexivity. Qed.

Lemma entityFilter_inv `{Platform} (entity : JsText) (source : string) (f : option RegExp) :
  entityFilter entity source = Some f ->
  (JsTextOps.truthy entity = false /\ f = None)
  \/ (exists re, JsTextOps.truthy entity = true /\ RegExp_i source = Normal re /\ f = Some re).
Proof.
  unfold entityFilter. destruct (JsTextOps.truthy entity).
  - destruct (RegExp_i source) as [re | e]; [| discriminate].
    intros E. injection E as <-. right. exists re. auto.
  - intros E. injection E as <-. left. auto.
Qed.

Lemma matches_selectedTask (timeFilter descriptionFilter : option RegExp) (l : list Task.t) :
  filter (TaskModel.matches {| TaskModel.q_isCompleted := false;
                               TaskModel.q_time := timeFilter;
                               TaskModel.q_description := descriptionFilter |}) l
  = filter (selectedTask timeFilter descriptionFilter) l.
Proof.
  apply filter_ext. intros t. unfold TaskModel.matches, selectedTask. simpl.
  destruct (Task.isCompleted t); reflexivity.
Qed.

(** What a [get_tasks] request does once its filters are built. *)
Lemma get_tasks_listing `{Platform} (env : Env) (r : GeminiResponse.t) (w : World)
      (timeFilter descriptionFilter : option RegExp) :
  intent r = "get_tasks" ->
  JsTextOps.truthy (error r) = false ->
  dbFault env = None ->
  entityFilter (Entities.time (entities r))
               (JsTextOps.toString (Entities.time (entities r))) = Some timeFilter ->
  entityFilter (Entities.description (entities r))
               (descriptionSource (Entities.description (entities r)))
    = Some descriptionFilter ->
  exists w',
    pipeline env r w
    = (Normal (ok (tasksMessage
                     (TaskModel.sortNewestFirst
                        (filter (selectedTask timeFilter descriptionFilter) (tasks w))))
                  r), w')
    /\ stored w' = stored w.
Proof.
  intros Hi He Hdb Ht Hd.
  pose proof (readonly_pipeline env r w) as Hro. revert Hro.
  unfold pipeline, handleClassification, switchIntent, newRegExp, TaskModel.find_sorted.
  rewrite He, Hi, Hdb. simpl.
  unfold descriptionSource in Hd.
  destruct (entityFilter_inv _ _ Ht) as [[Ht1 ->] | (reT & Ht1 & Ht2 & ->)];
    destruct (entityFilter_inv _ _ Hd) as [[Hd1 ->] | (reD & Hd1 & Hd2 & ->)];
    rewrite Ht1, Hd1; try rewrite Ht2; try rewrite Hd2;
    unfold bind, try_catch, console_log, console_warn, console_print, ret, respond,
      await_model;
    destruct (collectionMismatch _ _); simpl;
    rewrite tasksMessage_length, matches_selectedTask; intros _;
    unfold ok; rewrite Hi;
    (eexists; split; [reflexivity | reflexivity]).
Qed.

(** C6 (amended). A [get_tasks] request, when the store answers and the
    two sources are patterns, lists the tasks that are not completed, whose
    [time] matches the time entity taken as a regular expression without
    case, and whose [description] matches the regular expression made of
    the pieces of the description entity between single spaces, joined by
    [|]; an entity that is missing filters nothing. The tasks come newest
    first; the message of the 200 response gives for each its description,
    with " at <time>" when it has a time, joined by ". ", or says that no
    task is pending; no document is written. *)
Theorem C6_get_tasks_by_regexp `{Platform} (env : Env) (r : GeminiResponse.t) (w : World)
        (timeFilter descriptionFilter : option RegExp) :
  intent r = "get_tasks" ->
  JsTextOps.truthy (error r) = false ->
  dbFault env = None ->
  entityFilter (Entities.time (entities r))
               (JsTextOps.toString (Entities.time (entities r))) = Some timeFilter ->
  entityFilter (Entities.description (entities r))
               (descriptionSource (Entities.description (entities r)))
    = Some descriptionFilter ->
  exists listed w',
    pipeline env r w = (Normal (ok (tasksMessage listed) r), w')
    /\ Permutation listed
         (filter (selectedTask timeFilter descriptionFilter) (tasks w))
    /\ Sorted newerOrSame listed
    /\ stored w' = stored w.
Proof.
  intros Hi He Hdb Ht Hd.
  destruct (get_tasks_listing env r w Hi He Hdb Ht Hd) as (w' & E & Hs).
  exists (TaskModel.sortNewestFirst
            (filter (selectedTask timeFilter descriptionFilter) (tasks w))), w'.
  split; [exact E |]. split; [apply sortNewestFirst_perm |].
  split; [apply sortNewestFirst_sorted | exact Hs].
Qed.

Lemma C6_witness :
  exists listed w',
    @pipeline litePlatform devEnv (getTasks (Str "eggs milk") (Str "MORN")) twoTasks
    = (Normal (ok (tasksMessage listed) (getTasks (Str "eggs milk") (Str "MORN"))), w')
    /\ Permutation listed
         (filter (selectedTask
                    (Some (Regex.test (LitePlatform.compile "MORN")))
                    (Some (Regex.test (LitePlatform.compile "eggs|milk"))))
                 (tasks twoTasks))
    /\ Sorted newerOrSame listed
    /\ stored w' = stored twoTasks.
Proof.
  apply (@C6_get_tasks_by_regexp litePlatform devEnv
           (getTasks (Str "eggs milk") (Str "MORN")) twoTasks);
    reflexivity.
Defined.

(** The round trip of the specification, on tasks that are in the store:
    without filter both tasks are listed, the newest first; with the time
    "morn" the task of the morning is. *)
Example get_tasks_examples :
  fst (@pipeline litePlatform devEnv (getTasks Undefined Undefined) twoTasks)
  = Normal (ok "Here are your current tasks: walk dog. buy milk at morning"
               (getTasks Undefined Undefined))
  /\ fst (@pipeline litePlatform devEnv (getTasks Undefined (Str "morn")) twoTasks)
     = Normal (ok "Here are your current tasks: buy milk at morning"
                  (getTasks Undefined (Str "morn"))).
Proof. split; vm_compute; reflexivity. Qed.

(** C6, as stated, fails: the time entity is a regular expression, not a
    text to find. With the time "." the task of the morning is listed,
    though its time contains no dot. *)
Lemma C6_counterexample : ~ @claimedGetTasks litePlatform.
Proof.
  intros Hclaim.
  destruct (Hclaim devEnv (getTasks Undefined (Str ".")) twoTasks
                   eq_refl eq_refl eq_refl)
    as (listed & w' & E & Hperm & _ & _).
  simpl in Hperm. apply Permutation_sym, Permutation_nil in Hperm. subst listed.
  vm_compute in E. discriminate E.
Qed.

(** ** The matcher *)

Section Stars.
Variable R : Type.

Lemma spaces_greedy_eq (input : string) (k : string -> option R) :
  spaces_greedy input k
  = match JsString.strip_space input with
    | Some rest =>
        match spaces_greedy rest k with
        | Some r => Some r
        | None => k input
        end
    | None => k input
    end.
Proof.
  destruct input as [| a s]; [reflexivity |].
  exact (on_space_strip (String a s)
           (fun rest => match spaces_greedy rest k with
                        | Some r => Some r
                        | None => k (String a s)
                        end)
           (k (String a s))).
Qed.

(** The greedy [\s*] tries what follows after the whole run of white
    space first. *)
Lemma spaces_greedy_first (k : string -> option R) (s : string) (x : R) :
  k (JsString.trimStart s) = Some x -> spaces_greedy s k = Some x.
Proof.
  induction s as [s E | s r E IH] using space_ind;
    rewrite trimStart_eq, spaces_greedy_eq, E.
  - tauto.
  - intros H. rewrite (IH H). reflexivity.
Qed.

(** When what follows cannot start with white space, the greedy [\s*]
    does not give any back. *)
Lemma spaces_greedy_trimStart (k : string -> option R) (s : string) :
  (forall t r, JsString.strip_space t = Some r -> k t = None) ->
  spaces_greedy s k = k (JsString.trimStart s).
Proof.
  intros Hk.
  induction s as [s E | s r E IH] using space_ind;
    rewrite trimStart_eq, spaces_greedy_eq, E; [reflexivity |].
  rewrite IH. destruct (k (JsString.trimStart r)); [reflexivity |].
  exact (Hk s r E).
Qed.

Lemma spaces_greedy_calls (k : string -> option R) (input : string) (x : R) :
  spaces_greedy input k = Some x ->
  exists rest, suffixOf rest input /\ k rest = Some x.
Proof.
  induction input as [s E | s r E IH] using space_ind;
    rewrite spaces_greedy_eq, E.
  - intros H. exists s. split; [apply suffixOf_refl | exact H].
  - destruct (spaces_greedy r k) as [y |] eqn:Er.
    + intros H. injection H as ->. destruct (IH eq_refl) as (rest & Hs & Hk).
      exists rest. split; [| exact Hk].
      apply suffixOf_trans with r; [exact Hs |].
      apply strip_space_some in E. destruct E as (w & _ & ->). exists w. reflexivity.
    + intros H. exists s. split; [apply suffixOf_refl | exact H].
Qed.

Lemma spaces_greedy_ext (k k' : string -> option R) (s : string) :
  (forall t, k t = k' t) -> spaces_greedy s k = spaces_greedy s k'.
Proof.
  intros Hk. induction s as [s E | s r E IH] using space_ind;
    rewrite !spaces_greedy_eq, E, ?IH, Hk; reflexivity.
Qed.

Lemma star_lazy_ext (cls : ascii -> bool) (k k' : string -> option R) (s : string) :
  (forall t, k t = k' t) -> star_lazy cls s k = star_lazy cls s k'.
Proof.
  intros Hk. induction s as [| c s IH]; simpl; rewrite Hk; [reflexivity |].
  rewrite IH. reflexivity.
Qed.

Lemma star_lazy_here (cls : ascii -> bool) (k : string -> option R)
      (s : string) (x : R) :
  k s = Some x -> star_lazy cls s k = Some x.
Proof. intros E. destruct s; simpl; rewrite E; reflexivity. Qed.

Lemma star_greedy_calls (cls : ascii -> bool) (k : string -> option R)
      (input : string) (x : R) :
  star_greedy cls input k = Some x ->
  exists rest, suffixOf rest input /\ k rest = Some x.
Proof.
  induction input as [| c input IH]; simpl; intros E.
  - exists EmptyString. split; [apply suffixOf_refl | exact E].
  - destruct (cls c).
    + destruct (star_greedy cls input k) as [y |] eqn:Es.
      * injection E as ->. destruct (IH eq_refl) as (rest & Hs & Hk).
        exists rest. split; [| exact Hk].
        apply suffixOf_trans with input; [exact Hs | apply suffixOf_tail].
      * exists (String c input). split; [apply suffixOf_refl | exact E].
    + exists (String c input). split; [apply suffixOf_refl | exact E].
Qed.

Lemma star_lazy_calls (cls : ascii -> bool) (k : string -> option R)
      (input : string) (x : R) :
  star_lazy cls input k = Some x ->
  exists rest, suffixOf rest input /\ k rest = Some x.
Proof.
  induction input as [| c input IH]; simpl; intros E.
  - destruct (k EmptyString) as [y |] eqn:Ek; [| discriminate E].
    injection E as ->. exists EmptyString. split; [apply suffixOf_refl | exact Ek].
  - destruct (k (String c input)) as [y |] eqn:Ek.
    + injection E as ->. exists (String c input). split; [apply suffixOf_refl | exact Ek].
    + destruct (cls c); [| discriminate E].
      destruct (IH E) as (rest & Hs & Hk).
      exists rest. split; [| exact Hk].
      apply suffixOf_trans with input; [exact Hs | apply suffixOf_tail].
Qed.

(** The lazy star of [[\s\S]] stops at the first place where what
    follows, white space then three backquotes, is found: what it has
    taken is the text up to there, without the white space at its end. *)
Lemma star_lazy_trimEnd (f : string -> R) (tail : string) :
  closes tail = true ->
  forall (body before : string),
    (forall x y, body = x ++ y -> y <> EmptyString ->
                 closes (y ++ tail) = JsString.is_empty (JsString.trimStart y)) ->
    star_lazy JsString.any_char (body ++ tail)
      (fun rest => if closes rest
                   then Some (f (consumed (before ++ body ++ tail) rest))
                   else None)
    = Some (f (before ++ JsString.trimEnd body)).
Proof.
  intros Htail body. induction body as [| c body IH]; intros before Hbody.
  - apply star_lazy_here. cbn [append]. rewrite Htail, consumed_append, append_empty_r.
    reflexivity.
  - change (String c body ++ tail) with (String c (body ++ tail)).
    cbn [star_lazy].
    change (String c (body ++ tail)) with (String c body ++ tail).
    rewrite (Hbody EmptyString (String c body) eq_refl) by discriminate.
    change (JsString.trimEnd (String c body))
      with (if JsString.is_empty (JsString.trimStart (String c body))
            then EmptyString else String c (JsString.trimEnd body)).
    destruct (JsString.is_empty (JsString.trimStart (String c body))).
    + rewrite consumed_append, append_empty_r. reflexivity.
    + cbn [JsString.any_char].
      replace (before ++ String c body ++ tail)
        with ((before ++ String c EmptyString) ++ body ++ tail)
        by (rewrite append_assoc; reflexivity).
      rewrite IH.
      * rewrite append_assoc. reflexivity.
      * intros x y -> Hy. apply (Hbody (String c x) y eq_refl Hy).
Qed.
End Stars.

(** ** The first occurrence of a separator *)

Lemma textBefore_cons (sep : string) (c : ascii) (rest : string) :
  textBefore sep (String c rest)
  = match JsString.strip_prefix sep (String c rest) with
    | Some _ => Some EmptyString
    | None => option_map (String c) (textBefore sep rest)
    end.
Proof. reflexivity. Qed.

Lemma textBefore_first (sep s before : string) :
  textBefore sep s = Some before ->
  exists after,
    s = before ++ sep ++ after
    /\ forall x y, before = x ++ y -> y <> EmptyString ->
                   JsString.strip_prefix sep (y ++ sep ++ after) = None.
Proof.
  revert before. induction s as [| c s IH]; intros before.
  - simpl. destruct (JsString.strip_prefix sep EmptyString) as [after |] eqn:E;
      [| discriminate].
    intros H. injection H as <-. exists after.
    split; [exact (strip_prefix_some _ _ E) |].
    intros x y Hxy Hy. destruct x, y; try discriminate Hxy. contradiction.
  - rewrite textBefore_cons.
    destruct (JsString.strip_prefix sep (String c s)) as [after |] eqn:E.
    + intros H. injection H as <-. exists after.
      split; [exact (strip_prefix_some _ _ E) |].
      intros x y Hxy Hy. destruct x, y; try discriminate Hxy. contradiction.
    + destruct (textBefore sep s) as [before' |]; [| discriminate].
      intros H. injection H as <-.
      destruct (IH before' eq_refl) as (after & -> & Hfirst).
      exists after. split; [reflexivity |].
      intros x y Hxy Hy. destruct x as [| d x].
      * simpl in Hxy. subst y. exact E.
      * simpl in Hxy. injection Hxy as _ Hxy. exact (Hfirst x y Hxy Hy).
Qed.

Lemma textBefore_suffix (sep rest s : string) :
  suffixOf rest s -> textBefore sep s = None -> textBefore sep rest = None.
Proof.
  intros [p ->]. induction p as [| c p IH]; [tauto |].
  change (String c p ++ rest) with (String c (p ++ rest)). rewrite textBefore_cons.
  destruct (JsString.strip_prefix sep _); [discriminate |].
  destruct (textBefore sep (p ++ rest)); [discriminate |]. intros _. apply IH. reflexivity.
Qed.

Lemma textBefore_here (sep s after : string) :
  JsString.strip_prefix sep s = Some after -> textBefore sep s = Some EmptyString.
Proof. intros E. destruct s; simpl; rewrite E; reflexivity. Qed.

Lemma closes_occurs (s : string) :
  closes s = true -> textBefore "```" s <> None.
Proof.
  unfold closes.
  destruct (JsString.strip_prefix "```" (JsString.trimStart s)) as [after |] eqn:E;
    [| discriminate].
  intros _ Hnone.
  apply (@textBefore_suffix _ _ _ (trimStart_suffix s)) in Hnone.
  rewrite (@textBefore_here _ _ _ E) in Hnone. discriminate Hnone.
Qed.

(** A fence closes where white space only remains before the three
    backquotes. *)
Lemma closes_fence_end (after : string) : closes ("```" ++ after) = true.
Proof. reflexivity. Qed.

Lemma closes_before_end (between after y : string) :
  (forall x y, between = x ++ y -> y <> EmptyString ->
               JsString.strip_prefix "```" (y ++ "```" ++ after) = None) ->
  suffixOf y between -> y <> EmptyString ->
  closes (y ++ "```" ++ after) = JsString.is_empty (JsString.trimStart y).
Proof.
  intros Hfirst [x Hx] Hy. unfold closes.
  change ("```" ++ after) with (String backquote ("``" ++ after)).
  rewrite trimStart_before_backquote.
  change (String backquote ("``" ++ after)) with ("```" ++ after).
  destruct (JsString.trimStart y) as [| c t] eqn:Et; [reflexivity |].
  destruct (trimStart_suffix y) as [p Hp]. rewrite Et in Hp.
  rewrite (Hfirst (x ++ p) (String c t)); [reflexivity | | discriminate].
  rewrite append_assoc, <- Hp. exact Hx.
Qed.

(** The inner [\s*] and the three backquotes that follow it. *)
Lemma spaces_then_fence_end (R : Type) (x : R) (s : string) :
  spaces_greedy s (fun rest => match JsString.strip_prefix "```" rest with
                               | Some _ => Some x
                               | None => None
                               end)
  = if closes s then Some x else None.
Proof.
  rewrite spaces_greedy_trimStart.
  - unfold closes. destruct (JsString.strip_prefix "```" (JsString.trimStart s)); reflexivity.
  - intros t r E. destruct t as [| c t]; [reflexivity |].
    rewrite strip_prefix_head; [reflexivity |].
    destruct (Ascii.eqb_spec "`"%char c) as [<- |]; [| reflexivity].
    rewrite strip_space_backquote in E. discriminate E.
Qed.

(** The fence at the head of a text: the matcher finds the content
    [fenceContent] describes. *)
Lemma match_here_fencePattern (s : string) :
  match_here fencePattern s = option_map (fun content => [(1, content)]) (fenceContent s).
Proof.
  unfold match_here, fencePattern, fenceContent. cbn [run].
  destruct (JsString.strip_prefix "```json" s) as [rest |]; [| reflexivity].
  rewrite (spaces_greedy_ext _
             (fun r1 => star_lazy JsString.any_char r1
                          (fun r2 => if closes r2
                                     then Some [(1, consumed (EmptyString ++ r1) r2)]
                                     else None)))
    by (intros r1; apply star_lazy_ext; intros r2; apply spaces_then_fence_end).
  destruct (textBefore "```" rest) as [between |] eqn:Eb.
  - destruct (@textBefore_first _ _ _ Eb) as (after & -> & Hfirst). cbn [option_map].
    apply spaces_greedy_first.
    change ("```" ++ after) with (String backquote ("``" ++ after)).
    rewrite trimStart_before_backquote.
    change (String backquote ("``" ++ after)) with ("```" ++ after).
    rewrite (@star_lazy_trimEnd _ (fun content => [(1, content)]) _ (closes_fence_end after)
               (JsString.trimStart between) EmptyString); [reflexivity |].
    intros x y Hxy Hy. apply closes_before_end with between; [exact Hfirst | | exact Hy].
    apply suffixOf_trans with (JsString.trimStart between);
      [exists x; exact Hxy | apply trimStart_suffix].
  - cbn [option_map].
    match goal with |- ?m = None => destruct m as [m0 |] eqn:Em end; [| reflexivity].
    exfalso.
    apply spaces_greedy_calls in Em. destruct Em as (r1 & H1 & Em).
    apply star_lazy_calls in Em. destruct Em as (r2 & H2 & Em).
    destruct (closes r2) eqn:Ec; [| discriminate Em].
    apply (closes_occurs r2 Ec).
    apply textBefore_suffix with rest; [| exact Eb].
    apply suffixOf_trans with r1; assumption.
Qed.

(** The greedy star of [[\s\S]] gives back down to the last closing
    brace. *)
Lemma star_greedy_throughLast (R : Type) (f : string -> R) (rest before : string) :
  star_greedy JsString.any_char rest
    (fun r => match JsString.strip_prefix "}" r with
              | Some after => Some (f (consumed (before ++ rest) after))
              | None => None
              end)
  = option_map (fun span => f (before ++ span)) (throughLast closeBrace rest).
Proof.
  revert before. induction rest as [| d rest IH]; intros before; [reflexivity |].
  cbn [star_greedy JsString.any_char throughLast].
  replace (before ++ String d rest) with ((before ++ String d EmptyString) ++ rest)
    by (rewrite append_assoc; reflexivity).
  rewrite IH.
  destruct (throughLast closeBrace rest) as [span |]; cbn [option_map].
  - rewrite append_assoc. reflexivity.
  - destruct (Ascii.eqb_spec d closeBrace) as [-> | Hd].
    + change (JsString.strip_prefix "}" (String closeBrace rest)) with (Some rest).
      cbn [option_map]. rewrite consumed_append. reflexivity.
    + rewrite strip_prefix_head; [reflexivity |].
      destruct (Ascii.eqb_spec "}"%char d) as [<- |]; [| reflexivity].
      contradiction Hd. reflexivity.
Qed.

(** The span of braces at the head of a text. *)
Lemma match_here_bracePattern (s : string) :
  match_here bracePattern s = option_map (fun span => [(2, span)]) (braceSpan s).
Proof.
  unfold match_here, bracePattern, braceSpan. cbn [run].
  destruct s as [| c rest]; [reflexivity |].
  destruct (Ascii.eqb_spec c openBrace) as [-> | Hc].
  - change (JsString.strip_prefix "{" (String openBrace rest)) with (Some rest).
    cbv iota beta.
    pose proof (star_greedy_throughLast (fun span => [(2, span)]) rest
                  (String openBrace EmptyString)) as Hstar.
    cbn [append] in Hstar. etransitivity; [exact Hstar |].
    destruct (throughLast closeBrace rest); reflexivity.
  - rewrite strip_prefix_head; [reflexivity |].
    destruct (Ascii.eqb_spec "{"%char c) as [<- |]; [| reflexivity].
    contradiction Hc. reflexivity.
Qed.

(** At one position the fence is tried before the span of braces. *)
Lemma match_here_fence_first (s : string) :
  match_here jsonPattern s
  = match match_here fencePattern s with
    | Some m => Some m
    | None => match_here bracePattern s
    end.
Proof. reflexivity. Qed.

Lemma match_here_spanHere (s : string) :
  option_map jsonString (match_here jsonPattern s) = spanHere s.
Proof.
  rewrite match_here_fence_first, match_here_fencePattern, match_here_bracePattern.
  unfold spanHere.
  destruct (fenceContent s) as [content |]; [reflexivity |].
  destruct (braceSpan s); reflexivity.
Qed.

Lemma exec_cons r c t :
  exec r (String c t)
  = match match_here r (String c t) with Some caps => Some caps | None => exec r t end.
Proof. reflexivity. Qed.

Lemma exec_leftmostSpan (text : string) :
  option_map jsonString (exec jsonPattern text) = leftmostSpan text.
Proof.
  induction text as [| c text IH].
  - reflexivity.
  - rewrite exec_cons. cbn [leftmostSpan].
    rewrite <- (match_here_spanHere (String c text)).
    destruct (match_here jsonPattern (String c text)); [reflexivity | exact IH].
Qed.


Lemma match_here_empty : match_here jsonPattern EmptyString = None.
Proof. reflexivity. Qed.


(** [exec] finds the match at the leftmost position that has one: no
    match starts inside what it skipped. *)
Lemma exec_leftmost (r : regex) (text : string) (m : captures) :
  exec r text = Some m ->
  exists before rest,
    text = before ++ rest
    /\ match_here r rest = Some m
    /\ forall skipped later,
         before = skipped ++ later -> later <> EmptyString ->
         match_here r (later ++ rest) = None.
Proof.
  induction text as [| c text IH].
  - simpl. destruct (match_here r EmptyString) eqn:E; [| discriminate].
    intros Hm. injection Hm as ->. exists EmptyString, EmptyString.
    split; [reflexivity |]. split; [exact E |].
    intros skipped later Hsplit Hlater. destruct skipped, later; try discriminate.
    contradiction.
  - rewrite exec_cons. destruct (match_here r (String c text)) eqn:E.
    + intros Hm. injection Hm as ->. exists EmptyString, (String c text).
      split; [reflexivity |]. split; [exact E |].
      intros skipped later Hsplit Hlater. destruct skipped, later; try discriminate.
      contradiction.
    + intros Hm. destruct (IH Hm) as (before & rest & -> & Hrest & Hnone).
      exists (String c before), rest.
      split; [reflexivity |]. split; [exact Hrest |].
      intros skipped later Hsplit Hlater. destruct skipped as [| d skipped].
      * simpl in Hsplit. subst later. exact E.
      * simpl in Hsplit. injection Hsplit as _ Hsplit.
        exact (Hnone skipped later Hsplit Hlater).
Qed.

Lemma extractJsonFromString_fst `{Platform} (text : string) (w : World) :
  fst (extractJsonFromString text w)
  = Normal match exec jsonPattern text with
           | Some jsonMatch => parsedSpan (JsTextOps.toString (jsonString jsonMatch))
           | None => None
           end.
Proof.
  unfold extractJsonFromString, parsedSpan, noJsonFound.
  destruct (exec jsonPattern text) as [jsonMatch |]; [| reflexivity].
  destruct (JSON_parse _) as [parsed |]; [| reflexivity].
  destruct (hasGeminiShape parsed); reflexivity.
Qed.

Lemma hasGeminiShape_geminiShaped (v : json) :
  hasGeminiShape v = true <-> geminiShaped v.
Proof.
  unfold hasGeminiShape, geminiShaped, Json.truthy_at, Json.defined_at, Json.get.
  split.
  - intros Hshape.
    destruct v as [| b | x | s | items | fields];
      try (repeat (apply andb_prop in Hshape; destruct Hshape as [Hshape ?]);
           discriminate).
    revert Hshape. simpl.
    destruct (Json.lookup "intent" fields) as [i |] eqn:Ei; [| discriminate].
    destruct (Json.lookup "entities" fields) as [e |] eqn:Ee;
      [| rewrite andb_false_r; discriminate].
    destruct (Json.lookup "targetCollection" fields) as [t |] eqn:Et;
      [| rewrite andb_false_r; discriminate].
    rewrite andb_true_r. intros Hshape. apply andb_prop in Hshape.
    destruct Hshape as [Hi He].
    exists fields, i, e, t. repeat split; assumption.
  - intros (fields & i & e & t & -> & Hi & Hit & He & Het & Ht).
    rewrite Hi, He, Ht, Hit, Het. reflexivity.
Qed.

(** C4 (amended). For every text of the model, the extraction parses the
    leftmost match of the pattern "fence or span of braces". At the first
    position of the text where a fence opens (three backquotes and [json],
    with three backquotes somewhere after them) or a span of braces opens
    (an opening brace with a closing brace somewhere after it), it takes,
    for a fence, the text between the tag and the next three backquotes
    without the white space at its two ends, [undefined] when nothing is
    left of it, and, for a brace, the text from that brace to the last
    closing brace of the whole text. When no fence and no span of braces
    opens anywhere, the result is [null]. What was taken is parsed as JSON
    and its value is returned only if it is an object with a truthy
    [intent], a truthy [entities] and a defined [targetCollection];
    [null] is returned otherwise. *)
Theorem C4_leftmost_fence_or_brace `{Platform} (text : string) (w : World) :
  fst (extractJsonFromString text w)
  = Normal match leftmostSpan text with
           | Some span => parsedSpan (JsTextOps.toString span)
           | None => None
           end
  /\ (forall (span : string) (v : json),
         parsedSpan span = Some v <-> JSON_parse span = Some v /\ geminiShaped v).
Proof.
  split.
  - rewrite extractJsonFromString_fst, <- exec_leftmostSpan.
    destruct (exec jsonPattern text); reflexivity.
  - intros span v. unfold parsedSpan. split.
    + destruct (JSON_parse span) as [parsed |]; [| discriminate].
      destruct (hasGeminiShape parsed) eqn:Hshape; [| discriminate].
      intros E. injection E as <-.
      split; [reflexivity | apply hasGeminiShape_geminiShaped, Hshape].
    + intros [-> Hshape]. apply hasGeminiShape_geminiShaped in Hshape.
      rewrite Hshape. reflexivity.
Qed.

Lemma C4_witness :
  leftmostSpan fencedAnswer = Some (Str johnDoeJson)
  /\ fst (@extractJsonFromString litePlatform fencedAnswer emptyWorld)
     = Normal (Some johnDoeParsed)
  /\ leftmostSpan chattyAnswer
     = Some (Str ("{as requested}:" ++ lf ++ "```json" ++ lf ++ johnDoeJson))
  /\ fst (@extractJsonFromString litePlatform chattyAnswer emptyWorld) = Normal None
  /\ leftmostSpan "I cannot help with that." = None
  /\ fst (@extractJsonFromString litePlatform "I cannot help with that." emptyWorld)
     = Normal None.
Proof.
  split; [vm_compute; reflexivity |].
  split; [rewrite (proj1 (@C4_leftmost_fence_or_brace litePlatform fencedAnswer emptyWorld));
          vm_compute; reflexivity |].
  split; [vm_compute; reflexivity |].
  split; [rewrite (proj1 (@C4_leftmost_fence_or_brace litePlatform chattyAnswer emptyWorld));
          vm_compute; reflexivity |].
  split; [vm_compute; reflexivity |].
  rewrite (proj1 (@C4_leftmost_fence_or_brace litePlatform "I cannot help with that."
                    emptyWorld)).
  vm_compute. reflexivity.
Defined.

(** C4, as stated, fails: the answer opens a brace before its fence; the
    fence holds the JSON of the example, which the extraction of the
    specification returns, and the code returns [null]. *)
Lemma C4_counterexample :
  fst (@extractJsonFromString litePlatform chattyAnswer emptyWorld) = Normal None
  /\ @claimedExtraction litePlatform chattyAnswer = Some johnDoeParsed.
Proof. split; vm_compute; reflexivity. Qed.

(** The span that is parsed, on answers of several forms: white space of
    every kind is taken off the content of a fence; a fence without tag
    is not a fence, and the span of braces inside it is found; inline
    code before a fence does not hide it; of two fences the first is
    taken, and the second is left alone. *)
Example leftmostSpan_examples :
  leftmostSpan paddedFenceAnswer = Some (Str johnDoeJson)
  /\ leftmostSpan untaggedFenceAnswer = Some (Str johnDoeJson)
  /\ leftmostSpan inlineCodeAnswer = Some (Str johnDoeJson)
  /\ leftmostSpan twoFencesAnswer = Some (Str johnDoeJson)
  /\ leftmostSpan emptyFenceAnswer = Some Undefined
  /\ fst (@extractJsonFromString litePlatform paddedFenceAnswer emptyWorld)
     = Normal (Some johnDoeParsed)
  /\ fst (@extractJsonFromString litePlatform untaggedFenceAnswer emptyWorld)
     = Normal (Some johnDoeParsed)
  /\ fst (@extractJsonFromString litePlatform inlineCodeAnswer emptyWorld)
     = Normal (Some johnDoeParsed).
Proof. repeat split; vm_compute; reflexivity. Qed.

(** ** From the request to the pipeline *)

Lemma handleClassification_returns `{Platform} env r w :
  exists reply w', handleClassification env r w = (Normal reply, w').
Proof.
  unfold handleClassification.
  destruct (JsTextOps.truthy (error r) || String.eqb (intent r) "unknown").
  - do 2 eexists. reflexivity.
  - unfold bind at 1. unfold console_log at 1. unfold console_print at 1.
    unfold bind at 1.
    match goal with
    | |- context [(if ?c then ?a else ?b) ?w0] =>
        assert (Hlog : exists w1, (if c then a else b) w0 = (Normal tt, w1))
          by (destruct c; eexists; reflexivity);
        destruct Hlog as (w1 & ->)
    end.
    unfold try_catch.
    match goal with
    | |- context [bind ?m ?f ?w0] => destruct (bind m f w0) as [[reply | e] w2]
    end; do 2 eexists; reflexivity.
Qed.

(** A request with a text and a classification of the declared types is
    answered by the pipeline, run on that classification. *)
Lemma app_runs_pipeline `{Platform} env (text : string) outcome w classified w1 r :
  whitespaceOnly text = false ->
  processTextWithGemini text outcome w = (Normal classified, w1) ->
  asGeminiResponse classified = Some r ->
  app env (Some (JString text)) outcome w
  = match pipeline env r w1 with
    | (Normal response, w2) => (Normal (Some response), w2)
    | (Abrupt e, w2) => (Abrupt e, w2)
    end.
Proof.
  intros Htext Hadapter Htyped.
  assert (Hguard : negb (JsString.truthy text)
                   || (String.length (JsString.trim text) =? 0) = false).
  { apply orb_false_iff. split.
    - destruct text; [discriminate Htext | reflexivity].
    - destruct (JsString.trim text) eqn:E; [| reflexivity].
      apply trim_empty_whitespaceOnly in E. congruence. }
  destruct (handleClassification_returns env r w1) as (reply & w2 & E).
  unfold app, processSpeech, pipeline. rewrite Hguard.
  unfold try_catch, bind. rewrite Hadapter, Htyped, E.
  unfold ret. destruct (respond env reply w2) as [[response | e] w3]; reflexivity.
Qed.

(** A [get_tasks] request whose time entity is not a pattern: the
    [SyntaxError] of [new RegExp] ends in a 500. *)
Example get_tasks_bad_pattern :
  fst (@pipeline litePlatform productionEnv (getTasks Undefined (Str "(")) twoTasks)
  = Normal (Response.ofMessage 500 "An internal server error occurred.").
Proof. vm_compute. reflexivity. Qed.

(** The validation of line 62 lets an intent outside the five through:
    the request is answered 200 with the message of line 179. *)
Example delete_contact_end_to_end :
  fst (@app litePlatform devEnv (Some (JString "Delete John Doe from my contacts"))
            (answers deleteContactJson) emptyWorld)
  = Normal (Some
      {| Response.statusCode := 200;
         Response.json :=
           {| Response.message := "Something went wrong while processing your request.";
              Response.details := None;
              Response.intent := Some "delete_contact";
              Response.entities :=
                Some {| Entities.name := Str "John Doe";
                        Entities.phoneNumber := Undefined;
                        Entities.relationship := Undefined;
                        Entities.description := Undefined;
                        Entities.time := Undefined |} |} |}).
Proof. vm_compute. reflexivity. Qed.

(** ** What a request writes *)








(* ================================================================== *)
(** * Further properties of the handler *)

(** ** Listing the contacts *)

(** X1. A [get_contacts] request, when the store answers and the name
    entity, if there is one, is a pattern, is answered 200 with the
    contacts whose [name] matches the entity taken as a regular expression
    without case, all the contacts when there is no name, in the order
    of the store; when none is found the message names the entity that
    was searched, or says that no contact is saved when there was none.
    No document is written. *)
Theorem get_contacts_lists_matches `{Platform}
        (env : Env) (r : GeminiResponse.t) (w : World) (nameFilter : option RegExp) :
  intent r = "get_contacts" ->
  JsTextOps.truthy (error r) = false ->
  dbFault env = None ->
  entityFilter (Entities.name (entities r))
               (JsTextOps.toString (Entities.name (entities r))) = Some nameFilter ->
  exists w',
    pipeline env r w
    = (Normal (ok (contactsMessage (Entities.name (entities r))
                     (filter (ContactModel.matches nameFilter) (contacts w)))
                  r), w')
    /\ stored w' = stored w.
Proof.
  intros Hi He Hdb Hn.
  unfold pipeline, handleClassification, switchIntent, newRegExp, ContactModel.find.
  rewrite He, Hi, Hdb. simpl.
  destruct (entityFilter_inv _ _ Hn) as [[Hn1 ->] | (re & Hn1 & Hn2 & ->)];
    rewrite Hn1; try rewrite Hn2;
    unfold bind, try_catch, console_log, console_warn, console_print, ret, respond,
      await_model;
    destruct (collectionMismatch _ _); simpl;
    unfold ok, contactsMessage; rewrite Hi, ?Hn1;
    destruct (filter _ (contacts w)); simpl;
    (eexists; split; [reflexivity | reflexivity]).
Qed.

Lemma get_contacts_lists_matches_witness :
  exists w',
    @pipeline litePlatform devEnv (getContacts (Str "DOE")) twoContacts
    = (Normal (ok "Here are the contacts I found: John Doe, phone 555-111-2222 (son)"
                  (getContacts (Str "DOE"))), w')
    /\ stored w' = stored twoContacts.
Proof.
  apply (@get_contacts_lists_matches litePlatform devEnv (getContacts (Str "DOE"))
           twoContacts (Some (Regex.test (LitePlatform.compile "DOE"))));
    reflexivity.
Defined.

(** ** Failures of the store and of [new RegExp] *)

Ltac run_pipeline :=
  unfold bind, try_catch, console_log, console_warn, console_error, console_print,
    ret, throw, respond, errorMiddleware, await_model, errorResponse, errorStatusCode;
  destruct (collectionMismatch _ _); simpl;
  (eexists; split; [reflexivity | reflexivity]).

(** X2. When the store fails on a read request ([get_tasks] or
    [get_contacts] whose filters are built), the error of the driver goes
    to the central error handler: the status is the [status] of the
    error, 500 when it has none, and the message is "An internal server
    error occurred." in production and "Internal Server Error: " followed
    by the message of the error otherwise. No document is written. *)
Theorem read_store_failure_forwarded `{Platform}
        (env : Env) (r : GeminiResponse.t) (w : World) (e : JsError) :
  JsTextOps.truthy (error r) = false ->
  readsStore r ->
  dbFault env = Some e ->
  exists w',
    pipeline env r w = (Normal (errorResponse env (ThrownError e)), w')
    /\ stored w' = stored w.
Proof.
  intros He Hread Hdb.
  unfold pipeline, handleClassification, switchIntent, newRegExp,
    TaskModel.find_sorted, ContactModel.find.
  destruct Hread as [(Hi & [tf Ht] & [df Hd]) | (Hi & [nf Hn])];
    rewrite He, Hi, Hdb; simpl.
  - unfold descriptionSource in Hd.
    destruct (entityFilter_inv _ _ Ht) as [[Ht1 ->] | (reT & Ht1 & Ht2 & ->)];
      destruct (entityFilter_inv _ _ Hd) as [[Hd1 ->] | (reD & Hd1 & Hd2 & ->)];
      rewrite Ht1, Hd1; try rewrite Ht2; try rewrite Hd2; run_pipeline.
  - destruct (entityFilter_inv _ _ Hn) as [[Hn1 ->] | (re & Hn1 & Hn2 & ->)];
      rewrite Hn1; try rewrite Hn2; run_pipeline.
Qed.

Lemma read_store_failure_forwarded_witness :
  exists w',
    @pipeline litePlatform downEnv (getTasks Undefined (Str "morn")) twoTasks
    = (Normal (Response.ofMessage 500 "An internal server error occurred."), w')
    /\ stored w' = stored twoTasks.
Proof.
  apply (@read_store_failure_forwarded litePlatform downEnv
           (getTasks Undefined (Str "morn")) twoTasks storeDown).
  - reflexivity.
  - left. split; [reflexivity |]. split; eexists; reflexivity.
  - reflexivity.
Defined.

(** X3. When [new RegExp] rejects a source of a read request (the time
    or the description of a [get_tasks], the name of a [get_contacts]),
    the request is not answered 400: the error goes to the central error
    handler, which answers with its status, 500 when it has none. The
    store is not queried: the answer is the same whether the store works
    or not, and no document is written. *)
Theorem rejected_pattern_forwarded `{Platform}
        (env : Env) (r : GeminiResponse.t) (w : World) (err : Thrown) :
  JsTextOps.truthy (error r) = false ->
  rejectedPattern r err ->
  exists w',
    pipeline env r w = (Normal (errorResponse env err), w')
    /\ stored w' = stored w.
Proof.
  intros He Hbad.
  unfold pipeline, handleClassification, switchIntent, newRegExp,
    TaskModel.find_sorted, ContactModel.find.
  destruct Hbad as [(Hi & Ht & Hre) | [(Hi & [tf Ht] & Hd & Hre) | (Hi & Hn & Hre)]];
    rewrite He, Hi; simpl.
  - rewrite Ht, Hre. run_pipeline.
  - unfold descriptionSource in Hre.
    destruct (entityFilter_inv _ _ Ht) as [[Ht1 ->] | (reT & Ht1 & Ht2 & ->)];
      rewrite Ht1, Hd, Hre; try rewrite Ht2; run_pipeline.
  - rewrite Hn, Hre. run_pipeline.
Qed.

Lemma rejected_pattern_forwarded_witness :
  exists w',
    @pipeline litePlatform downEnv (getContacts (Str "(")) twoContacts
    = (Normal (Response.ofMessage 500 "An internal server error occurred."), w')
    /\ stored w' = stored twoContacts.
Proof.
  apply (@rejected_pattern_forwarded litePlatform downEnv (getContacts (Str "("))
           twoContacts (ThrownError (LitePlatform.SyntaxError "("))).
  - reflexivity.
  - right. right. repeat split; reflexivity.
Defined.

(** ** Every classification is answered *)

(** How the [switch] ends: a [return] is a 400 with a message only, and
    what it throws is a validation error, the error of the store or what
    [new RegExp] threw. *)
Lemma switchIntent_ends `{Platform} (env : Env) (i : string) (e : Entities.t) (w : World) :
  match fst (switchIntent env i e w) with
  | Normal (Return reply) => exists msg, reply = Sent (Response.ofMessage 400 msg)
  | Normal (Break _) => True
  | Abrupt err => errorStatusCode err = 500 \/ forwardable env err
  end.
Proof.
  unfold switchIntent, newRegExp.
  destruct (String.eqb i "add_contact").
  { destruct (JsTextOps.truthy (Entities.name e) && JsTextOps.truthy (Entities.phoneNumber e)).
    - unfold bind. rewrite contact_save_rejects. simpl. left. reflexivity.
    - simpl. eexists. reflexivity. }
  destruct (String.eqb i "add_task").
  { destruct (JsTextOps.truthy (Entities.description e)).
    - unfold bind. rewrite task_save_rejects. simpl. left. reflexivity.
    - simpl. eexists. reflexivity. }
  destruct (String.eqb i "get_tasks").
  { unfold bind, ret, await_model, throw, TaskModel.find_sorted.
    destruct (JsTextOps.truthy (Entities.time e)).
    - destruct (RegExp_i (JsTextOps.toString (Entities.time e))) as [reT | err] eqn:Et;
        [| simpl; right; right; eexists; exact Et].
      destruct (JsTextOps.truthy (Entities.description e)).
      + destruct (RegExp_i _) as [reD | err] eqn:Ed in |- *;
          [| simpl; right; right; eexists; exact Ed].
        destruct (dbFault env) as [fault |] eqn:Edb; simpl; [| exact I].
        right. left. exists fault. auto.
      + destruct (dbFault env) as [fault |] eqn:Edb; simpl; [| exact I].
        right. left. exists fault. auto.
    - destruct (JsTextOps.truthy (Entities.description e)).
      + destruct (RegExp_i _) as [reD | err] eqn:Ed in |- *;
          [| simpl; right; right; eexists; exact Ed].
        destruct (dbFault env) as [fault |] eqn:Edb; simpl; [| exact I].
        right. left. exists fault. auto.
      + destruct (dbFault env) as [fault |] eqn:Edb; simpl; [| exact I].
        right. left. exists fault. auto. }
  destruct (String.eqb i "get_contacts").
  { unfold bind, ret, await_model, throw, ContactModel.find.
    destruct (JsTextOps.truthy (Entities.name e)).
    - destruct (RegExp_i _) as [re | err] eqn:En in |- *;
        [| simpl; right; right; eexists; exact En].
      destruct (dbFault env) as [fault |] eqn:Edb; simpl; [| exact I].
      right. left. exists fault. auto.
    - destruct (dbFault env) as [fault |] eqn:Edb; simpl; [| exact I].
      right. left. exists fault. auto. }
  exact I.
Qed.

(** The reply of the handler: a response 200 that echoes the
    classification, a 400 or a 500 without echo, or an error it forwards. *)
Lemma handleClassification_reply `{Platform} (env : Env) (r : GeminiResponse.t) (w : World) :
  exists reply w',
    handleClassification env r w = (Normal reply, w')
    /\ match reply with
       | Sent response =>
           (exists msg, response = ok msg r)
           \/ ((Response.statusCode response = 400 \/ Response.statusCode response = 500)
               /\ Response.intent (Response.json response) = None
               /\ Response.entities (Response.json response) = None)
       | Next err => errorStatusCode err = 500 \/ forwardable env err
       end.
Proof.
  unfold handleClassification.
  destruct (JsTextOps.truthy (error r) || String.eqb (intent r) "unknown").
  - do 2 eexists. split; [reflexivity |]. simpl. right.
    destruct (JsTextOps.truthy (error r)); auto.
  - unfold bind at 1. unfold console_log at 1. unfold console_print at 1.
    unfold bind at 1.
    match goal with
    | |- context [(if ?c then ?a else ?b) ?w0] =>
        assert (Hlog : exists w1, (if c then a else b) w0 = (Normal tt, w1))
          by (destruct c; eexists; reflexivity);
        destruct Hlog as (w1 & ->)
    end.
    unfold try_catch, bind.
    pose proof (switchIntent_ends env (intent r) (entities r) w1) as Hend.
    destruct (switchIntent env (intent r) (entities r) w1) as [[[reply | msg] | err] w2];
      simpl in Hend.
    + destruct Hend as [msg ->].
      do 2 eexists. split; [reflexivity |]. simpl. right. auto.
    + do 2 eexists. split; [reflexivity |]. simpl. left. exists msg. reflexivity.
    + do 2 eexists. split; [reflexivity |]. exact Hend.
Qed.

(** X4. Every classification gets a response: the pipeline never throws.
    The status is 200, 400 or 500, or the status of an error of the store
    or of [new RegExp] that the handler forwarded. A response carries
    [intent] and [entities] only with the status 200, and they are those
    of the classification, without [details]. *)
Theorem pipeline_always_answers `{Platform}
        (env : Env) (r : GeminiResponse.t) (w : World) :
  exists response w',
    pipeline env r w = (Normal response, w')
    /\ (Response.statusCode response = 200
        \/ Response.statusCode response = 400
        \/ Response.statusCode response = 500
        \/ exists err, forwardable env err
                       /\ Response.statusCode response = errorStatusCode err)
    /\ match Response.intent (Response.json response) with
       | Some i =>
           Response.statusCode response = 200
           /\ i = intent r
           /\ Response.entities (Response.json response) = Some (entities r)
           /\ Response.details (Response.json response) = None
       | None => Response.entities (Response.json response) = None
       end.
Proof.
  destruct (handleClassification_reply env r w) as (reply & w1 & E & Hreply).
  unfold pipeline, bind. rewrite E.
  destruct reply as [response | err].
  - exists response, w1. split; [reflexivity |].
    destruct Hreply as [[msg ->] | ([H400 | H500] & Hi & He)].
    + simpl. auto.
    + rewrite Hi. auto.
    + rewrite Hi. auto.
  - unfold respond, errorMiddleware, bind, console_error, console_print, ret.
    do 2 eexists. split; [reflexivity |]. simpl. split; [| reflexivity].
    destruct Hreply as [H500 | Hfw].
    + right. right. left. exact H500.
    + right. right. right. exists err. split; [exact Hfw | reflexivity].
Qed.

(** ** From the failure of the model call to the response *)

Lemma valid_text_guard (text : string) :
  whitespaceOnly text = false ->
  negb (JsString.truthy text) || (String.length (JsString.trim text) =? 0) = false.
Proof.
  intros Htext. apply orb_false_iff. split.
  - destruct text; [discriminate Htext | reflexivity].
  - destruct (JsString.trim text) eqn:E; [| reflexivity].
    apply trim_empty_whitespaceOnly in E. congruence.
Qed.

Lemma adapterFails_truthy `{Platform} (outcome : ModelOutcome) (error : string) :
  adapterFails outcome error -> JsString.truthy error = true.
Proof.
  destruct outcome as [failure | [isNull | blockReason responseText]]; simpl.
  - intros ->. apply caughtMessage_truthy.
  - intros ->. reflexivity.
  - destruct (JsTextOps.truthy blockReason); [intros ->; reflexivity |].
    destruct responseText as [s | failure].
    + intros [_ ->]. reflexivity.
    + intros ->. apply caughtMessage_truthy.
Qed.

Lemma adapterFails_value `{Platform} (text : string) (outcome : ModelOutcome)
      (error : string) (w : World) :
  adapterFails outcome error ->
  exists w1,
    processTextWithGemini text outcome w = (Normal (unknownIntent error), w1)
    /\ stored w1 = stored w.
Proof.
  intros Hfail.
  pose proof (readonly_processTextWithGemini text outcome w) as Hro. revert Hro.
  destruct outcome as [failure | [isNull | blockReason responseText]]; simpl in Hfail.
  - subst error. intros Hro. destruct failure; eexists; split; try reflexivity; exact Hro.
  - subst error. intros Hro. eexists. split; [reflexivity | exact Hro].
  - unfold processTextWithGemini, try_catch, bind, generateContent, ret,
      console_log, console_error, console_print, await_model, throw. simpl.
    destruct (JsTextOps.truthy blockReason).
    + subst error. intros Hro. eexists. split; [reflexivity | exact Hro].
    + destruct responseText as [s | failure]; simpl.
      * destruct Hfail as [Hnone ->].
        match goal with
        | |- context [extractJsonFromString s ?w0] =>
            pose proof (Hnone w0) as Hf;
            destruct (extractJsonFromString s w0) as [result w1]
        end.
        simpl in Hf. subst result. simpl. intros Hro.
        eexists. split; [reflexivity | exact Hro].
      * subst error. intros Hro. destruct failure; eexists; split; try reflexivity; exact Hro.
Qed.

(** X5. When the model call gives no classification (the call is
    rejected, a block reason is reported, there is no response, [text()]
    throws, or no JSON can be extracted from the text), a request with a
    text that is not blank is answered 500 with the message of apology,
    and the error string of the adapter, which holds the message of the
    error that was thrown, is sent as [details], in production as in
    development. No document is written. *)
Theorem classification_failure_answered_500 `{Platform}
        (env : Env) (text : string) (outcome : ModelOutcome) (error : string) (w : World) :
  whitespaceOnly text = false ->
  adapterFails outcome error ->
  exists w',
    app env (Some (JString text)) outcome w
    = (Normal (Some (classificationFailed error)), w')
    /\ stored w' = stored w.
Proof.
  intros Htext Hfail.
  destruct (@adapterFails_value _ text outcome error w Hfail) as (w1 & Hadapter & Hstored).
  pose proof (@adapterFails_truthy _ outcome error Hfail) as Htruthy.
  unfold app, processSpeech. rewrite (valid_text_guard _ Htext).
  unfold try_catch, bind. rewrite Hadapter, asGeminiResponse_unknownIntent.
  unfold handleClassification, unknownResult. simpl. rewrite Htruthy. simpl.
  unfold JsTextOps.or. simpl. rewrite Htruthy.
  eexists. split; [reflexivity |]. exact Hstored.
Qed.

Lemma classification_failure_answered_500_witness :
  exists w',
    @app litePlatform productionEnv (Some (JString "call my son")) (Rejected quotaExceeded)
         emptyWorld
    = (Normal (Some (classificationFailed
         "Gemini Processing Error: [429 Too Many Requests] quota exceeded for key AIza-secret")),
       w')
    /\ stored w' = stored emptyWorld.
Proof.
  apply (@classification_failure_answered_500 litePlatform productionEnv "call my son"
           (Rejected quotaExceeded)
           "Gemini Processing Error: [429 Too Many Requests] quota exceeded for key AIza-secret"
           emptyWorld);
    reflexivity.
Defined.

(** ** What the adapter hands to the handler *)

Lemma extracted_is_shaped `{Platform} (text : string) (w : World) (v : json) :
  fst (extractJsonFromString text w) = Normal (Some v) -> geminiShaped v.
Proof.
  rewrite extractJsonFromString_fst. intros E. injection E as E.
  destruct (exec jsonPattern text) as [m |]; [| discriminate E].
  unfold parsedSpan in E.
  destruct (JSON_parse _) as [parsed |]; [| discriminate E].
  destruct (hasGeminiShape parsed) eqn:Hshape; [| discriminate E].
  injection E as <-. apply hasGeminiShape_geminiShaped, Hshape.
Qed.

Lemma unknownIntent_shaped (error : string) : geminiShaped (unknownIntent error).
Proof.
  exists [ ("intent", JString "unknown"); ("entities", JObject []);
           ("targetCollection", JNull); ("error", JString error) ],
         (JString "unknown"), (JObject []), JNull.
  repeat split; reflexivity.
Qed.

Lemma processTextWithGemini_returns `{Platform}
        (text : string) (outcome : ModelOutcome) (w : World) :
  exists classified w',
    processTextWithGemini text outcome w = (Normal classified, w')
    /\ geminiShaped classified.
Proof.
  destruct outcome as [failure | [isNull | blockReason responseText]].
  - do 2 eexists. split; [reflexivity | apply unknownIntent_shaped].
  - do 2 eexists. split; [reflexivity | apply unknownIntent_shaped].
  - unfold processTextWithGemini, try_catch, bind, generateContent, ret,
      console_log, console_error, console_print, await_model, throw. simpl.
    destruct (JsTextOps.truthy blockReason).
    + do 2 eexists. split; [reflexivity | apply unknownIntent_shaped].
    + destruct responseText as [s | failure]; simpl.
      * match goal with
        | |- context [extractJsonFromString s ?w0] =>
            pose proof (extracted_is_shaped s w0) as Hshape;
            destruct (extractJsonFromString_returns s w0) as (result & w1 & E);
            rewrite E in *
        end.
        destruct result as [parsed |]; simpl.
        -- do 2 eexists. split; [reflexivity | apply Hshape; reflexivity].
        -- do 2 eexists. split; [reflexivity | apply unknownIntent_shaped].
      * do 2 eexists. split; [reflexivity | apply unknownIntent_shaped].
Qed.

(** X6. Whatever the model does, the value the adapter returns is an
    object with a truthy [intent], a truthy [entities] and a defined
    [targetCollection]: the destructuring of line 168 and the reads of
    [entities.name] and the like never meet [undefined] or [null] in the
    place of the classification or of its entities. *)
Theorem adapter_result_is_shaped `{Platform}
        (text : string) (outcome : ModelOutcome) (w : World) :
  exists classified w',
    processTextWithGemini text outcome w = (Normal classified, w')
    /\ geminiShaped classified.
Proof. apply processTextWithGemini_returns. Qed.

(** ** More on the span the extraction parses *)





Lemma occursIn_consumed (text input rest : string) :
  suffixOf input text -> suffixOf rest input -> occursIn (consumed input rest) text.
Proof.
  intros [q ->] [p ->]. rewrite consumed_append. exists q, rest. reflexivity.
Qed.

Lemma occursIn_suffix (span rest text : string) :
  occursIn span rest -> suffixOf rest text -> occursIn span text.
Proof.
  intros (b & a & ->) [q ->]. exists (q ++ b), a. rewrite append_assoc. reflexivity.
Qed.

Section Soundness.
Variable R : Type.

(** What follows a pattern is tried on what remains of the input only,
    with groups that are parts of the text. *)
Lemma run_calls (text : string) (r : regex) :
  forall (input : string) (caps : captures)
         (k : string -> captures -> option R) (x : R),
    suffixOf input text -> capturesIn text caps ->
    run r input caps k = Some x ->
    exists rest caps',
      suffixOf rest input /\ capturesIn text caps' /\ k rest caps' = Some x.
Proof.
  induction r as [s | cls | cls | cls | | r1 IH1 r2 IH2 | r1 IH1 r2 IH2 | n r1 IH1];
    intros input caps k x Hin Hcaps E; cbn [run] in E.
  - destruct (JsString.strip_prefix s input) as [rest |] eqn:Es; [| discriminate E].
    exists rest, caps. split; [| split; assumption].
    exists s. exact (strip_prefix_some _ _ Es).
  - destruct input as [| c rest]; [discriminate E |].
    destruct (cls c); [| discriminate E].
    exists rest, caps. split; [apply suffixOf_tail | split; assumption].
  - apply star_greedy_calls in E. destruct E as (rest & Hs & Hk).
    exists rest, caps. auto.
  - apply star_lazy_calls in E. destruct E as (rest & Hs & Hk).
    exists rest, caps. auto.
  - apply spaces_greedy_calls in E. destruct E as (rest & Hs & Hk).
    exists rest, caps. auto.
  - destruct (IH1 _ _ _ _ Hin Hcaps E) as (rest1 & caps1 & Hs1 & Hc1 & E1).
    assert (Hin1 : suffixOf rest1 text)
      by (apply suffixOf_trans with input; assumption).
    destruct (IH2 _ _ _ _ Hin1 Hc1 E1) as (rest2 & caps2 & Hs2 & Hc2 & E2).
    exists rest2, caps2. split; [apply suffixOf_trans with rest1; assumption | auto].
  - destruct (run r1 input caps k) as [y |] eqn:E1.
    + injection E as ->. exact (IH1 _ _ _ _ Hin Hcaps E1).
    + exact (IH2 _ _ _ _ Hin Hcaps E).
  - destruct (IH1 _ _ _ _ Hin Hcaps E) as (rest & caps' & Hs & Hc & Ek).
    exists rest, ((n, consumed input rest) :: caps').
    split; [exact Hs |]. split; [| exact Ek].
    constructor; [| exact Hc]. simpl. apply occursIn_consumed; assumption.
Qed.
End Soundness.

Lemma match_here_captures (r : regex) (input : string) (m : captures) :
  match_here r input = Some m -> capturesIn input m.
Proof.
  unfold match_here. intros E.
  apply run_calls with (text := input) in E;
    [| apply suffixOf_refl | apply Forall_nil].
  destruct E as (rest & caps' & _ & Hc & Ek).
  injection Ek as <-. exact Hc.
Qed.

Lemma capturesIn_suffix (rest text : string) (m : captures) :
  capturesIn rest m -> suffixOf rest text -> capturesIn text m.
Proof.
  unfold capturesIn. intros Hm Hs. eapply Forall_impl; [| exact Hm].
  intros c Hc. apply occursIn_suffix with rest; assumption.
Qed.

Lemma group_occurs (text : string) (m : captures) (n : nat) :
  capturesIn text m ->
  group n m = Undefined \/ exists span, group n m = Str span /\ occursIn span text.
Proof.
  induction m as [| [k s] m IH]; intros Hm; [left; reflexivity |].
  inversion Hm as [| ? ? Hs Hm']; subst. simpl.
  destruct (Nat.eqb k n); [right; exists s; auto | exact (IH Hm')].
Qed.

Lemma exec_captures (r : regex) (text : string) (m : captures) :
  exec r text = Some m -> capturesIn text m.
Proof.
  intros E. apply exec_leftmost in E.
  destruct E as (before & rest & -> & Hm & _).
  apply capturesIn_suffix with rest; [apply (match_here_captures r), Hm |].
  exists before. reflexivity.
Qed.

Lemma jsonString_occurs (text : string) (m : captures) :
  capturesIn text m ->
  jsonString m = Undefined \/ exists span, jsonString m = Str span /\ occursIn span text.
Proof.
  intros Hm. unfold jsonString, JsTextOps.or.
  destruct (@group_occurs text m 1 Hm) as [-> | (s1 & -> & H1)]; simpl.
  - apply group_occurs, Hm.
  - destruct (JsString.truthy s1); [right; exists s1; auto | apply group_occurs, Hm].
Qed.

(** X8. A value the extraction returns is never made up: it is what
    [JSON.parse] gives for a contiguous part of the text of the model, and
    it has the shape line 62 asks for ([JSON.parse(undefined)] throwing,
    as it does). *)
Theorem extracted_value_parses_part_of_text `{Platform}
        (text : string) (w : World) (v : json) :
  JSON_parse "undefined" = None ->
  fst (extractJsonFromString text w) = Normal (Some v) ->
  exists span, occursIn span text /\ JSON_parse span = Some v /\ geminiShaped v.
Proof.
  intros Hundefined E. rewrite extractJsonFromString_fst in E. injection E as E.
  destruct (exec jsonPattern text) as [m |] eqn:Em; [| discriminate E].
  apply exec_captures in Em.
  assert (Hparsed : forall span, parsedSpan span = Some v ->
                                 JSON_parse span = Some v /\ geminiShaped v).
  { intros span Hs. unfold parsedSpan in Hs.
    destruct (JSON_parse span) as [parsed |]; [| discriminate Hs].
    destruct (hasGeminiShape parsed) eqn:Hshape; [| discriminate Hs].
    injection Hs as <-. split; [reflexivity | apply hasGeminiShape_geminiShaped, Hshape]. }
  destruct (@jsonString_occurs text m Em) as [Eu | (span & Es & Hocc)]; rewrite ?Eu, ?Es in E.
  - simpl in E. unfold parsedSpan in E. rewrite Hundefined in E. discriminate E.
  - exists span. split; [exact Hocc | apply Hparsed, E].
Qed.

Lemma extracted_value_parses_part_of_text_witness :
  exists span,
    occursIn span fencedAnswer
    /\ @JSON_parse litePlatform span = Some johnDoeParsed
    /\ geminiShaped johnDoeParsed.
Proof.
  apply (@extracted_value_parses_part_of_text litePlatform fencedAnswer emptyWorld
           johnDoeParsed);
    reflexivity.
Defined.

(** ** The source of the description filter *)

Lemma split_nonempty (sep : ascii) (s : string) : JsString.split sep s <> [].
Proof.
  destruct s as [| c s]; simpl; [discriminate |].
  destruct (Ascii.eqb c sep); [discriminate |].
  destruct (JsString.split sep s); discriminate.
Qed.

Lemma join_cons (sep piece : string) (pieces : list string) :
  pieces <> [] ->
  JsString.join sep (piece :: pieces) = piece ++ sep ++ JsString.join sep pieces.
Proof. destruct pieces; [contradiction | reflexivity]. Qed.

Lemma join_split_spacesToBars (s : string) :
  JsString.join "|" (JsString.split space s) = spacesToBars s.
Proof.
  induction s as [| c s IH]; [reflexivity |].
  simpl JsString.split. simpl spacesToBars.
  destruct (Ascii.eqb c space).
  - rewrite join_cons by apply split_nonempty. rewrite IH. reflexivity.
  - pose proof (split_nonempty space s) as Hne.
    destruct (JsString.split space s) as [| piece pieces]; [contradiction |].
    rewrite <- IH. destruct pieces; reflexivity.
Qed.

Lemma spacesToBars_length (s : string) :
  String.length (spacesToBars s) = String.length s.
Proof. induction s as [| c s IH]; simpl; [reflexivity | rewrite IH; reflexivity]. Qed.

(** X9. The source of the description filter of [get_tasks],
    [description.split(' ').join('|')], is the description with each
    space replaced by a bar and nothing else changed: it has the length
    of the description, a tab or a line break does not separate, and two
    spaces in a row leave an empty alternative between two bars. *)
Theorem descriptionSource_replaces_spaces (description : JsText) :
  descriptionSource description = spacesToBars (JsTextOps.toString description)
  /\ String.length (descriptionSource description)
     = String.length (JsTextOps.toString description).
Proof.
  unfold descriptionSource. rewrite join_split_spacesToBars.
  split; [reflexivity | apply spacesToBars_length].
Qed.

(** ** Start-up *)

(** X10. Start-up goes on only when [MONGODB_URI] and [GEMINI_API_KEY]
    are both set to a string that is not empty, and then keeps their
    values as they are and prints nothing. Otherwise the process exits
    with code 1 after one line on the console, which names the first of
    the two that is missing: [MONGODB_URI] is read first, so it alone is
    named when both are missing. The port plays no part in this. *)
Theorem configure_requires_both_variables (env : ProcessEnv) (out : list LogEntry) :
  match firstMissing env with
  | None =>
      exists cfg,
        configure env out = (Continue cfg, out)
        /\ env "MONGODB_URI" = Some (MONGODB_URI cfg)
        /\ env "GEMINI_API_KEY" = Some (GEMINI_API_KEY cfg)
        /\ MONGODB_URI cfg <> EmptyString /\ GEMINI_API_KEY cfg <> EmptyString
  | Some key =>
      configure env out = (Exit 1, (out ++ [criticalLine key])%list)
  end.
Proof.
  unfold firstMissing, configure, getEnvVariable, andThen, envValue.
  destruct (env "MONGODB_URI") as [[| c uri] |]; simpl; try reflexivity.
  destruct (env "GEMINI_API_KEY") as [[| d key] |]; simpl; try reflexivity.
  eexists. split; [reflexivity |]. repeat split; discriminate.
Qed.

(** X11. Lines 22-24 do not check the port. When the two required
    variables are set the three constants are defined and nothing is
    printed, whatever [PORT] holds: the port is 3000 when [PORT] is not set
    or is the empty string, and it is [NaN] when [PORT] is white space
    only or when its first character after white space is not a digit and
    not a sign. *)
Theorem port_defaults_to_3000_unchecked (env : ProcessEnv) (out : list LogEntry) :
  firstMissing env = None ->
  exists cfg,
    configure env out = (Continue cfg, out)
    /\ (JsTextOps.truthy (envValue env "PORT") = false -> PORT cfg = 3000%float)
    /\ (forall value,
           env "PORT" = Some value -> value <> EmptyString ->
           whitespaceOnly value = true ->
           PORT cfg = PrimFloat.nan)
    /\ (forall value c rest,
           env "PORT" = Some value ->
           JsString.trimStart value = String c rest ->
           is_decimal_digit c = false -> c <> "-"%char -> c <> "+"%char ->
           PORT cfg = PrimFloat.nan).
Proof.
  unfold firstMissing, configure, getEnvVariable, andThen, continue.
  destruct (negb (JsTextOps.truthy (envValue env "MONGODB_URI"))); [discriminate |].
  destruct (negb (JsTextOps.truthy (envValue env "GEMINI_API_KEY"))); [discriminate |].
  intros _. eexists. split; [reflexivity |]. cbn [PORT]. split; [| split].
  - intros Hport. unfold JsTextOps.or. rewrite Hport. reflexivity.
  - intros value Hvalue Hne Hblank.
    unfold envValue. rewrite Hvalue. unfold JsTextOps.or.
    destruct value as [| v0 value]; [contradiction Hne; reflexivity |].
    cbn [JsTextOps.truthy JsString.truthy JsTextOps.toString].
    unfold parseInt10. apply whitespaceOnly_trimStart in Hblank. rewrite Hblank.
    reflexivity.
  - intros value c rest Hvalue Htrim Hdigit Hminus Hplus.
    unfold envValue. rewrite Hvalue. unfold JsTextOps.or.
    destruct value as [| v0 value]; [discriminate Htrim |].
    cbn [JsTextOps.truthy JsString.truthy JsTextOps.toString].
    unfold parseInt10. rewrite Htrim.
    destruct (Ascii.eqb_spec c "-") as [-> |]; [contradiction |].
    destruct (Ascii.eqb_spec c "+") as [-> |]; [contradiction |].
    cbn [readDigits]. rewrite Hdigit. reflexivity.
Qed.

Lemma port_defaults_to_3000_unchecked_witness :
  (exists cfg, configure usualEnv [] = (Continue cfg, []) /\ PORT cfg = 3000%float)
  /\ (exists cfg, configure wordPortEnv [] = (Continue cfg, []) /\ PORT cfg = PrimFloat.nan).
Proof.
  split.
  - destruct (@port_defaults_to_3000_unchecked usualEnv [] eq_refl)
      as (cfg & E & Hdefault & _).
    exists cfg. split; [exact E |]. apply Hdefault. reflexivity.
  - destruct (@port_defaults_to_3000_unchecked wordPortEnv [] eq_refl)
      as (cfg & E & _ & _ & Hnan).
    exists cfg. split; [exact E |].
    apply (Hnan "default" "d"%char "efault"); try reflexivity; discriminate.
Defined.

(** [parseInt] skips white space of every kind, rounds to a double and
    keeps the sign of zero. *)
Example parseInt10_examples :
  (exists cfg, configure paddedPortEnv [] = (Continue cfg, []) /\ PORT cfg = 8080%float)
  /\ parseInt10 "9007199254740993" = 9007199254740992%float
  /\ parseInt10 "-0" = (-0)%float
  /\ parseInt10 "80px" = 80%float
  /\ parseInt10 "+" = PrimFloat.nan.
Proof. split; [eexists; split; reflexivity | repeat split]. Qed.

(** ** The documents the handler builds, against their schemas *)

Lemma required_after_trim (v : JsText) :
  JsTextOps.truthy (setPath {| required := true; trim := true |} v) = false <-> blank v.
Proof.
  destruct v as [| | s]; simpl; try tauto.
  split.
  - intros Hs. apply trim_empty_whitespaceOnly.
    destruct (JsString.trim s); [reflexivity | discriminate Hs].
  - intros Hs. rewrite (trim_whitespaceOnly s Hs). reflexivity.
Qed.

Lemma validated_path (paths : list (SchemaString * string * JsText)) (pathName : string) :
  In pathName (map fst (validatePaths paths))
  <-> exists p, In p paths /\ snd (fst p) = pathName
                /\ required (fst (fst p)) = true /\ JsTextOps.truthy (snd p) = false.
Proof.
  rewrite in_map_iff. split.
  - intros (e & <- & He). apply validatePaths_In in He. destruct He as (p & Hp & He).
    exists p. split; [exact Hp |]. unfold validatePath in He.
    destruct (required (fst (fst p))); [| contradiction].
    destruct (JsTextOps.truthy (snd p)); [contradiction |].
    destruct He as [<- | []]. auto.
  - intros (p & Hp & <- & Hr & Ht).
    exists (snd (fst p), "Path " ++ bq ++ snd (fst p) ++ bq ++ " is required.").
    split; [reflexivity |]. apply validatePaths_In. exists p. split; [exact Hp |].
    unfold validatePath. rewrite Hr, Ht. left. reflexivity.
Qed.

(** X12. The validation of the documents the handler builds: [prompt]
    is always reported as missing, and first when the handler has set the
    other required paths; [name], [phoneNumber] and [description] are
    reported exactly when the entity is not a string or is white space
    only, since the schema trims before it checks, so the handler's own
    test lets a name of spaces through and [save()] stops it;
    [relationship] and [time] are never reported. *)
Theorem built_documents_validation
        (env : Env) (name phoneNumber relationship description time : JsText) :
  let contactPaths :=
    map fst (ContactModel.validate (ContactModel.create env name phoneNumber relationship)) in
  let taskPaths :=
    map fst (TaskModel.validate (TaskModel.create env description time)) in
  In "prompt" contactPaths
  /\ (In "name" contactPaths <-> blank name)
  /\ (In "phoneNumber" contactPaths <-> blank phoneNumber)
  /\ ~ In "relationship" contactPaths
  /\ In "prompt" taskPaths
  /\ (In "description" taskPaths <-> blank description)
  /\ ~ In "time" taskPaths
  /\ (JsTextOps.truthy name = true -> JsTextOps.truthy phoneNumber = true ->
      hd_error contactPaths = Some "prompt")
  /\ hd_error taskPaths = Some "prompt".
Proof.
  cbv zeta. unfold ContactModel.validate, ContactModel.create, TaskModel.validate,
    TaskModel.create. cbn [Contact.name Contact.phoneNumber Contact.prompt
    Contact.relationship Task.prompt Task.description Task.time].
  pose proof (required_after_trim name) as Hname.
  pose proof (required_after_trim phoneNumber) as Hphone.
  pose proof (required_after_trim description) as Hdescription.
  repeat match goal with |- _ /\ _ => split end.
  - apply validated_path. exists (ContactSchema.prompt, "prompt", Undefined).
    simpl. tauto.
  - rewrite validated_path, <- Hname. split.
    + intros (p & [<- | [<- | [<- | [<- | []]]]] & Hn & _ & Ht);
        try discriminate Hn. exact Ht.
    + intros Ht. eexists. split; [left; reflexivity |]. auto.
  - rewrite validated_path, <- Hphone. split.
    + intros (p & [<- | [<- | [<- | [<- | []]]]] & Hn & _ & Ht);
        try discriminate Hn. exact Ht.
    + intros Ht. eexists. split; [right; left; reflexivity |]. auto.
  - rewrite validated_path.
    intros (p & [<- | [<- | [<- | [<- | []]]]] & Hn & Hr & _);
      try discriminate Hn. discriminate Hr.
  - apply validated_path. exists (TaskSchema.prompt, "prompt", Undefined).
    simpl. tauto.
  - rewrite validated_path, <- Hdescription. split.
    + intros (p & [<- | [<- | [<- | []]]] & Hn & _ & Ht);
        try discriminate Hn. exact Ht.
    + intros Ht. eexists. split; [right; left; reflexivity |]. auto.
  - rewrite validated_path.
    intros (p & [<- | [<- | [<- | []]]] & Hn & Hr & _);
      try discriminate Hn. discriminate Hr.
  - intros Hn Hp.
    destruct name as [| | n]; try discriminate Hn.
    destruct phoneNumber as [| | p]; try discriminate Hp.
    unfold validatePaths. cbn [setPath filter isUnset snd negb].
    destruct relationship; reflexivity.
  - unfold validatePaths. cbn [filter isUnset snd negb app flat_map fst].
    reflexivity.
Qed.

Lemma built_documents_validation_witness :
  map fst (ContactModel.validate
             (ContactModel.create devEnv (Str (nbsp ++ " ")) (Str "555-111-2222") Undefined))
  = ["prompt"; "name"]
  /\ blank (Str (nbsp ++ " "))
  /\ map fst (TaskModel.validate (TaskModel.create devEnv (Str "call the doctor") Null))
     = ["prompt"].
Proof.
  pose proof (built_documents_validation devEnv (Str (nbsp ++ " ")) (Str "555-111-2222")
                Undefined (Str "call the doctor") Null) as Hv.
  cbv zeta in Hv.
  split; [reflexivity |]. split; [| reflexivity].
  apply (proj1 (proj2 Hv)). right. left. reflexivity.
Defined.

(** A name of spaces passes the test of the handler and is stopped by
    [save()], whose error names [prompt] first. *)
Example name_of_spaces_passes_the_handler :
  let r := {| intent := "add_contact";
              entities := {| Entities.name := Str "   ";
                             Entities.phoneNumber := Str "555-111-2222";
                             Entities.relationship := Undefined;
                             Entities.description := Undefined;
                             Entities.time := Undefined |};
              targetCollection := Str "contacts"; error := Undefined |} in
  fst (@pipeline litePlatform devEnv r emptyWorld)
  = Normal (Response.ofMessage 500
      ("Internal Server Error: Contact validation failed: prompt: Path "
       ++ bq ++ "prompt" ++ bq ++ " is required., name: Path "
       ++ bq ++ "name" ++ bq ++ " is required.")).
Proof. vm_compute. reflexivity. Qed.

(** ** The pipeline always returns *)

Lemma pipeline_returns `{Platform} (env : Env) (r : GeminiResponse.t) (w : World) :
  exists response w', pipeline env r w = (Normal response, w').
Proof.
  destruct (handleClassification_returns env r w) as (reply & w1 & E).
  unfold pipeline, bind. rewrite E.
  destruct reply; do 2 eexists; reflexivity.
Qed.

(** ** What a request prints *)

Section Appends.
Context {A B : Type}.

Lemma appends_ret (a : A) : appends (ret a).
Proof. intros w. exists []. simpl. rewrite app_nil_r. reflexivity. Qed.

Lemma appends_throw (e : Thrown) : appends (@throw A e).
Proof. intros w. exists []. simpl. rewrite app_nil_r. reflexivity. Qed.

Lemma appends_bind (m : M A) (f : A -> M B) :
  appends m -> (forall a, appends (f a)) -> appends (bind m f).
Proof.
  intros Hm Hf w. unfold bind. destruct (Hm w) as [p1 H1].
  destruct (m w) as [[a | e] w1]; simpl in *.
  - destruct (Hf a w1) as [p2 H2]. exists (p1 ++ p2)%list.
    rewrite H2, H1, app_assoc. reflexivity.
  - exists p1. exact H1.
Qed.

Lemma appends_try (m : M A) (h : Thrown -> M A) :
  appends m -> (forall e, appends (h e)) -> appends (try_catch m h).
Proof.
  intros Hm Hh w. unfold try_catch. destruct (Hm w) as [p1 H1].
  destruct (m w) as [[a | e] w1]; simpl in *.
  - exists p1. exact H1.
  - destruct (Hh e w1) as [p2 H2]. exists (p1 ++ p2)%list.
    rewrite H2, H1, app_assoc. reflexivity.
Qed.
End Appends.

Lemma appends_print lvl msg : appends (console_print lvl msg).
Proof. intros w. eexists. reflexivity. Qed.

Lemma appends_await {A : Type} (c : Completion A) : appends (await_model c).
Proof. destruct c; [apply appends_ret | apply appends_throw]. Qed.

Lemma appends_quiet {A : Type} (m : M A) :
  (forall w, snd (m w) = w) -> appends m.
Proof. intros Hm w. exists []. rewrite Hm, app_nil_r. reflexivity. Qed.

(** The [switch] leaves the world as it found it: its saves are
    rejected, its reads change nothing and it prints nothing. *)
Lemma switchIntent_quiet `{Platform} (env : Env) (i : string) (e : Entities.t) (w : World) :
  snd (switchIntent env i e w) = w.
Proof.
  unfold switchIntent, newRegExp.
  destruct (String.eqb i "add_contact").
  { destruct (JsTextOps.truthy (Entities.name e) && JsTextOps.truthy (Entities.phoneNumber e));
      [unfold bind; rewrite contact_save_rejects |]; reflexivity. }
  destruct (String.eqb i "add_task").
  { destruct (JsTextOps.truthy (Entities.description e));
      [unfold bind; rewrite task_save_rejects |]; reflexivity. }
  destruct (String.eqb i "get_tasks").
  { unfold bind, ret, await_model, throw, TaskModel.find_sorted.
    destruct (JsTextOps.truthy (Entities.time e));
      [destruct (RegExp_i (JsTextOps.toString (Entities.time e))); [| reflexivity] |];
      (destruct (JsTextOps.truthy (Entities.description e));
       [destruct (RegExp_i _); [| reflexivity] |]);
      destruct (dbFault env); reflexivity. }
  destruct (String.eqb i "get_contacts").
  { unfold bind, ret, await_model, throw, ContactModel.find.
    destruct (JsTextOps.truthy (Entities.name e));
      [destruct (RegExp_i _); [| reflexivity] |];
      destruct (dbFault env); reflexivity. }
  reflexivity.
Qed.

Lemma collectionMismatch_targetDiffers (i : string) (target : JsText) :
  collectionMismatch i target = targetDiffers i target.
Proof.
  unfold collectionMismatch, targetDiffers, collectionOf.
  destruct (String.eqb i "add_contact") eqn:E1; simpl.
  - apply String.eqb_eq in E1. subst i. simpl. destruct target; simpl;
      rewrite ?orb_false_r; reflexivity.
  - destruct (String.eqb i "get_contacts") eqn:E2; simpl.
    + apply String.eqb_eq in E2. subst i. simpl. destruct target; simpl;
        rewrite ?orb_false_r; reflexivity.
    + destruct (String.eqb i "add_task" || String.eqb i "get_tasks");
        destruct target; reflexivity.
Qed.

Create HintDb appending.
#[local] Hint Resolve appends_ret appends_throw appends_print appends_await : appending.

Ltac appending :=
  repeat first
    [ progress intros
    | apply appends_bind | apply appends_try
    | solve [unfold console_log, console_warn, console_error, newRegExp;
             auto with appending]
    | match goal with
      | |- context [if ?c then _ else _] => destruct c
      | |- context [match ?x with Return _ => _ | Break _ => _ end] => destruct x
      | |- context [match ?x with Sent _ => _ | Next _ => _ end] => destruct x
      end ].

Lemma appends_handleClassification `{Platform} env r : appends (handleClassification env r).
Proof.
  unfold handleClassification.
  destruct (JsTextOps.truthy (error r) || String.eqb (intent r) "unknown").
  - appending.
  - apply appends_bind; [appending |]. intros _.
    apply appends_bind; [appending |]. intros _.
    apply appends_try; [| appending].
    apply appends_bind; [apply appends_quiet, switchIntent_quiet | appending].
Qed.

Lemma appends_respond env reply : appends (respond env reply).
Proof. unfold respond, errorMiddleware. appending. Qed.

Lemma appends_extractJsonFromString `{Platform} text : appends (extractJsonFromString text).
Proof.
  unfold extractJsonFromString, noJsonFound.
  destruct (exec jsonPattern text); [| appending].
  destruct (JSON_parse _); appending.
Qed.

Section First.
Context {A B : Type}.

Lemma printsFirst_print lvl msg (f : unit -> M A) :
  (forall u, appends (f u)) ->
  printsFirst {| level := lvl; line := msg |} (bind (console_print lvl msg) f).
Proof.
  intros Hf w. unfold bind, console_print.
  destruct (Hf tt {| contacts := contacts w; tasks := tasks w;
                     console := (console w ++ [{| level := lvl; line := msg |}])%list |})
    as [printed Hp].
  exists printed. rewrite Hp. simpl. rewrite <- app_assoc. reflexivity.
Qed.

Lemma printsFirst_bind entry (m : M A) (f : A -> M B) :
  printsFirst entry m -> (forall a, appends (f a)) -> printsFirst entry (bind m f).
Proof.
  intros Hm Hf w. unfold bind. destruct (Hm w) as [p1 H1].
  destruct (m w) as [[a | e] w1]; simpl in *.
  - destruct (Hf a w1) as [p2 H2]. exists (p1 ++ p2)%list.
    rewrite H2, H1, <- app_assoc. reflexivity.
  - exists p1. exact H1.
Qed.

Lemma printsFirst_try entry (m : M A) (h : Thrown -> M A) :
  printsFirst entry m -> (forall e, appends (h e)) -> printsFirst entry (try_catch m h).
Proof.
  intros Hm Hh w. unfold try_catch. destruct (Hm w) as [p1 H1].
  destruct (m w) as [[a | e] w1]; simpl in *.
  - exists p1. exact H1.
  - destruct (Hh e w1) as [p2 H2]. exists (p1 ++ p2)%list.
    rewrite H2, H1, <- app_assoc. reflexivity.
Qed.
End First.

Lemma printsFirst_processTextWithGemini `{Platform} text outcome :
  printsFirst (sendingLine text) (processTextWithGemini text outcome).
Proof.
  unfold processTextWithGemini, sendingLine.
  apply printsFirst_try; [| appending].
  apply (printsFirst_print LOG). intros _.
  apply appends_bind.
  - unfold generateContent. destruct outcome; appending.
  - intros [isNull | blockReason responseText]; [appending |].
    destruct (JsTextOps.truthy blockReason); [appending |].
    apply appends_bind; [appending |]. intros s.
    apply appends_bind; [appending |]. intros _.
    apply appends_bind; [apply appends_extractJsonFromString |].
    intros [parsed |]; appending.
Qed.

(** X14. Every request whose text is not blank prints that text on the
    console, as it was received, before anything else: the first line
    the request adds is "Sending request to Gemini for text: " followed
    by the text between double quotes, whatever the model answers and
    whatever becomes of the request. *)
Theorem request_text_is_logged `{Platform}
        (env : Env) (text : string) (outcome : ModelOutcome) (w : World) :
  whitespaceOnly text = false ->
  exists printed,
    console (snd (app env (Some (JString text)) outcome w))
    = (console w ++ sendingLine text :: printed)%list.
Proof.
  intros Htext. revert w.
  change (printsFirst (sendingLine text) (app env (Some (JString text)) outcome)).
  unfold app, processSpeech. rewrite (valid_text_guard _ Htext).
  apply printsFirst_bind.
  - apply printsFirst_try; [| appending].
    apply printsFirst_bind; [apply printsFirst_processTextWithGemini |].
    intros classified. destruct (asGeminiResponse classified); [| appending].
    apply appends_bind; [apply appends_handleClassification | appending].
  - intros [reply |]; [| appending].
    apply appends_bind; [apply appends_respond | appending].
Qed.

Lemma request_text_is_logged_witness :
  exists printed,
    console (snd (@app litePlatform devEnv (Some (JString doctorText)) (answers doctorJson)
                       emptyWorld))
    = (console emptyWorld ++ sendingLine doctorText :: printed)%list.
Proof.
  apply (@request_text_is_logged litePlatform devEnv doctorText (answers doctorJson)
           emptyWorld).
  reflexivity.
Defined.

(** X15. For a classification without error whose intent is not
    [unknown], the handler prints its "Processing Intent" line, then the
    warning "Intent/Collection mismatch" exactly when the intent is one of
    the four that have a collection and [targetCollection] is not that
    collection ([null] included); an intent outside the five never warns.
    Whatever it prints after that is printed as an error. *)
Theorem mismatch_warning_printed `{Platform}
        (env : Env) (r : GeminiResponse.t) (w : World) :
  JsTextOps.truthy (error r) = false ->
  intent r <> "unknown" ->
  exists after,
    console (snd (pipeline env r w))
    = (console w
       ++ processingLine r
          :: (if targetDiffers (intent r) (targetCollection r)
              then [mismatchLine r] else [])
       ++ after)%list
    /\ Forall isError after.
Proof.
  intros He Hi. apply String.eqb_neq in Hi.
  unfold pipeline, handleClassification. rewrite He, Hi. simpl.
  rewrite collectionMismatch_targetDiffers.
  unfold bind at 1 2 3. unfold console_log at 1. unfold console_print at 1.
  destruct (targetDiffers (intent r) (targetCollection r));
    unfold console_warn, console_print, ret, try_catch, bind;
    match goal with
    | |- context [switchIntent ?a ?b ?c ?w0] =>
        pose proof (switchIntent_quiet a b c w0) as Hq;
        destruct (switchIntent a b c w0) as [[[reply | msg] | err] w1];
        simpl in Hq; subst w1
    end;
    try destruct reply as [response | err];
    unfold respond, errorMiddleware, bind, console_error, console_print, ret; simpl;
    rewrite <- ?app_assoc; simpl;
    eexists; (split; [reflexivity |]);
    repeat constructor.
Qed.

Lemma mismatch_warning_printed_witness :
  exists after,
    console (snd (@pipeline litePlatform devEnv
                            (withTargetCollection (getTasks Undefined Undefined) Null)
                            twoTasks))
    = (console twoTasks
       ++ processingLine (withTargetCollection (getTasks Undefined Undefined) Null)
          :: [mismatchLine (withTargetCollection (getTasks Undefined Undefined) Null)]
       ++ after)%list
    /\ Forall isError after.
Proof.
  apply (@mismatch_warning_printed litePlatform devEnv
           (withTargetCollection (getTasks Undefined Undefined) Null) twoTasks).
  - reflexivity.
  - discriminate.
Defined.
